(* ===== verification/_CoqProject ===== *)
-Q . S2P
Prelude.v
NdArray.v
Pixels.v
Float32.v
Loader.v
Layers.v
Model.v
Evaluate.v
Loss.v
Forward.v
Network.v
Transpose.v
Persistence.v
Training.v
Adam.v
Pipeline.v
