(* ===== verification/Prelude.v ===== *)
(** * A verification development of [src/neural_with_tensorflow.py]

    The program is one Keras script (a Colab export): [load_images] reads
    a folder of images into a numpy array, lines 42-57 build and compile a
    convolutional autoencoder, [train_network] calls [fit(x, x)],
    [visualize_results] and [evaluate_network] run [predict], and
    [save_model] / [load_model] write and read the weights; the
    [__main__] block (lines 98-120) chains them.  The components exchange
    numpy arrays (the loader's output is normalised, fed to [fit],
    [predict] and the evaluation loop) and share one piece of state, the
    model's weights, which [fit] changes and the weight file records.

    ** Files, in dependency order

    - [Prelude.v] (this file): the Python exceptions as [py_error], the
      error monad [result] with stdpp's [x ← c; k] notation (every
      fallible call returns [Ok] or [Err]), [size_of] (numpy's [size]),
      [str.endswith], shared list lemmas, the hint databases [pyae].
    - [NdArray.v], Module [NdArray]: a numpy array is a [shape] and its
      row-major [data]; [stack] is [np.array(list)], [expand_dims_last],
      [repeat_last], [reshape], [slice_head] ([a[:m]]), [rows]
      (iteration), [map_elems], and [binop], element-wise arithmetic with
      numpy's broadcasting, proved equal to [zip_with] on equal shapes.
    - [Pixels.v], Module [Pixels]: line 105's [astype(np.float32) / 255]
      in exact rationals ([normalize]) and numpy's [astype(np.uint8)]
      (truncation then the low 8 bits).
    - [Float32.v], Module [Float32]: IEEE binary32 rounding ([fl32],
      nearest, ties to even) and the float32 versions of lines 105 and
      68; [display32_array] is the display of [visualize_results].
    - [Loader.v], Module [Loader]: [load_images] (lines 28-39) over a file
      system of two stdpp maps ([os.listdir], [Image.open]); a PIL image is
      its mode, size and band values; [img.resize]'s filter is the class
      [Resampler] (its laws: the output size, uint8 values), with PIL's
      nearest filter as an instance.  The loop [load_loop] is proved equal
      to [mapM load_one] over the filtered listing.
    - [Layers.v], Module [Layers]: the Keras layers of line 15 as an
      inductive type and their shape inference ([conv_output_length],
      [deconv_output_length], [Flatten], [Reshape]).
    - [Model.v], Module [Model]: the graph of lines 42-56 as the chain
      [encoder ++ decoder], and the class [Predictor]: the contract of
      [autoencoder.predict] (output shape from the graph's shape inference,
      values in [0, 1] from the final sigmoid) that [Evaluate] and
      [Pipeline] are proved against; [zero_head] (last layer zero: output
      1/2) is an instance.
    - [Evaluate.v], Module [Evaluate]: [evaluate_network] (lines 88-96)
      for any [Predictor].
    - [Loss.v], Module [Loss]: the loss of line 57, Keras'
      [mean_squared_error] (mean over the last axis) and the
      [sum_over_batch_size] reduction of [MeanSquaredError()].
    - [Forward.v], Module [Forward]: the numeric forward pass of each
      layer on one sample as TensorFlow computes it (cross-correlation
      with "same" padding, transposed convolution, ReLU, the sigmoid as
      the class [SigmoidFn] whose law is its range [0, 1], closed since
      float32's sigmoid reaches 1.0), threading the weights of the
      convolutions in order.
    - [Network.v], Module [Network]: [autoencoder.predict] on a batch
      from the forward pass, and [network ws : Predictor], the real
      network as an instance of [Model]'s interface.
    - [Transpose.v], Module [Transpose]: finite sums over index ranges
      ([sum_range], with a [Proper] instance for rewriting under
      binders) and the proof that the modelled [Conv2DTranspose] is the
      transpose of the modelled [Conv2D].
    - [Persistence.v], Module [Persistence]: [save_model] / [load_model]
      (lines 80-85) on a session (weights, files written), for Keras 2 and
      Keras 3, whose [save_weights] accept different names.
    - [Training.v], Module [Training]: [train_network] (lines 60-61) as
      Keras' [fit]: its input checks, then per epoch a permutation of the
      sample indices (class [Shuffler], law: a permutation) cut into
      batches of [batch_size], one optimiser step per batch.  The step
      ([adam_step]) is a section variable: weights, optimiser state and
      [iterations] are the state it threads.
    - [Adam.v], Module [Adam]: the step of [Adam()] (line 57): slots
      built as zeros at the first step, then Keras' [update_step] with
      bias correction on every kernel and bias; the gradient is the class
      [Gradient] (law: the variables' shapes) and [tf.sqrt] the class
      [SqrtFn] (laws: non-negative, positive on positive values).
    - [Pipeline.v], Module [Pipeline]: [display_image] (lines 21-25) as
      one shown figure (title and image), [visualize_results] (lines
      64-77) returning the figures in the order it shows them, and the
      [__main__] block as [main]: a function of the Keras version and of
      the world (files, training state, weight files) that runs the steps
      of lines 102-120 in order and returns the shown figures and the
      printed loss, or the exception that stops the script.

    ** What the theorems show (claims C1-C28)

    - The script: with Keras 2 on a folder of 1- or 3-band images it runs
      to the end, reloads the trained weights, takes 50 * ceil(n/16)
      optimiser steps, prints the mean test loss and shows 3 * min(5, n)
      figures of shape (128, 128, 3) (C1, for any predictor and
      optimiser; its witness runs it with [Network.network] and
      [Adam]); on 8-bit images the printed loss lies in [0, 1] (C14);
      with Keras 3 it stops at [save_model] with [ValueError] (C8); with
      no image in the folder [fit] raises [ValueError] (C22).
    - Loading: the loaded array has shape (n, h, w, 3) with the files in
      listing order (C2); single-band images get three equal channels
      (C5), but a bilevel ("1") image is loaded as 0/1 values, so that
      its white becomes 1/255 once normalised (C6); mixed channel counts
      raise [ValueError] (C12); the first selected file [Image.open]
      cannot read stops the loop with its exception (C13); a folder
      without lower-case ".jpg"/".png" names gives the empty (0,) array
      (C26).
    - Model: the graph builds exactly for inputs with
      [ceil(h/4) * ceil(w/4) = 1024] and then outputs (128, 128, 3) (C3),
      so the output matches the input only for the declared input shape
      (C4).
    - Evaluation: the printed loss is the mean of the per-sample mean
      squared errors (C7), and an empty test set raises
      [ZeroDivisionError] (C19).  It is also the loss of line 57, Keras'
      [MeanSquaredError()], on the whole test set when [predict] is
      applied sample by sample (C15).
    - Forward pass: the network meets the [predict] contract on
      (n, 128, 128, 3) batches (C16); [Flatten] then
      [Reshape((32, 32, 256))] (lines 48-49) is the identity (C17);
      [Conv2DTranspose] is the adjoint of [Conv2D] with the same kernel,
      [<conv x, y> = <x, conv_transpose y>] (C18), which checks the
      padding, stride and kernel layout of the two models against each
      other.
    - Training: [iterations] grows by epochs * ceil(n / batch_size) (C9);
      the target is the input (C21); an empty set raises [ValueError]
      (C27).  [Adam()]: training keeps the weights' shapes and the slots'
      invariant (slots of the weights' shapes, velocities non-negative)
      (C10); every step moves each weight against its new momentum, on
      the first step against its gradient (C11).
    - Weights: a save is restored by a load (C20); a load before any save
      fails (C28).
    - Pixels: normalised values in [0, 1] (C23).  In float32: the
      normalise-then-display round trip is exact for all 256 byte values
      (C24), and the display cast of a value in [0, 1] is the floor of
      the rounded product, at most 255, so it never wraps (C25).

    ** Choices and limits

    All recursion is structural (lists, shapes, epochs, batches): no fuel
    is needed.  Floats are exact rationals [Q], except in [Float32.v],
    which rounds the two pixel conversions as float32 does; the display
    of line 68 is modelled with that rounding, the normalisation of line
    105 exactly (the bounds hold either way), and the network's own
    float32 arithmetic is not rounded.  The sigmoid's law is the closed
    range [0, 1], which float32 reaches, so no theorem relies on outputs
    strictly inside (0, 1).  Sizes are [nat] and [size_of] is opaque to
    [simpl] so that 128 * 128 * 3 is never unfolded into a unary
    numeral.  The forward pass is executable (it evaluates on small
    samples with [vm_compute]) but its theorems are proved for all
    inputs, never by running it on a 128 x 128 image.  Not modelled: the
    value of the sigmoid (only its range), the gradient of the loss
    (automatic differentiation; only its shape), [tf.sqrt]'s value (only
    its sign), random shuffling (any permutation), matplotlib's layout
    (subplots, figure size, axes) and the HDF5 byte format (a weight file
    holds the weights themselves).

    ** Plan for the next parts

    1. [Loader.v]: Pillow's default filter for [img.resize] on L and
       RGB images (bicubic, clamped to [0, 255]; nearest is the default
       only for modes 1 and P) as a second instance of [Resampler].
    2. [Float32.v]: the normalisation of line 105 in float32 inside
       [main], with the bounds of C23 carried over to [normalize32]. *)

From stdpp Require Export base list strings.
From Stdlib Require Export ZArith Lia.

Declare Scope pyae_scope.
Delimit Scope pyae_scope with pyae.

Create HintDb pyae discriminated.
Create Rewrite HintDb pyae.

(** ** Python exceptions *)

(** The exceptions the script's calls raise, by their Python names.
    [KerasShapeError] is the [ValueError] Keras raises when a layer is
    applied to a tensor of an incompatible shape; it is kept apart from
    numpy's [ValueError] so that theorems can say which library fails. *)
Inductive py_error :=
  | ValueError
  | ZeroDivisionError
  | FileNotFoundError
  | UnidentifiedImageError
  | AxisError
  | TypeError
  | IndexError
  | KerasShapeError.

#[export] Instance py_error_eq_dec : EqDecision py_error.
Proof. solve_decision. Defined.

(** ** The error monad *)

Inductive result (A : Type) :=
  | Ok (a : A)
  | Err (e : py_error).
Arguments Ok {A} a.
Arguments Err {A} e.

#[export] Instance result_eq_dec `{EqDecision A} : EqDecision (result A).
Proof. solve_decision. Defined.

#[export] Instance result_ret : MRet result := @Ok.
#[export] Instance result_bind : MBind result :=
  λ A B f r, match r with Ok a => f a | Err e => Err e end.
#[export] Instance result_fmap : FMap result :=
  λ A B f r, match r with Ok a => Ok (f a) | Err e => Err e end.

(** [raise e]: the Python statement that aborts with [e]. *)
Definition raise {A} (e : py_error) : result A := Err e.

(** [guard b e]: continue when [b] holds, raise [e] otherwise. *)
Definition check (b : bool) (e : py_error) : result unit :=
  if b then Ok () else Err e.

(** ** Shapes *)

(** The number of elements of an array of shape [s]: numpy's [size],
    the product of the dimensions (1 for the 0-d shape [()]). *)
Definition size_of (s : list nat) : nat := foldr Nat.mul 1 s.

(** [simpl] must not unfold a product such as [128 * 128 * 3] into a
    unary numeral: the lemmas below rewrite it instead. *)
Arguments size_of : simpl never.

(** ** Strings *)

(** [str.endswith] and [str.startswith] *)
Definition ends_with (suffix s : string) : bool :=
  let n := String.length s in
  let m := String.length suffix in
  (m <=? n)%nat && String.eqb (String.substring (n - m) m s) suffix.

Definition starts_with (pre s : string) : bool := String.prefix pre s.

(** ** Lemmas on the monad *)

Lemma bind_Ok {A B} (a : A) (f : A → result B) : (Ok a ≫= f) = f a.
Proof. reflexivity. Qed.

Lemma bind_Err {A B} (e : py_error) (f : A → result B) : (Err e ≫= f) = Err e.
Proof. reflexivity. Qed.

Lemma ret_Ok {A} (a : A) : mret a = Ok a.
Proof. reflexivity. Qed.

Lemma check_true e : check true e = Ok ().
Proof. reflexivity. Qed.

Lemma check_false e : check false e = Err e.
Proof. reflexivity. Qed.

Lemma bind_eq_Ok {A B} (r : result A) (f : A → result B) b :
  (r ≫= f) = Ok b ↔ ∃ a, r = Ok a ∧ f a = Ok b.
Proof. destruct r; simpl; split; [eauto|intros (?&?&?); congruence|discriminate|intros (?&?&?); congruence]. Qed.

#[export] Hint Rewrite @bind_Ok @bind_Err @ret_Ok check_true check_false : pyae.

(** [py_simp]: evaluate the monad on known results, then clean up. *)
Ltac py_simp :=
  repeat (progress (autorewrite with pyae in *; simplify_eq/=)).

(** [mapM] in [result]: a loop that stops at the first exception. *)
Lemma mapM_result_nil {A B} (f : A → result B) : mapM f [] = Ok [].
Proof. reflexivity. Qed.

Lemma mapM_result_cons {A B} (f : A → result B) x l :
  mapM f (x :: l) = (y ← f x; ys ← mapM f l; Ok (y :: ys)).
Proof. reflexivity. Qed.

#[export] Hint Rewrite @mapM_result_nil @mapM_result_cons : pyae.

Lemma mapM_Ok_Forall2 {A B} (f : A → result B) (l : list A) (l' : list B) :
  mapM f l = Ok l' ↔ Forall2 (λ a b, f a = Ok b) l l'.
Proof.
  revert l'. induction l as [|x l IH]; intros l'.
  - rewrite mapM_result_nil. split; [intros; simplify_eq; constructor|].
    by intros ->%Forall2_nil_inv_l.
  - rewrite mapM_result_cons, bind_eq_Ok. setoid_rewrite bind_eq_Ok.
    split.
    + intros (b & Hb & bs & Hbs & [= <-]). constructor; [done|]. by apply IH.
    + intros (b & bs & Hb & Hbs & ->)%Forall2_cons_inv_l.
      exists b. split; [done|]. exists bs. split; [by apply IH|done].
Qed.

Lemma size_of_nil : size_of [] = 1.
Proof. reflexivity. Qed.

Lemma size_of_cons d s : size_of (d :: s) = d * size_of s.
Proof. reflexivity. Qed.

Lemma size_of_app s1 s2 : size_of (s1 ++ s2) = size_of s1 * size_of s2.
Proof.
  induction s1 as [|d s1 IH]; cbn [app]; rewrite ?size_of_cons, ?size_of_nil; [lia|].
  rewrite IH. lia.
Qed.

#[export] Hint Rewrite size_of_nil size_of_cons size_of_app : pyae.

(** ** Lists *)

Lemma length_flat_map_replicate {A} (r : nat) (l : list A) :
  length (flat_map (replicate r) l) = r * length l.
Proof.
  induction l as [|x l IH]; simpl; [lia|].
  rewrite length_app, length_replicate, IH. lia.
Qed.

Lemma length_concat_const {A} (k : nat) (ls : list (list A)) :
  Forall (λ l, length l = k) ls → length (concat ls) = length ls * k.
Proof.
  induction 1 as [|l ls Hl _ IH]; simpl; [done|].
  rewrite length_app, Hl, IH. lia.
Qed.

#[export] Hint Resolve length_concat_const : pyae.

Lemma length_flat_map_const {A B} (k : nat) (f : A → list B) (l : list A) :
  (∀ x, length (f x) = k) → length (flat_map f l) = length l * k.
Proof.
  intros Hf. induction l as [|x l IH]; simpl; [done|].
  rewrite length_app, Hf, IH. lia.
Qed.

(** A [mapM] loop whose every step succeeds succeeds. *)
Lemma mapM_Forall_Ok {A B} (f : A → result B) (P : B → Prop) (l : list A) :
  Forall (λ x, ∃ y, f x = Ok y ∧ P y) l →
  ∃ ys, mapM f l = Ok ys ∧ Forall P ys ∧ Forall2 (λ x y, f x = Ok y) l ys.
Proof.
  induction 1 as [|x l (y & Hy & Py) _ (ys & Hys & Pys & F2)].
  - exists []. repeat constructor.
  - exists (y :: ys). rewrite mapM_result_cons, Hy, bind_Ok, Hys, bind_Ok.
    repeat constructor; done.
Qed.

(** A member of a list a [mapM] loop succeeded on has its image among the
    results. *)
Lemma Forall2_elem_l {A B} (P : A → B → Prop) (l : list A) (ys : list B) x :
  Forall2 P l ys → x ∈ l → ∃ y, y ∈ ys ∧ P x y.
Proof.
  intros HF (i & Hi)%list_elem_of_lookup.
  destruct (Forall2_lookup_l _ _ _ _ _ HF Hi) as (y & Hy & HP).
  exists y. split; [by eapply list_elem_of_lookup_2|done].
Qed.

(** Position [r * p + c] of a list whose elements were each repeated [r]
    times holds element [p]. *)
Lemma lookup_flat_map_replicate {A} (r p c : nat) (l : list A) :
  c < r → flat_map (replicate r) l !! (r * p + c) = l !! p.
Proof.
  intros Hc. revert p. induction l as [|x l IH]; intros p; simpl.
  - done.
  - destruct p as [|p].
    + rewrite lookup_app_l by (rewrite length_replicate; lia).
      rewrite Nat.mul_0_r. by apply lookup_replicate_2.
    + rewrite lookup_app_r by (rewrite length_replicate; lia).
      rewrite length_replicate. replace (r * S p + c - r) with (r * p + c) by lia.
      apply IH.
Qed.

Lemma Forall_zip_with_2 {A B C} (P : A → Prop) (Q : B → Prop) (R : C → Prop)
    (f : A → B → C) (l1 : list A) (l2 : list B) :
  Forall P l1 → Forall Q l2 → (∀ a b, P a → Q b → R (f a b)) →
  Forall R (zip_with f l1 l2).
Proof.
  intros H1. revert l2. induction H1 as [|a l1 Ha _ IH]; intros l2 H2 Hf; [constructor|].
  destruct H2 as [|b l2 Hb H2]; simpl; constructor; auto.
Qed.

(** A [mapM] loop whose steps give known results. *)
Lemma mapM_Forall2_Ok {A B C} (f : A → result B) (g : C → B) (l : list A) (cs : list C) :
  Forall2 (λ x c, f x = Ok (g c)) l cs → mapM f l = Ok (map g cs).
Proof.
  induction 1 as [|x c l cs Hx _ IH]; [done|].
  rewrite mapM_result_cons, Hx, bind_Ok, IH. reflexivity.
Qed.

Lemma Forall_flat_map_replicate {A} (P : A → Prop) r (l : list A) :
  Forall P l → Forall P (flat_map (replicate r) l).
Proof.
  induction 1 as [|x l Hx _ IH]; simpl; [constructor|].
  apply Forall_app. split; [by apply Forall_replicate|done].
Qed.

(** [mapM] stops at the first element that fails, with its error. *)
(** A property every step of a [fold_left] keeps holds at its end. *)
Lemma fold_left_invariant {A B} (P : A → Prop) (f : A → B → A) (l : list B) (a : A) :
  (∀ a b, P a → P (f a b)) → P a → P (fold_left f l a).
Proof. intros Hf. revert a. induction l as [|b l IH]; intros a Ha; simpl; auto. Qed.

Lemma mapM_app_Err {A B} (f : A → result B) pre x post e :
  Forall (λ a, ∃ b, f a = Ok b) pre → f x = Err e → mapM f (pre ++ x :: post) = Err e.
Proof.
  induction 1 as [|a pre (b & Hb) _ IH]; intros Hx.
  - by rewrite app_nil_l, mapM_result_cons, Hx.
  - rewrite <- app_comm_cons, mapM_result_cons, Hb, bind_Ok, IH by done. done.
Qed.

Lemma Forall2_elem_r {A B} (P : A → B → Prop) (l : list A) (ys : list B) y :
  Forall2 P l ys → y ∈ ys → ∃ x, x ∈ l ∧ P x y.
Proof.
  intros HF (i & Hi)%list_elem_of_lookup.
  destruct (Forall2_lookup_r _ _ _ _ _ HF Hi) as (x & Hx & HP).
  exists x. split; [by eapply list_elem_of_lookup_2|done].
Qed.
