(* ===== verification/NdArray.v ===== *)
(** * numpy arrays

    An n-dimensional numpy array is its [shape] and its elements in
    row-major (C) order, which is how numpy lays out the arrays the
    script builds.  The operations are the ones the script calls:
    [np.expand_dims(img, axis=-1)] and [np.repeat(img, 3, axis=-1)]
    (src lines 35-37), [np.array(images)] on a list of arrays (line 39),
    [img.reshape(...)] (lines 66, 67, 91), slicing [train_data[:5]]
    (line 65), iteration [for img in data] over the first axis (lines 65,
    90) and element-wise maps ([astype], [/ 255.0], [* 255]). *)

From S2P Require Import Prelude.

Module NdArray.

Record ndarray (A : Type) := mk_ndarray { shape : list nat; data : list A }.
Arguments mk_ndarray {A} shape data.
Arguments shape {A} _.
Arguments data {A} _.

(** Well-formedness: as many elements as the shape says. *)
Definition wf {A} (a : ndarray A) : Prop := length (data a) = size_of (shape a).

#[export] Instance wf_dec {A} (a : ndarray A) : Decision (wf a).
Proof. unfold wf. apply _. Defined.

(** [np.expand_dims(a, axis=-1)]: a new last axis of length 1. *)
Definition expand_dims_last {A} (a : ndarray A) : ndarray A :=
  mk_ndarray (shape a ++ [1]) (data a).

(** [np.repeat(a, r, axis=-1)]: every element repeated [r] times along the
    last axis; in row-major order each element is followed by its copies.
    A 0-d array has no axis -1: numpy raises [AxisError]. *)
Definition repeat_last {A} (r : nat) (a : ndarray A) : result (ndarray A) :=
  match last (shape a) with
  | None => Err AxisError
  | Some k => Ok (mk_ndarray (removelast (shape a) ++ [k * r])
                             (flat_map (replicate r) (data a)))
  end.

(** [a.reshape(s)]: same elements, new shape; [ValueError] when the sizes
    differ. *)
Definition reshape {A} (a : ndarray A) (s : list nat) : result (ndarray A) :=
  if decide (size_of s = size_of (shape a)) then Ok (mk_ndarray s (data a))
  else Err ValueError.

(** [np.array(l)] on a Python list of arrays: stacks them along a new first
    axis when they all have the shape of the first one; an inhomogeneous
    list raises [ValueError] (numpy 1.24 and later).  The empty list gives
    the empty 1-d array of shape [(0,)]. *)
Definition stack {A} (l : list (ndarray A)) : result (ndarray A) :=
  match l with
  | [] => Ok (mk_ndarray [0] [])
  | a :: _ =>
      if forallb (λ b, bool_decide (shape b = shape a)) l
      then Ok (mk_ndarray (length l :: shape a) (concat (map data l)))
      else Err ValueError
  end.

(** The first [n] consecutive blocks of length [k] of a list. *)
Fixpoint chunks {A} (k n : nat) (l : list A) : list (list A) :=
  match n with
  | 0 => []
  | S n' => take k l :: chunks k n' (drop k l)
  end.

(** [for x in a]: the sub-arrays along the first axis, in order.
    Iterating over a 0-d array raises [TypeError]. *)
Definition rows {A} (a : ndarray A) : result (list (ndarray A)) :=
  match shape a with
  | [] => Err TypeError
  | n :: s => Ok (map (mk_ndarray s) (chunks (size_of s) n (data a)))
  end.

(** [a[:m]]: the first [min m n] rows; a 0-d array cannot be sliced
    ([IndexError]). *)
Definition slice_head {A} (m : nat) (a : ndarray A) : result (ndarray A) :=
  match shape a with
  | [] => Err IndexError
  | n :: s => Ok (mk_ndarray (min m n :: s) (take (min m n * size_of s) (data a)))
  end.

(** Element-wise maps: [a.astype(t)], [a / c], [a * c]. *)
Definition map_elems {A B} (f : A → B) (a : ndarray A) : ndarray B :=
  mk_ndarray (shape a) (map f (data a)).

(** ** Broadcasting ([a - b], [a ** 2], ...) *)

(** numpy's broadcast rule on reversed (right-aligned) shapes: equal
    lengths stay, a length 1 stretches, anything else is an error. *)
Fixpoint bcast_rev (r1 r2 : list nat) : option (list nat) :=
  match r1, r2 with
  | [], r | r, [] => Some r
  | d1 :: r1', d2 :: r2' =>
      d ← (if decide (d1 = d2) then Some d1
           else if decide (d1 = 1) then Some d2
           else if decide (d2 = 1) then Some d1 else None);
      r ← bcast_rev r1' r2';
      Some (d :: r)
  end.

Definition broadcast_shape (s1 s2 : list nat) : option (list nat) :=
  @rev nat <$> bcast_rev (rev s1) (rev s2).

(** All multi-indices of a shape, in row-major order. *)
Fixpoint indices (s : list nat) : list (list nat) :=
  match s with
  | [] => [[]]
  | d :: s' => flat_map (λ i, map (cons i) (indices s')) (seq 0 d)
  end.

(** The position of a multi-index in the row-major data. *)
Fixpoint flat_index (s idx : list nat) : nat :=
  match s, idx with
  | d :: s', i :: idx' => i * size_of s' + flat_index s' idx'
  | _, _ => 0
  end.

(** The index of an input of shape [s] that a result index reads:
    the trailing components, 0 along the stretched axes. *)
Definition bcast_index (s idx : list nat) : list nat :=
  zip_with (λ d i, if decide (d = 1) then 0 else i) s (drop (length idx - length s) idx).

Definition get {A} `{Inhabited A} (a : ndarray A) (idx : list nat) : A :=
  nth (flat_index (shape a) idx) (data a) inhabitant.

(** A binary element-wise operation with broadcasting; incompatible
    shapes raise [ValueError]. *)
Definition binop {A B C} `{Inhabited A, Inhabited B} (f : A → B → C)
    (a : ndarray A) (b : ndarray B) : result (ndarray C) :=
  match broadcast_shape (shape a) (shape b) with
  | None => Err ValueError
  | Some s =>
      Ok (mk_ndarray s (map (λ idx, f (get a (bcast_index (shape a) idx))
                                      (get b (bcast_index (shape b) idx)))
                            (indices s)))
  end.

(** ** Blocks *)

Lemma length_chunks {A} k n (l : list A) : length (chunks k n l) = n.
Proof. revert l. induction n; intros l; simpl; auto. Qed.

Lemma chunks_concat {A} k (ls : list (list A)) :
  Forall (λ l, length l = k) ls → chunks k (length ls) (concat ls) = ls.
Proof.
  induction 1 as [|l ls Hl _ IH]; simpl; [done|].
  rewrite take_app_length' by done. rewrite drop_app_length' by done.
  by rewrite IH.
Qed.

Lemma concat_chunks {A} k n (l : list A) :
  length l = n * k → concat (chunks k n l) = l.
Proof.
  revert l. induction n as [|n IH]; intros l Hl; simpl.
  - destruct l; simpl in *; [done|lia].
  - rewrite IH by (rewrite length_drop; lia). apply take_drop.
Qed.

Lemma chunks_length {A} k n (l : list A) :
  length l = n * k → Forall (λ c, length c = k) (chunks k n l).
Proof.
  revert l. induction n as [|n IH]; intros l Hl; simpl; constructor.
  - rewrite length_take. lia.
  - apply IH. rewrite length_drop. lia.
Qed.

#[export] Hint Resolve chunks_length : pyae.

(** ** Well-formedness of each operation *)

Lemma expand_dims_last_wf {A} (a : ndarray A) : wf a → wf (expand_dims_last a).
Proof. unfold wf, expand_dims_last; simpl. rewrite size_of_app, size_of_cons, size_of_nil. lia. Qed.

Lemma repeat_last_wf {A} r (a b : ndarray A) :
  wf a → repeat_last r a = Ok b → wf b.
Proof.
  unfold wf, repeat_last. destruct (last (shape a)) as [k|] eqn:E; [|done].
  intros Ha [= <-]. simpl. rewrite length_flat_map_replicate, Ha.
  apply last_Some in E as [s ->]. rewrite removelast_last, !size_of_app, !size_of_cons, size_of_nil. lia.
Qed.

Lemma reshape_Ok {A} (a : ndarray A) s :
  size_of s = size_of (shape a) → reshape a s = Ok (mk_ndarray s (data a)).
Proof. intros H. unfold reshape. by rewrite decide_True. Qed.

Lemma reshape_wf {A} (a b : ndarray A) s : wf a → reshape a s = Ok b → wf b.
Proof.
  unfold wf, reshape. case_decide; [|done]. intros Ha [= <-]. simpl. lia.
Qed.

Lemma map_elems_wf {A B} (f : A → B) a : wf a → wf (map_elems f a).
Proof. unfold wf, map_elems. simpl. by rewrite length_map. Qed.

#[export] Hint Resolve expand_dims_last_wf repeat_last_wf reshape_wf map_elems_wf : pyae.

(** ** Stacking, iterating, slicing, reshaping *)

Lemma ndarray_eta {A} (a : ndarray A) : mk_ndarray (shape a) (data a) = a.
Proof. by destruct a. Qed.

Lemma stack_homogeneous {A} (l : list (ndarray A)) s :
  l ≠ [] → Forall (λ b, shape b = s) l →
  stack l = Ok (mk_ndarray (length l :: s) (concat (map data l))).
Proof.
  destruct l as [|a l']; [done|]. intros _ Hs. unfold stack.
  assert (shape a = s) as Ha by (by inversion Hs).
  assert (forallb (λ b, bool_decide (shape b = shape a)) (a :: l') = true) as ->.
  { apply forallb_forall. intros b Hb%list_elem_of_In. apply bool_decide_eq_true.
    rewrite Forall_forall in Hs. rewrite Ha. by apply Hs. }
  by rewrite Ha.
Qed.

Lemma stack_inhomogeneous {A} (l : list (ndarray A)) a b :
  a ∈ l → b ∈ l → shape a ≠ shape b → stack l = Err ValueError.
Proof.
  destruct l as [|c l']; [by intros ?%elem_of_nil|]. intros Ha Hb Hab. unfold stack.
  destruct (forallb (λ b, bool_decide (shape b = shape c)) (c :: l')) eqn:E; [|done].
  exfalso.
  rewrite forallb_forall in E.
  apply list_elem_of_In, E, bool_decide_eq_true in Ha.
  apply list_elem_of_In, E, bool_decide_eq_true in Hb. congruence.
Qed.

(** Iterating over a stacked list gives the list back. *)
Lemma stack_rows {A} (l : list (ndarray A)) s :
  l ≠ [] → Forall (λ b, shape b = s ∧ wf b) l →
  ∃ a, stack l = Ok a ∧ shape a = length l :: s ∧ wf a ∧ rows a = Ok l.
Proof.
  intros Hne Hl. eexists. rewrite (stack_homogeneous l s Hne) by (eapply Forall_impl; [done|naive_solver]).
  split; [done|]. split; [done|]. unfold wf, rows. simpl.
  assert (Forall (λ d, length d = size_of s) (map data l)) as Hd.
  { apply Forall_map. eapply Forall_impl; [done|]. intros b [<- Hb]. exact Hb. }
  split.
  - rewrite (length_concat_const (size_of s)) by done. by rewrite length_map.
  - rewrite <- (length_map data l). rewrite chunks_concat by done.
    f_equal. rewrite map_map. rewrite <- (map_id l) at 2. apply map_ext_Forall.
    eapply Forall_impl; [done|]. intros b [<- _]. apply ndarray_eta.
Qed.

(** Iterating over a well-formed array gives [n] well-formed rows. *)
Lemma rows_Ok_wf {A} (a : ndarray A) n s :
  wf a → shape a = n :: s →
  ∃ l, rows a = Ok l ∧ length l = n ∧ Forall (λ b, shape b = s ∧ wf b) l.
Proof.
  unfold wf, rows. intros Ha Hs. rewrite Hs in *. eexists. split; [done|].
  split; [by rewrite length_map, length_chunks|].
  apply Forall_map. eapply Forall_impl; [apply chunks_length; rewrite Ha, size_of_cons; lia|].
  intros c Hc. split; [done|]. exact Hc.
Qed.

(** Stacking keeps a property of all the elements. *)
Lemma stack_Forall {A} (P : A → Prop) (l : list (ndarray A)) a :
  stack l = Ok a → Forall (λ b, Forall P (data b)) l → Forall P (data a).
Proof.
  unfold stack. destruct l as [|b l]; [intros [= <-]; constructor|].
  destruct (forallb _ _); [|done]. intros [= <-] Hl.
  change (Forall P (concat (map data (b :: l)))). apply Forall_concat, Forall_map. exact Hl.
Qed.

(** The rows of a well-formed array, put end to end, are its data. *)
Lemma rows_concat {A} (a : ndarray A) l : wf a → rows a = Ok l → concat (map data l) = data a.
Proof.
  unfold wf, rows. destruct (shape a) as [|n s]; [done|]. intros Ha [= <-].
  rewrite map_map. cbn [data]. rewrite map_id. apply concat_chunks. rewrite Ha, size_of_cons. lia.
Qed.

(** The rows of an array hold elements of the array. *)
Lemma rows_Forall {A} (P : A → Prop) (a : ndarray A) l :
  Forall P (data a) → rows a = Ok l → Forall (λ b, Forall P (data b)) l.
Proof.
  unfold rows. destruct (shape a) as [|n s]; [done|]. intros HP [= <-].
  apply Forall_map. generalize (data a) HP. clear HP.
  induction n as [|n IH]; intros d HP; simpl; constructor.
  - by apply Forall_take.
  - apply IH. by apply Forall_drop.
Qed.

(** ** Broadcasting on equal shapes *)

Lemma map_add_seq m j k : map (Nat.add m) (seq j k) = seq (m + j) k.
Proof.
  revert j. induction k as [|k IH]; intros j; simpl; [done|].
  f_equal. rewrite IH. f_equal. lia.
Qed.

Lemma seq_blocks k d a :
  flat_map (λ i, seq (i * k) k) (seq a d) = seq (a * k) (d * k).
Proof.
  revert a. induction d as [|d IH]; intros a; simpl; [done|].
  rewrite IH. replace (S a * k) with (a * k + k) by lia.
  by rewrite <- seq_app.
Qed.

Lemma indices_flat s : map (flat_index s) (indices s) = seq 0 (size_of s).
Proof.
  induction s as [|d s IH]; simpl; [done|].
  rewrite size_of_cons, flat_map_concat_map, concat_map, map_map.
  erewrite map_ext; [|intros i; rewrite map_map; simpl; reflexivity].
  erewrite map_ext; [|intros i; rewrite <- (map_map (flat_index s) (Nat.add (i * size_of s))),
                              IH, map_add_seq, Nat.add_0_r; reflexivity].
  rewrite <- flat_map_concat_map, seq_blocks. done.
Qed.

Lemma indices_bounds s : Forall (λ idx, Forall2 lt idx s) (indices s).
Proof.
  induction s as [|d s IH]; simpl; [repeat constructor|].
  apply Forall_forall. intros idx (i & Hi & Hidx)%list_elem_of_In%in_flat_map.
  apply in_map_iff in Hidx as (idx' & <- & Hin). apply in_seq in Hi.
  constructor; [lia|]. rewrite Forall_forall in IH. apply IH, list_elem_of_In, Hin.
Qed.

Lemma bcast_index_id s idx : Forall2 lt idx s → bcast_index s idx = idx.
Proof.
  intros HF. unfold bcast_index. rewrite (Forall2_length _ _ _ HF), Nat.sub_diag, drop_0.
  induction HF as [|i d idx s Hi _ IH]; simpl; [done|].
  rewrite IH. case_decide; [f_equal; lia|done].
Qed.

Lemma bcast_rev_same r : bcast_rev r r = Some r.
Proof. induction r as [|d r IH]; simpl; [done|]. rewrite decide_True, IH; done. Qed.

Lemma broadcast_shape_same s : broadcast_shape s s = Some s.
Proof. unfold broadcast_shape. rewrite bcast_rev_same. simpl. by rewrite rev_involutive. Qed.

Lemma map_nth_seq_zip {A B C} (f : A → B → C) (l1 : list A) (l2 : list B) d1 d2 :
  length l1 = length l2 →
  map (λ i, f (nth i l1 d1) (nth i l2 d2)) (seq 0 (length l1)) = zip_with f l1 l2.
Proof.
  revert l2. induction l1 as [|x l1 IH]; intros [|y l2] Hl; simpl in *; try done.
  f_equal. rewrite <- seq_shift, map_map. apply IH. lia.
Qed.

(** On two arrays of the same shape, broadcasting is the plain
    element-wise [zip_with] of their data. *)
Lemma binop_same_shape {A B C} `{Inhabited A, Inhabited B} (f : A → B → C) a b :
  shape a = shape b → wf a → wf b →
  binop f a b = Ok (mk_ndarray (shape a) (zip_with f (data a) (data b))).
Proof.
  intros Hs Ha Hb. unfold binop. rewrite <- Hs, broadcast_shape_same. do 2 f_equal.
  unfold wf in *. rewrite <- Hs in Hb.
  rewrite <- (map_nth_seq_zip f _ _ inhabitant inhabitant) by congruence.
  rewrite Ha, <- indices_flat, map_map. apply map_ext_Forall.
  eapply Forall_impl; [apply indices_bounds|]. intros idx Hidx. simpl.
  unfold get. by rewrite <- Hs, bcast_index_id.
Qed.

(** ** Witnesses *)

End NdArray.
