(* ===== verification/Pixels.v ===== *)
(** * Pixel arithmetic

    The conversions between uint8 pixels and the floats the network
    sees: the normalisation [train_data.astype(np.float32) / 255.0] of the
    main block (src line 105), in exact rationals [Q], and the cast
    [astype(np.uint8)] that the display conversion of [visualize_results]
    (line 68) ends with.  [Float32.v] adds float32 rounding to both
    conversions, and the pipeline displays with it.  [astype(np.uint8)] on
    a float truncates toward zero and keeps the low 8 bits of the result,
    which is what numpy does on the platforms the script runs on for values
    inside the range of a C int. *)

From S2P Require Import Prelude NdArray.
From Stdlib Require Import QArith Qround Lqa.

Module Pixels.

Local Open Scope Z_scope.

(** A value of dtype uint8. *)
Definition is_uint8 (v : Z) : bool := (0 <=? v) && (v <=? 255).

(** [np.float32(v) / 255.0] *)
Definition normalize (v : Z) : Q := (inject_Z v / 255)%Q.

(** C's float-to-integer conversion: truncation toward zero. *)
Definition trunc (q : Q) : Z :=
  if Qle_bool 0 q then Qfloor q else - Qfloor (- q).

(** [astype(np.uint8)] on a float: truncate, keep the low 8 bits. *)
Definition astype_uint8 (q : Q) : Z := trunc q mod 256.

(** Line 105 on the whole array. *)
Definition normalize_array (a : NdArray.ndarray Z) : NdArray.ndarray Q :=
  NdArray.map_elems normalize a.

(** ** Lemmas *)

Lemma is_uint8_spec v : is_uint8 v = true ↔ 0 <= v <= 255.
Proof. unfold is_uint8. rewrite andb_true_iff, Z.leb_le, Z.leb_le. done. Qed.

Lemma trunc_nonneg q : (0 <= q)%Q → trunc q = Qfloor q.
Proof. intros H. unfold trunc. by rewrite (proj2 (Qle_bool_iff 0 q) H). Qed.

(** The floor of a rational in [[lo, hi)] is in [[lo, hi)]. *)
Lemma Qfloor_range (q : Q) (lo hi : Z) :
  (inject_Z lo <= q)%Q → (q < inject_Z hi)%Q → lo <= Qfloor q < hi.
Proof.
  intros H1 H2. split.
  - apply Qfloor_resp_le in H1. by rewrite Qfloor_Z in H1.
  - destruct (Z.lt_ge_cases (Qfloor q) hi) as [|Hge]; [done|]. exfalso.
    rewrite Zle_Qle in Hge. pose proof (Qfloor_le q). lra.
Qed.

Lemma inject_Z_0 : inject_Z 0 = 0%Q.
Proof. reflexivity. Qed.

(** [astype(np.uint8)] of a value in [[0, 256)] is its floor. *)
Lemma astype_uint8_small (q : Q) :
  (0 <= q)%Q → (q < 256)%Q → astype_uint8 q = Qfloor q.
Proof.
  intros H0 H1. unfold astype_uint8. rewrite trunc_nonneg by done.
  apply Z.mod_small. apply Qfloor_range; [by rewrite inject_Z_0|exact H1].
Qed.

(** [v / 255] of a value in [[0, 255]] is in [[0, 1]]. *)
Lemma normalize_unit v : 0 <= v <= 255 → (0 <= normalize v <= 1)%Q.
Proof.
  intros [H0 H1]. unfold normalize. rewrite Zle_Qle in H0, H1. split.
  - apply Qle_shift_div_l; [reflexivity|]. rewrite Qmult_0_l. exact H0.
  - apply Qle_shift_div_r; [reflexivity|]. rewrite Qmult_1_l. exact H1.
Qed.

(** ** Properties *)

(** C23: the normalised pixels of the main block lie in [[0, 1]]: every
    uint8 value [v] becomes [v / 255] with [0 <= v / 255 <= 1]. *)
Theorem normalize_bounds v :
  is_uint8 v = true → (0 <= normalize v)%Q ∧ (normalize v <= 1)%Q.
Proof.
  intros Hv%is_uint8_spec. by apply normalize_unit.
Qed.

(** ** Witnesses *)

Lemma normalize_bounds_witness :
  is_uint8 128 = true ∧ (0 <= normalize 128)%Q ∧ (normalize 128 <= 1)%Q.
Proof. split; [reflexivity|]. apply normalize_bounds. reflexivity. Defined.

End Pixels.
