(* ===== verification/Float32.v ===== *)
(** * float32 arithmetic of the pixel conversions (src lines 105 and 68)

    The rest of the development computes with exact rationals.  The
    script computes in float32: [train_data.astype(np.float32) / 255.0]
    rounds each quotient to the nearest float32, and
    [colorized_output[0] * 255] rounds each product before
    [astype(np.uint8)] truncates it.  This file models IEEE 754 binary32
    rounding to nearest, ties to even ([fl32], on rationals: a float32 is
    the rational it denotes) and proves what the script's two conversions
    do with it: the normalise-then-display round trip is exact for every
    uint8 value, and the display cast of any value in [[0, 1]] is the
    floor of the rounded product, at most 255, without wrapping.  The
    display of [visualize_results] (Pipeline.v) is [display32_array].  Overflow
    (values of magnitude [2^128] and more) is not modelled; the script's
    values stay below 256. *)

From S2P Require Import Prelude NdArray Pixels.
From Stdlib Require Import QArith Qround Lqa.

Module Float32.
Import Pixels.
Local Open Scope Z_scope.

(** [x / y] rounded to the nearest integer, ties to even ([y > 0]). *)
Definition div_round_even (x y : Z) : Z :=
  let q := x / y in
  let r := x mod y in
  if 2 * r <? y then q
  else if y <? 2 * r then q + 1
  else if Z.even q then q else q + 1.

(** [a / d * 2^(-e)] as a numerator and a denominator. *)
Definition scaled (a d e : Z) : Z * Z :=
  if 0 <=? e then (a, d * 2 ^ e) else (a * 2 ^ (- e), d).

(** The exponent of the float32 nearest to [a / d > 0]: the [e] with
    [2^23 <= a / d * 2^(-e) < 2^24] (24 significant bits), and at least
    [-149] (the subnormals). *)
Definition f32_exponent (a d : Z) : Z :=
  let e0 := Z.log2 a - Z.log2 d - 23 in
  let '(n, m) := scaled a d e0 in
  Z.max (-149) (if n <? 2 ^ 23 * m then e0 - 1 else e0).

(** [2^e] as a rational. *)
Definition pow2_Q (e : Z) : Q :=
  if 0 <=? e then inject_Z (2 ^ e) else 1 # Z.to_pos (2 ^ (- e)).

(** [np.float32(x)]: the float32 nearest to [x], ties to even. *)
Definition fl32 (x : Q) : Q :=
  let a := Z.abs (Qnum x) in
  let d := Zpos (Qden x) in
  if a =? 0 then 0%Q
  else
    let e := f32_exponent a d in
    let '(n, m) := scaled a d e in
    (inject_Z (Z.sgn (Qnum x) * div_round_even n m) * pow2_Q e)%Q.

(** Line 105 in float32: [np.float32(v) / 255.0], one rounding ([v] and
    [255] are float32 values). *)
Definition normalize32 (v : Z) : Q := fl32 (normalize v).

(** Line 68 in float32: the product is rounded, then cast. *)
Definition to_display32 (y : Q) : Z := astype_uint8 (fl32 (y * 255)).

(** [(colorized_output[0] * 255).astype(np.uint8)] on the whole sample. *)
Definition display32_array (a : NdArray.ndarray Q) : NdArray.ndarray Z :=
  NdArray.map_elems to_display32 a.

(** ** Rounding lemmas *)

Lemma div_round_even_le x y : 0 < y → 2 * y * div_round_even x y <= 2 * x + y.
Proof.
  intros Hy. unfold div_round_even.
  pose proof (Z.div_mod x y ltac:(lia)). pose proof (Z.mod_pos_bound x y Hy).
  set (q := x / y) in *. set (r := x mod y) in *.
  destruct (2 * r <? y) eqn:E1; [apply Z.ltb_lt in E1; nia|].
  apply Z.ltb_ge in E1. destruct (y <? 2 * r) eqn:E2; [nia|].
  apply Z.ltb_ge in E2. destruct (Z.even q); nia.
Qed.

Lemma div_round_even_nonneg x y : 0 < y → 0 <= x → 0 <= div_round_even x y.
Proof.
  intros Hy Hx. unfold div_round_even.
  assert (0 <= x / y) by (apply Z.div_pos; lia).
  destruct (_ <? _); [lia|]. destruct (_ <? _); [lia|]. destruct (Z.even _); lia.
Qed.

(** A positive rational below 256 has a float32 exponent of at most
    [-16]: its 24-bit significand counts units of [2^(-16)] or finer. *)
Lemma f32_exponent_small a d : 0 < a → 0 < d → a <= 255 * d → f32_exponent a d <= -16.
Proof.
  intros Ha Hd Had. unfold f32_exponent.
  pose proof (Z.log2_spec a Ha) as [Ha1 Ha2]. pose proof (Z.log2_spec d Hd) as [Hd1 Hd2].
  assert (Z.log2 a < Z.log2 d + 9).
  { pose proof (Z.log2_nonneg d). pose proof (Z.log2_nonneg a).
    apply (Z.pow_lt_mono_r_iff 2); [lia|lia|].
    rewrite Z.pow_add_r by lia. rewrite Z.pow_succ_r in Hd2 by lia.
    change (2 ^ 9) with 512. lia. }
  destruct (decide (Z.log2 a - Z.log2 d - 23 = -15)) as [E|E].
  - rewrite E. unfold scaled. change (0 <=? -15) with false. cbv iota beta.
    change (2 ^ (- -15)) with 32768. change (2 ^ 23) with 8388608.
    destruct (a * 32768 <? 8388608 * d) eqn:Hlt; [lia|]. apply Z.ltb_ge in Hlt. lia.
  - destruct (scaled _ _ _). destruct (_ <? _); cbn; lia.
Qed.

(** The float32 nearest to a value in [[0, 255]] is in [[0, 256)]. *)
Lemma fl32_small (z : Q) : (0 <= z)%Q → (z <= 255)%Q → (0 <= fl32 z)%Q ∧ (fl32 z < 256)%Q.
Proof.
  intros H0 H1. unfold fl32. destruct z as [a d]. cbn [Qnum Qden].
  unfold Qle in H0, H1. cbn [Qnum Qden] in H0, H1.
  destruct (Z.abs a =? 0) eqn:Ea; [split; [apply Qle_refl|reflexivity]|].
  apply Z.eqb_neq in Ea. rewrite Z.abs_eq by lia. rewrite Z.sgn_pos by lia.
  pose proof (f32_exponent_small a (Zpos d) ltac:(lia) ltac:(lia) ltac:(lia)) as He.
  set (e := f32_exponent a (Zpos d)) in *.
  unfold scaled. rewrite (proj2 (Z.leb_gt 0 e)) by lia.
  set (k := 2 ^ (- e)).
  assert (2 ^ 16 <= k) by (apply Z.pow_le_mono_r; lia).
  pose proof (div_round_even_le (a * k) (Zpos d) ltac:(lia)) as Hm.
  pose proof (div_round_even_nonneg (a * k) (Zpos d) ltac:(lia) ltac:(nia)) as Hm0.
  set (m := div_round_even (a * k) (Zpos d)) in *.
  assert (m <= 255 * k) as Hmk by nia.
  unfold pow2_Q. rewrite (proj2 (Z.leb_gt 0 e)) by lia. fold k.
  rewrite Z.mul_1_l. unfold Qle, Qlt, Qmult. cbn [Qnum Qden inject_Z].
  rewrite Pos.mul_1_l, Z2Pos.id by lia. split; nia.
Qed.

(** The round trip on all 256 byte values, by evaluation. *)
Lemma roundtrip_table :
  forallb (λ v, to_display32 (normalize32 v) =? v) (seqZ 0 256) = true.
Proof. vm_compute. reflexivity. Qed.

(** ** Properties *)

(** C24: in float32, displaying a normalised pixel gives the pixel back:
    for every uint8 value [v], [(np.float32(v) / 255.0 * 255)] rounded
    to float32 and cast to uint8 is [v] again, both roundings included. *)
Theorem display_normalize32_roundtrip (v : Z) :
  0 <= v <= 255 → to_display32 (normalize32 v) = v.
Proof.
  intros Hv. pose proof roundtrip_table as Ht. rewrite forallb_forall in Ht.
  apply Z.eqb_eq, Ht, list_elem_of_In, elem_of_seqZ. lia.
Qed.

(** C25: in float32, the display cast of line 68 never wraps around:
    for any output value [y] in [[0, 1]], [(y * 255).astype(np.uint8)]
    is the floor of the float32 product, which is at most 255; the
    [mod 256] of the cast does nothing.  (A factor of 256 would send
    [y = 1] to 0.) *)
Theorem display32_no_wrap (y : Q) :
  (0 <= y <= 1)%Q → to_display32 y = Qfloor (fl32 (y * 255)) ∧ Qfloor (fl32 (y * 255)) <= 255.
Proof.
  intros [H0 H1]. unfold to_display32.
  destruct (fl32_small (y * 255)) as [F0 F1]; [nra|nra|].
  rewrite astype_uint8_small by done. split; [done|].
  pose proof (Qfloor_range (fl32 (y * 255)) 0 256 F0 F1). lia.
Qed.

(** ** Witnesses *)

Lemma display_normalize32_roundtrip_witness : to_display32 (normalize32 128) = 128.
Proof. apply display_normalize32_roundtrip. lia. Defined.

Lemma display32_no_wrap_witness :
  to_display32 1 = Qfloor (fl32 (1 * 255)) ∧ Qfloor (fl32 (1 * 255)) <= 255.
Proof. apply display32_no_wrap. split; vm_compute; discriminate. Defined.

End Float32.
