(* ===== verification/Loader.v ===== *)
(** * The image loader [load_images] (src lines 28-39)

    [load_images(directory, image_size=(128, 128))] lists [directory],
    keeps the names ending in [".jpg"] or [".png"], opens each with PIL,
    resizes it to [image_size], converts it to a numpy array, turns a 2-d
    (single band) array into three identical channels, and stacks the
    results with [np.array(images)].

    A PIL image is its mode, width, height and its band values in
    row-major order, which is what [np.array(img)] exposes: a single-band
    mode gives a [(height, width)] array, the others
    [(height, width, bands)], and a bilevel ("1") image gives booleans
    ([array_value]).  The resampling filter of [img.resize] is a
    library routine: it is abstracted by the class [Resampler], whose law
    is the only property the loader relies on (the output has
    [height * width * bands] values).  [nearest] is an instance, used by
    the witnesses.  The file system is two maps: the listing of each
    directory ([os.listdir]) and the content of each path ([Image.open]). *)

From S2P Require Import Prelude NdArray Pixels.
From stdpp Require Import strings gmap.

Module Loader.
Import NdArray.
Local Open Scope string_scope.

(** ** PIL images *)

(** The PIL modes an opened JPEG or PNG file can have. *)
Inductive pil_mode :=
  | Mode1 | ModeL | ModeP | ModeI | ModeF
  | ModeLA | ModeRGB | ModeYCbCr | ModeRGBA | ModeCMYK.

#[export] Instance pil_mode_eq_dec : EqDecision pil_mode.
Proof. solve_decision. Defined.

(** Number of bands of each mode ([len(img.getbands())]). *)
Definition bands (m : pil_mode) : nat :=
  match m with
  | Mode1 | ModeL | ModeP | ModeI | ModeF => 1
  | ModeLA => 2
  | ModeRGB | ModeYCbCr => 3
  | ModeRGBA | ModeCMYK => 4
  end.

Record pil_image := mk_image {
  mode : pil_mode;
  width : nat;
  height : nat;
  pixels : list Z
}.

(** The value [np.array(img)] holds for a band value: PIL stores a
    bilevel ("1") pixel as 0 or 255, and its array is boolean ([True] is
    1 once stacked with or cast to numbers). *)
Definition array_value (m : pil_mode) (v : Z) : Z :=
  match m with
  | Mode1 => if Z.eqb v 0 then 0 else 1
  | _ => v
  end.

(** [np.array(img)]: a single-band image is 2-d, the others 3-d. *)
Definition to_array (img : pil_image) : ndarray Z :=
  mk_ndarray (if decide (bands (mode img) = 1) then [height img; width img]
              else [height img; width img; bands (mode img)])
             (map (array_value (mode img)) (pixels img)).

(** The resampling filter of [Image.resize], and its laws: the output
    has [h * w * bands] values, and resampling 8-bit values gives 8-bit
    values (PIL clips its filters' results to the band's range). *)
Class Resampler := {
  resample : pil_image → nat → nat → list Z;
  resample_length : ∀ img w h,
    length (resample img w h) = h * w * bands (mode img);
  resample_uint8 : ∀ img w h,
    Forall (λ v, Pixels.is_uint8 v = true) (pixels img) →
    Forall (λ v, Pixels.is_uint8 v = true) (resample img w h)
}.

(** PIL's [NEAREST] filter: the output pixel [(x, y)] takes the source
    pixel under its centre. *)
Definition nearest_resample (img : pil_image) (w h : nat) : list Z :=
  let b := bands (mode img) in
  flat_map (λ y,
    flat_map (λ x,
      let sy := ((2 * y + 1) * height img) / (2 * h) in
      let sx := ((2 * x + 1) * width img) / (2 * w) in
      map (λ c, nth ((sy * width img + sx) * b + c) (pixels img) 0%Z) (seq 0 b))
      (seq 0 w))
    (seq 0 h).

#[export] Program Instance nearest : Resampler := {| resample := nearest_resample |}.
Next Obligation.
  intros img w h. unfold nearest_resample.
  rewrite (length_flat_map_const (w * bands (mode img))), length_seq; [lia|].
  intros y. rewrite (length_flat_map_const (bands (mode img))), length_seq; [lia|].
  intros x. by rewrite length_map, length_seq.
Qed.
Next Obligation.
  intros img w h Hp. unfold nearest_resample. apply Forall_forall.
  intros v Hv%list_elem_of_In.
  apply in_flat_map in Hv as (y & _ & Hv). apply in_flat_map in Hv as (x & _ & Hv).
  apply in_map_iff in Hv as (c & <- & _).
  match goal with |- context [nth ?i ?l ?d] => (destruct (nth_in_or_default i l d) as [Hin| Hd]); [|rewrite Hd] end.
  - rewrite Forall_forall in Hp. by apply Hp, list_elem_of_In.
  - reflexivity.
Qed.

(** ** Files and paths *)

(** What [Image.open] finds at a path: an image, or bytes PIL cannot
    identify. *)
Inductive file := ImageFile (img : pil_image) | OtherFile.

Record fs := mk_fs {
  dirs : gmap string (list string);
  files : gmap string file
}.

(** [os.listdir(d)]: the entries in the order the OS returns them. *)
Definition listdir (f : fs) (d : string) : result (list string) :=
  match dirs f !! d with
  | Some names => Ok names
  | None => Err FileNotFoundError
  end.

(** [Image.open(path)] *)
Definition image_open (f : fs) (path : string) : result pil_image :=
  match files f !! path with
  | Some (ImageFile img) => Ok img
  | Some OtherFile => Err UnidentifiedImageError
  | None => Err FileNotFoundError
  end.

(** [os.path.join(a, b)] of [posixpath]. *)
Definition path_join (a b : string) : string :=
  if starts_with "/" b then b
  else if String.eqb a "" || ends_with "/" a then a ++ b
  else a ++ "/" ++ b.

(** The test of line 31. *)
Definition is_image_name (filename : string) : bool :=
  ends_with ".jpg" filename || ends_with ".png" filename.

(** ** The loader *)

Section WithResampler.
Context {RS : Resampler}.

(** [img.resize(size)]: PIL's size is [(width, height)]. *)
Definition resize (img : pil_image) (size : nat * nat) : pil_image :=
  let '(w, h) := size in mk_image (mode img) w h (resample img w h).

(** The body of the loop, lines 32-37, for one selected file. *)
Definition load_one (f : fs) (directory : string) (image_size : nat * nat)
    (filename : string) : result (ndarray Z) :=
  img ← image_open f (path_join directory filename);
  let arr := to_array (resize img image_size) in
  if decide (length (shape arr) = 2)
  then repeat_last 3 (expand_dims_last arr)
  else Ok arr.

(** The loop of lines 30-38, appending to [images]. *)
Fixpoint load_loop (f : fs) (directory : string) (image_size : nat * nat)
    (names : list string) (images : list (ndarray Z)) : result (list (ndarray Z)) :=
  match names with
  | [] => Ok images
  | filename :: rest =>
      if is_image_name filename then
        img ← load_one f directory image_size filename;
        load_loop f directory image_size rest (images ++ [img])
      else load_loop f directory image_size rest images
  end.

(** [load_images(directory, image_size)] *)
Definition load_images (f : fs) (directory : string) (image_size : nat * nat)
    : result (ndarray Z) :=
  names ← listdir f directory;
  images ← load_loop f directory image_size names [];
  stack images.

End WithResampler.

(** ** Sample directories (used by the witnesses) *)

Definition gray_2x2 : pil_image := mk_image ModeL 2 2 [10; 20; 30; 40]%Z.
Definition rgb_1x1 : pil_image := mk_image ModeRGB 1 1 [1; 2; 3]%Z.
Definition rgba_1x1 : pil_image := mk_image ModeRGBA 1 1 [1; 2; 3; 255]%Z.

(** [/content/pics] holds a grayscale PNG, an RGB JPEG, a text file and a
    JPEG with an upper-case extension. *)
Definition pics_fs : fs :=
  mk_fs {[ "/content/pics" := ["a.png"; "notes.txt"; "b.jpg"; "c.JPG"] ]}
        {[ "/content/pics/a.png" := ImageFile gray_2x2;
           "/content/pics/b.jpg" := ImageFile rgb_1x1;
           "/content/pics/c.JPG" := ImageFile rgb_1x1 ]}.

(** [/content/mixed] holds an RGB JPEG and an RGBA PNG. *)
Definition mixed_fs : fs :=
  mk_fs {[ "/content/mixed" := ["b.jpg"; "r.png"] ]}
        {[ "/content/mixed/b.jpg" := ImageFile rgb_1x1;
           "/content/mixed/r.png" := ImageFile rgba_1x1 ]}.

(** [/content/upper] holds only upper-case extensions. *)
Definition upper_fs : fs :=
  mk_fs {[ "/content/upper" := ["A.JPG"; "B.PNG"] ]}
        {[ "/content/upper/A.JPG" := ImageFile rgb_1x1;
           "/content/upper/B.PNG" := ImageFile rgb_1x1 ]}.

(** A bilevel ("1") PNG: a black pixel and a white one. *)
Definition bilevel_1x2 : pil_image := mk_image Mode1 2 1 [0; 255]%Z.

(** [/content/bw] holds one bilevel PNG. *)
Definition bw_fs : fs :=
  mk_fs {[ "/content/bw" := ["m.png"] ]}
        {[ "/content/bw/m.png" := ImageFile bilevel_1x2 ]}.

(** [/content/bad] holds a text file named ".png" between two images. *)
Definition bad_fs : fs :=
  mk_fs {[ "/content/bad" := ["a.png"; "x.png"; "b.jpg"] ]}
        {[ "/content/bad/a.png" := ImageFile gray_2x2;
           "/content/bad/x.png" := OtherFile;
           "/content/bad/b.jpg" := ImageFile rgb_1x1 ]}.

(** ** Properties *)

Section Props.
Context {RS : Resampler}.

(** The number of channels an image has after lines 35-37. *)
Definition loaded_channels (m : pil_mode) : nat :=
  if decide (bands m = 1) then 3 else bands m.

(** The values after lines 35-37: a single band is repeated three times. *)
Definition loaded_values (img : pil_image) (w h : nat) : list Z :=
  let vs := map (array_value (mode img)) (resample img w h) in
  if decide (bands (mode img) = 1) then flat_map (replicate 3) vs else vs.

Lemma array_value_uint8 m v : Pixels.is_uint8 v = true → Pixels.is_uint8 (array_value m v) = true.
Proof. destruct m; cbn; try done. by destruct (Z.eqb v 0). Qed.

(** An 8-bit image loads as 8-bit values (the resampler keeps the band's
    range). *)
Lemma loaded_values_uint8 img w h :
  Forall (λ v, Pixels.is_uint8 v = true) (pixels img) →
  Forall (λ v, Pixels.is_uint8 v = true) (loaded_values img w h).
Proof.
  intros Hp. unfold loaded_values.
  assert (Forall (λ v, Pixels.is_uint8 v = true) (map (array_value (mode img)) (resample img w h))).
  { apply Forall_map. eapply Forall_impl; [by apply resample_uint8|]. intros v. apply array_value_uint8. }
  case_decide; [by apply Forall_flat_map_replicate|done].
Qed.

(** The body of the loop on one file, on every branch: the resized array
    has shape [(h, w, c)] for [image_size = (w, h)]. *)
Lemma load_one_Ok f d w h name img :
  image_open f (path_join d name) = Ok img →
  load_one f d (w, h) name =
    Ok (mk_ndarray [h; w; loaded_channels (mode img)] (loaded_values img w h)).
Proof.
  intros Himg. unfold load_one, loaded_channels, loaded_values.
  rewrite Himg, bind_Ok. unfold to_array, resize; simpl.
  by destruct (decide (bands (mode img) = 1)).
Qed.

Lemma load_one_wf f d w h name img :
  image_open f (path_join d name) = Ok img →
  wf (mk_ndarray [h; w; loaded_channels (mode img)] (loaded_values img w h)).
Proof.
  intros _. unfold wf, loaded_channels, loaded_values. cbn [shape data].
  rewrite !size_of_cons, size_of_nil.
  destruct (decide (bands (mode img) = 1)) as [Hb|Hb].
  - rewrite length_flat_map_replicate, length_map, resample_length, Hb. lia.
  - rewrite length_map, resample_length. lia.
Qed.

(** The loop appends the loaded image of every selected name, in order:
    it is [mapM load_one] over the filtered listing. *)
Lemma load_loop_mapM f d sz names acc :
  load_loop f d sz names acc =
    (l ← mapM (load_one f d sz) (List.filter is_image_name names); Ok (acc ++ l)%list).
Proof.
  revert acc. induction names as [|name names IH]; intros acc; simpl.
  - by rewrite app_nil_r.
  - destruct (is_image_name name); [|apply IH].
    rewrite mapM_result_cons. destruct (load_one f d sz name) as [x|e]; [|done].
    rewrite !bind_Ok, IH. destruct (mapM _ _); [|done]. simpl.
    by rewrite <- app_assoc.
Qed.

Lemma load_images_mapM f d sz names :
  listdir f d = Ok names →
  load_images f d sz =
    (imgs ← mapM (load_one f d sz) (List.filter is_image_name names); stack imgs).
Proof.
  intros Hl. unfold load_images. rewrite Hl, bind_Ok, load_loop_mapM.
  by destruct (mapM _ _).
Qed.

(** The exact value of [load_images] on a folder of 1- and 3-band
    images: the loaded values of each selected file, in order. *)
Lemma load_images_value f d w h names imgs :
  listdir f d = Ok names →
  List.filter is_image_name names ≠ [] →
  Forall2 (λ name img, image_open f (path_join d name) = Ok img ∧
                       loaded_channels (mode img) = 3)
          (List.filter is_image_name names) imgs →
  load_images f d (w, h) =
    Ok (mk_ndarray [length (List.filter is_image_name names); h; w; 3]
                   (concat (map (λ img, loaded_values img w h) imgs))).
Proof.
  intros Hl Hne HF. rewrite (load_images_mapM _ _ _ names Hl).
  rewrite (mapM_Forall2_Ok _ (λ img, mk_ndarray [h; w; 3] (loaded_values img w h)) _ imgs).
  2: { eapply Forall2_impl; [exact HF|]. intros name img [Himg Hc].
       rewrite (load_one_Ok _ _ _ _ _ _ Himg). by rewrite Hc. }
  rewrite bind_Ok, (stack_homogeneous _ [h; w; 3]).
  - rewrite length_map, (Forall2_length _ _ _ HF), map_map. done.
  - intros Hnil%map_eq_nil. subst. apply Forall2_nil_inv_r in HF. done.
  - apply Forall_map, Forall_true. done.
Qed.

(** C13: the loop of lines 30-38 stops at the first selected file that
    [Image.open] cannot read, and [load_images] raises that file's
    exception: a selected name that is not an image (say a text file
    named ".png") raises [UnidentifiedImageError], and the files after
    it are never opened. *)
Theorem load_images_open_error f d sz names pre name post e :
  listdir f d = Ok names → List.filter is_image_name names = (pre ++ name :: post)%list →
  Forall (λ n, ∃ img, image_open f (path_join d n) = Ok img) pre →
  image_open f (path_join d name) = Err e →
  load_images f d sz = Err e.
Proof.
  intros Hl Hsel Hpre He. rewrite (load_images_mapM _ _ _ names Hl), Hsel.
  destruct sz as [w h]. rewrite (mapM_app_Err _ _ _ _ e); [done| |].
  - eapply Forall_impl; [exact Hpre|]. intros n (img & Himg).
    eexists. by apply load_one_Ok.
  - unfold load_one. by rewrite He.
Qed.

(** C5: grayscale to RGB (lines 35-37): for a single-band image (modes
    "L", "P", "1", "I", "F") the loaded array has shape [(h, w, 3)] and
    the three channels of pixel [p] all hold [np.array]'s value of the
    resized image's pixel [p]; for a palette ("P") PNG that value is the
    palette index, not a colour. *)
Theorem load_one_gray_channels f d w h name img a :
  image_open f (path_join d name) = Ok img → bands (mode img) = 1 →
  load_one f d (w, h) name = Ok a →
  shape a = [h; w; 3] ∧
  ∀ p c, c < 3 → data a !! (3 * p + c) = array_value (mode img) <$> resample img w h !! p.
Proof.
  intros Himg Hb. rewrite (load_one_Ok _ _ _ _ _ _ Himg). intros [= <-].
  unfold loaded_channels, loaded_values. cbn [shape data].
  rewrite !decide_True by done. split; [done|]. intros p c Hc.
  rewrite lookup_flat_map_replicate by done. apply list_lookup_fmap.
Qed.

(** C6: a bilevel ("1") image is loaded as a boolean image: the array
    has shape [(h, w, 3)] and every value is 0 or 1, so a white pixel
    (PIL's 255) enters the network as [1 / 255] after line 105, where the
    white of an "L" image enters as 1. *)
Theorem load_one_bilevel f d w h name img a :
  image_open f (path_join d name) = Ok img → mode img = Mode1 →
  load_one f d (w, h) name = Ok a →
  shape a = [h; w; 3] ∧ Forall (λ v, v = 0%Z ∨ v = 1%Z) (data a).
Proof.
  intros Himg Hm. rewrite (load_one_Ok _ _ _ _ _ _ Himg). intros [= <-].
  unfold loaded_channels, loaded_values. cbn [shape data]. rewrite Hm.
  split; [done|]. apply Forall_flat_map_replicate, Forall_map, Forall_forall.
  intros v _. cbn. destruct (Z.eqb v 0); auto.
Qed.

(** C2: [load_images] on a directory whose selected files are all images
    with one or three bands returns one array of shape
    [(n, h, w, 3)] for [image_size = (w, h)], [n] the number of names
    ending in ".jpg" or ".png", whose rows are the files' arrays in the
    order of [os.listdir]. *)
Theorem load_images_Ok f d w h names :
  listdir f d = Ok names →
  List.filter is_image_name names ≠ [] →
  Forall (λ name, ∃ img, image_open f (path_join d name) = Ok img ∧
                         loaded_channels (mode img) = 3)
         (List.filter is_image_name names) →
  ∃ a, load_images f d (w, h) = Ok a ∧
       shape a = [length (List.filter is_image_name names); h; w; 3] ∧ wf a ∧
       rows a = mapM (load_one f d (w, h)) (List.filter is_image_name names).
Proof.
  intros Hl Hne Hall. rewrite (load_images_mapM _ _ _ names Hl).
  destruct (mapM_Forall_Ok (load_one f d (w, h)) (λ y, shape y = [h; w; 3] ∧ wf y)
              (List.filter is_image_name names)) as (ys & Hmap & HP & HF2).
  { eapply Forall_impl; [exact Hall|]. intros name (img & Himg & Hc).
    eexists. split; [by apply load_one_Ok|].
    split; [cbn [shape]; by rewrite Hc|]. by eapply load_one_wf. }
  assert (ys ≠ []) as Hys by (intros ->; apply Forall2_nil_inv_r in HF2; done).
  destruct (stack_rows ys [h; w; 3] Hys HP) as (a & Hst & Hsh & Hwf & Hrows).
  exists a. rewrite Hmap, bind_Ok. split; [done|]. split; [|split; [done|congruence]].
  rewrite Hsh. by rewrite (Forall2_length _ _ _ HF2).
Qed.

(** C12: two selected images whose arrays end up with different channel
    counts (an RGB JPEG and an RGBA PNG, or a two-band "LA" PNG) make
    [np.array(images)] raise [ValueError]: [load_images] converts only
    2-d arrays to three channels. *)
Theorem load_images_channel_mismatch f d w h names n1 n2 img1 img2 :
  listdir f d = Ok names →
  Forall (λ name, ∃ img, image_open f (path_join d name) = Ok img)
         (List.filter is_image_name names) →
  n1 ∈ List.filter is_image_name names → n2 ∈ List.filter is_image_name names →
  image_open f (path_join d n1) = Ok img1 → image_open f (path_join d n2) = Ok img2 →
  loaded_channels (mode img1) ≠ loaded_channels (mode img2) →
  load_images f d (w, h) = Err ValueError.
Proof.
  intros Hl Hall Hn1 Hn2 Hi1 Hi2 Hc. rewrite (load_images_mapM _ _ _ names Hl).
  destruct (mapM_Forall_Ok (load_one f d (w, h)) (λ _, True)
              (List.filter is_image_name names)) as (ys & Hmap & _ & HF2).
  { eapply Forall_impl; [exact Hall|]. intros name (img & Himg).
    eexists. split; [by apply load_one_Ok|done]. }
  rewrite Hmap, bind_Ok.
  destruct (Forall2_elem_l _ _ _ _ HF2 Hn1) as (y1 & Hy1 & E1).
  destruct (Forall2_elem_l _ _ _ _ HF2 Hn2) as (y2 & Hy2 & E2).
  rewrite (load_one_Ok _ _ _ _ _ img1 Hi1) in E1.
  rewrite (load_one_Ok _ _ _ _ _ img2 Hi2) in E2. simplify_eq.
  apply (stack_inhomogeneous _ _ _ Hy1 Hy2). simpl. congruence.
Qed.

(** C26: when no name of the directory ends in ".jpg" or ".png" (the test
    is case-sensitive, so "A.JPG" does not count), [load_images] returns
    the empty 1-d array of shape [(0,)], not an array of images. *)
Theorem load_images_none_selected f d sz names :
  listdir f d = Ok names →
  List.filter is_image_name names = [] →
  load_images f d sz = Ok (mk_ndarray [0] []).
Proof.
  intros Hl Hsel. rewrite (load_images_mapM _ _ _ names Hl), Hsel. reflexivity.
Qed.

End Props.

(** ** Witnesses *)

Lemma load_one_gray_channels_witness :
  shape (mk_ndarray [2; 2; 3] [10; 10; 10; 20; 20; 20; 30; 30; 30; 40; 40; 40]%Z) = [2; 2; 3] ∧
  ∀ p c, c < 3 →
    data (mk_ndarray [2; 2; 3] [10; 10; 10; 20; 20; 20; 30; 30; 30; 40; 40; 40]%Z) !! (3 * p + c) =
    array_value (mode gray_2x2) <$> resample (Resampler := nearest) gray_2x2 2 2 !! p.
Proof.
  apply (load_one_gray_channels (RS := nearest) pics_fs "/content/pics" 2 2 "a.png" gray_2x2);
    reflexivity.
Defined.

Lemma load_one_bilevel_witness :
  shape (mk_ndarray [1; 2; 3] [0; 0; 0; 1; 1; 1]%Z) = [1; 2; 3] ∧
  Forall (λ v, v = 0%Z ∨ v = 1%Z) (data (mk_ndarray [1; 2; 3] [0; 0; 0; 1; 1; 1]%Z)).
Proof.
  apply (load_one_bilevel (RS := nearest) bw_fs "/content/bw" 2 1 "m.png" bilevel_1x2);
    reflexivity.
Defined.

Lemma load_images_Ok_witness :
  ∃ a, load_images (RS := nearest) pics_fs "/content/pics" (2, 2) = Ok a ∧
       shape a = [2; 2; 2; 3] ∧ wf a ∧
       rows a = mapM (load_one (RS := nearest) pics_fs "/content/pics" (2, 2))
                     ["a.png"; "b.jpg"].
Proof.
  apply (load_images_Ok (RS := nearest) pics_fs "/content/pics" 2 2
           ["a.png"; "notes.txt"; "b.jpg"; "c.JPG"]).
  - reflexivity.
  - discriminate.
  - repeat constructor; eexists; split; reflexivity.
Defined.

Lemma load_images_channel_mismatch_witness :
  load_images (RS := nearest) mixed_fs "/content/mixed" (128, 128) = Err ValueError.
Proof.
  apply (load_images_channel_mismatch (RS := nearest) mixed_fs "/content/mixed"
           128 128 ["b.jpg"; "r.png"] "b.jpg" "r.png" rgb_1x1 rgba_1x1).
  - reflexivity.
  - repeat constructor; eexists; reflexivity.
  - simpl. left.
  - simpl. right. left.
  - reflexivity.
  - reflexivity.
  - discriminate.
Defined.

Lemma load_images_none_selected_witness :
  load_images (RS := nearest) upper_fs "/content/upper" (128, 128) =
    Ok (mk_ndarray [0] []).
Proof.
  apply (load_images_none_selected (RS := nearest) upper_fs "/content/upper"
           (128, 128) ["A.JPG"; "B.PNG"]); reflexivity.
Defined.

Lemma load_images_open_error_witness :
  load_images (RS := nearest) bad_fs "/content/bad" (128, 128) = Err UnidentifiedImageError.
Proof.
  apply (load_images_open_error (RS := nearest) bad_fs "/content/bad" (128, 128)
           ["a.png"; "x.png"; "b.jpg"] ["a.png"] "x.png" ["b.jpg"]).
  - reflexivity.
  - reflexivity.
  - repeat constructor. eexists. reflexivity.
  - reflexivity.
Defined.

End Loader.
