(* ===== verification/Layers.v ===== *)
(** * Keras layers used by the script (imported at src line 15)

    Each layer is a constructor carrying the arguments the script passes
    ([filters], [kernel_size], [activation], [padding], [strides]); the
    Keras defaults are made explicit where the script omits them
    ([strides=(1, 1)]).  A layer's meaning at this level is its shape
    inference: Keras computes the output shape of a layer when the layer is
    called on a symbolic tensor (lines 45-54) and raises a [ValueError]
    ([KerasShapeError] here) when the input does not fit.  The length
    formulas are those of Keras' [conv_output_length] and
    [deconv_output_length] for [dilation_rate=1] and no [output_padding].
    Shapes are per sample, without the batch axis, in [channels_last]
    layout. *)

From S2P Require Import Prelude.

Module Layers.

Inductive activation := Linear | Relu | Sigmoid.
Inductive padding := Same | Valid.

#[export] Instance activation_eq_dec : EqDecision activation.
Proof. solve_decision. Defined.
#[export] Instance padding_eq_dec : EqDecision padding.
Proof. solve_decision. Defined.

Inductive layer :=
  | Conv2D (filters : nat) (kernel : nat * nat) (act : activation)
           (pad : padding) (strides : nat * nat)
  | Conv2DTranspose (filters : nat) (kernel : nat * nat) (act : activation)
           (pad : padding) (strides : nat * nat)
  | Flatten
  | Reshape (target : list nat).

(** [conv_output_length(n, k, padding, s)]: [ceil(n / s)] with "same"
    padding, [ceil((n - k + 1) / s)] with "valid"; a window larger than
    the input is an error. *)
Definition conv_output_length (n k : nat) (pad : padding) (s : nat) : result nat :=
  match pad with
  | Same => Ok ((n + s - 1) / s)
  | Valid => if decide (k ≤ n) then Ok ((n - k + 1 + s - 1) / s) else Err KerasShapeError
  end.

(** [deconv_output_length(n, k, padding, stride=s)]: [n * s] with "same",
    [n * s + max(k - s, 0)] with "valid". *)
Definition deconv_output_length (n k : nat) (pad : padding) (s : nat) : nat :=
  match pad with
  | Same => n * s
  | Valid => n * s + (k - s)
  end.

(** Keras rejects a zero stride or kernel when the layer is created. *)
Definition check_window (kernel strides : nat * nat) : result unit :=
  check (bool_decide (0 < kernel.1 ∧ 0 < kernel.2 ∧ 0 < strides.1 ∧ 0 < strides.2))
        KerasShapeError.

(** The output shape of a layer on a per-sample input shape. *)
Definition layer_output_shape (l : layer) (s : list nat) : result (list nat) :=
  match l, s with
  | Conv2D f k _ pad st, [h; w; _] =>
      check_window k st;;
      h' ← conv_output_length h k.1 pad st.1;
      w' ← conv_output_length w k.2 pad st.2;
      Ok [h'; w'; f]
  | Conv2DTranspose f k _ pad st, [h; w; _] =>
      check_window k st;;
      Ok [deconv_output_length h k.1 pad st.1; deconv_output_length w k.2 pad st.2; f]
  | Conv2D _ _ _ _ _, _ | Conv2DTranspose _ _ _ _ _, _ => Err KerasShapeError
  | Flatten, _ => Ok [size_of s]
  | Reshape t, _ =>
      if decide (size_of t = size_of s) then Ok t else Err KerasShapeError
  end.

(** A chain of layers, each applied to the previous one's output, as
    lines 45-54 do. *)
Fixpoint output_shape (ls : list layer) (s : list nat) : result (list nat) :=
  match ls with
  | [] => Ok s
  | l :: ls' => s' ← layer_output_shape l s; output_shape ls' s'
  end.

(** ** Lemmas *)

Lemma output_shape_app ls1 ls2 s :
  output_shape (ls1 ++ ls2) s = (s' ← output_shape ls1 s; output_shape ls2 s').
Proof.
  revert s. induction ls1 as [|l ls1 IH]; intros s; simpl; [done|].
  destruct (layer_output_shape l s); simpl; [apply IH|done].
Qed.

(** "same" convolution of stride 1 keeps the length, of stride 2 halves it
    rounding up. *)
Lemma conv_same_1 n k : conv_output_length n k Same 1 = Ok n.
Proof. unfold conv_output_length. f_equal. rewrite Nat.add_sub. apply Nat.div_1_r. Qed.

Lemma conv_same_2 n k : conv_output_length n k Same 2 = Ok ((n + 1) / 2).
Proof. unfold conv_output_length. by replace (n + 2 - 1) with (n + 1) by lia. Qed.

#[export] Hint Rewrite output_shape_app conv_same_1 conv_same_2 : pyae.

End Layers.
