(* ===== verification/Model.v ===== *)
(** * The autoencoder of src lines 42-57

    The graph is a chain: [input_img] of shape [(128, 128, 3)] (lines
    42-44), three convolutions, [Flatten] and [Reshape((32, 32, 256))]
    (lines 45-49, [encoded]), then three transposed convolutions and a
    final sigmoid convolution (lines 51-54, [decoded]); [Model(input_img,
    decoded)] (line 56) is the chain [encoder ++ decoder].  The compile
    step of line 57 is modelled in [Adam.v] (the optimiser) and [Loss.v]
    (the loss). *)

From S2P Require Import Prelude NdArray Layers.
From Stdlib Require Import QArith.

Module Model.
Local Open Scope nat_scope.
Import NdArray Layers.

(** [input_shape = (128, 128, 3)] (line 42) *)
Definition input_shape : list nat := [128; 128; 3].

(** Lines 45-49, from [input_img] to [encoded]. *)
Definition encoder : list layer := [
  Conv2D 64 (3, 3) Relu Same (1, 1);
  Conv2D 128 (3, 3) Relu Same (2, 2);
  Conv2D 256 (3, 3) Relu Same (2, 2);
  Flatten;
  Reshape [32; 32; 256]
].

(** Lines 51-54, from [encoded] to [decoded]. *)
Definition decoder : list layer := [
  Conv2DTranspose 256 (3, 3) Relu Same (2, 2);
  Conv2DTranspose 128 (3, 3) Relu Same (2, 2);
  Conv2DTranspose 64 (3, 3) Relu Same (1, 1);
  Conv2D 3 (3, 3) Sigmoid Same (1, 1)
].

(** [autoencoder = Model(input_img, decoded)] (line 56). *)
Definition autoencoder : list layer := encoder ++ decoder.

(** ** What [autoencoder.predict] promises its callers

    [predict] runs the trained network on a batch (lines 67 and 92).  Its
    numeric result depends on the weights [fit] found; what the rest of
    the script relies on is Keras' contract, stated here: a batch of
    [n > 0] well-formed samples of a shape the graph accepts gives [n]
    outputs of the inferred output shape, and the last layer is a
    sigmoid, so every output value lies in [[0, 1]] (closed: in float32
    the sigmoid reaches [1.0]).  (An empty batch
    makes Keras' [predict] raise [ValueError]; the script only predicts
    batches of one.) *)
Class Predictor := {
  predict : ndarray Q → result (ndarray Q);
  predict_shape : ∀ x n s s',
    wf x → shape x = n :: s → 0 < n → output_shape autoencoder s = Ok s' →
    ∃ y, predict x = Ok y ∧ shape y = n :: s' ∧ wf y;
  predict_sigmoid : ∀ x y,
    predict x = Ok y → Forall (λ v, 0 <= v ∧ v <= 1)%Q (data y)
}.

(** The network whose last convolution has a zero kernel and bias: it
    outputs [sigmoid(0) = 1/2] everywhere.  Used by the witnesses. *)
Definition zero_head_predict (x : ndarray Q) : result (ndarray Q) :=
  match shape x with
  | [] => Err KerasShapeError
  | 0 :: _ => Err ValueError
  | n :: s =>
      s' ← output_shape autoencoder s;
      Ok (mk_ndarray (n :: s') (replicate (n * size_of s') (1 # 2)%Q))
  end.

#[export] Instance zero_head : Predictor.
Proof.
  refine {| predict := zero_head_predict |}.
  - intros x [|n] s s' _ Hx Hn Hs; [lia|]. unfold zero_head_predict. rewrite Hx, Hs, bind_Ok.
    eexists. split; [done|]. split; [done|]. unfold wf. cbn [data shape].
    by rewrite length_replicate.
  - intros x y. unfold zero_head_predict. destruct (shape x) as [|[|n] s]; [done|done|].
    destruct (output_shape autoencoder s); [|done]. intros [= <-]. cbn [data].
    apply Forall_replicate. split; discriminate.
Defined.

(** ** Shape inference of the chain *)

Lemma model_windows : check_window (3, 3) (1, 1) = Ok () ∧ check_window (3, 3) (2, 2) = Ok ().
Proof. split; reflexivity. Qed.

(** The encoder accepts a 3-d input exactly when the two stride-2
    convolutions bring it to [32 * 32] positions, whatever the channels. *)
Lemma encoder_shape h w c :
  output_shape encoder [h; w; c] =
    if decide (((h + 1) / 2 + 1) / 2 * (((w + 1) / 2 + 1) / 2) = 1024)
    then Ok [32; 32; 256] else Err KerasShapeError.
Proof.
  unfold encoder. cbn [output_shape layer_output_shape fst snd].
  destruct model_windows as [-> ->]. autorewrite with pyae.
  cbn [output_shape layer_output_shape fst snd].
  set (a := ((h + 1) / 2 + 1) / 2). set (b := ((w + 1) / 2 + 1) / 2).
  replace (a * (b * (256 * 1)) * 1) with (a * b * 256) by lia.
  set (p := a * b). destruct (decide (p = 1024)).
  - by rewrite decide_True by lia.
  - by rewrite decide_False by lia.
Qed.

(** The decoder multiplies both spatial lengths by 4 and ends with three
    channels. *)
Lemma decoder_shape h w c :
  output_shape decoder [h; w; c] = Ok [h * 2 * 2; w * 2 * 2; 3].
Proof.
  unfold decoder. cbn [output_shape layer_output_shape fst snd].
  destruct model_windows as [-> ->]. autorewrite with pyae.
  cbn [output_shape layer_output_shape fst snd deconv_output_length].
  autorewrite with pyae. by rewrite !Nat.mul_1_r.
Qed.

(** The first layer needs a 3-d (per sample) input. *)
Lemma autoencoder_rank s :
  length s ≠ 3 → output_shape autoencoder s = Err KerasShapeError.
Proof.
  intros Hs. destruct s as [|h [|w [|c [|? ?]]]]; cbn [length] in Hs; try lia;
    unfold autoencoder, encoder; cbn [app output_shape layer_output_shape];
    rewrite bind_Err; reflexivity.
Qed.

(** On the input shape of line 42 the graph returns that shape. *)
Lemma autoencoder_on_input : output_shape autoencoder input_shape = Ok input_shape.
Proof.
  unfold autoencoder, input_shape. rewrite output_shape_app, encoder_shape.
  rewrite decide_True by reflexivity. rewrite bind_Ok, decoder_shape. reflexivity.
Qed.

(** ** Properties *)

(** C3: shape inference of [Model(input_img, decoded)] on every branch:
    on a per-sample input [(h, w, c)] the graph builds exactly when
    [ceil(ceil(h/2)/2) * ceil(ceil(w/2)/2) = 1024] (the [Reshape((32, 32,
    256))] of line 49 fails otherwise), and its output is then always
    [(128, 128, 3)]. *)
Theorem autoencoder_shape h w c :
  output_shape autoencoder [h; w; c] =
    if decide (((h + 1) / 2 + 1) / 2 * (((w + 1) / 2 + 1) / 2) = 1024)
    then Ok [128; 128; 3] else Err KerasShapeError.
Proof.
  unfold autoencoder. rewrite output_shape_app, encoder_shape.
  case_decide; [|done]. rewrite bind_Ok, decoder_shape. done.
Qed.

(** C4: [autoencoder.fit(train_data, train_data)] needs the output to
    have the shape of the input: this holds for the input shape of line
    42, [(128, 128, 3)], and for no other per-sample shape. *)
Theorem autoencoder_output_eq_input s :
  output_shape autoencoder s = Ok s ↔ s = input_shape.
Proof.
  split; [|intros ->; apply autoencoder_on_input].
  destruct (decide (length s = 3)) as [Hs|Hs]; [|by rewrite autoencoder_rank].
  destruct s as [|h [|w [|c [|? ?]]]]; simpl in Hs; try lia.
  unfold autoencoder. rewrite output_shape_app, encoder_shape.
  case_decide; [|done]. rewrite bind_Ok, decoder_shape. by intros [= <- <- <-].
Qed.

End Model.
