(* ===== verification/Evaluate.v ===== *)
(** * [evaluate_network] (src lines 88-96)

    For each sample of [test_data] the loop reshapes it to a batch of one
    [(1, 128, 128, 3)], runs [autoencoder.predict], and adds the mean of
    the squared differences to [total_loss], which starts as the Python
    integer [0]; the average is [total_loss / len(test_data)], which is
    printed.  The predictor is any instance of [Model.Predictor], the
    contract Keras' [predict] keeps.  Floats are exact rationals.  [np.mean]
    divides by the number of elements; its [nan] on an empty array is not
    modelled, the script never takes the mean of an empty array. *)

From S2P Require Import Prelude NdArray Layers Model.
From Stdlib Require Import QArith Lqa.

Module Evaluate.
Import NdArray Layers Model.
Local Open Scope Q_scope.

#[export] Instance Q_inhabited : Inhabited Q := populate 0.

(** A Python [int] seen as a float. *)
Definition qnat (n : nat) : Q := inject_Z (Z.of_nat n).

(** [np.sum] and [np.mean] *)
Definition np_sum (l : list Q) : Q := foldr Qplus 0 l.

Definition np_mean (a : ndarray Q) : Q := np_sum (data a) / qnat (size_of (shape a)).

(** [v ** 2] *)
Definition square (v : Q) : Q := v * v.

Section WithPredictor.
Context {P : Predictor}.

(** Lines 91-93 for one sample: the term added to [total_loss]. *)
Definition eval_one (img : ndarray Q) : result Q :=
  x ← reshape img [1; 128; 128; 3]%nat;
  output_data ← predict x;
  diff ← binop Qminus output_data x;
  Ok (np_mean (map_elems square diff)).

(** The loop of lines 90-93. *)
Fixpoint eval_loop (imgs : list (ndarray Q)) (total_loss : Q) : result Q :=
  match imgs with
  | [] => Ok total_loss
  | img :: rest => l ← eval_one img; eval_loop rest (total_loss + l)
  end.

(** [evaluate_network(test_data)]: the value it prints.  Dividing the
    integer [0] by [len(test_data) = 0] raises [ZeroDivisionError]. *)
Definition evaluate_network (test_data : ndarray Q) : result Q :=
  imgs ← rows test_data;
  total_loss ← eval_loop imgs 0;
  if decide (length imgs = 0%nat) then Err ZeroDivisionError
  else Ok (total_loss / qnat (length imgs)).

End WithPredictor.

(** A test set of one mid-grey image (used by the witnesses). *)
Definition grey_batch : ndarray Q :=
  mk_ndarray (1 :: input_shape)%nat (replicate (size_of (1 :: input_shape)%nat) (1 # 2)).

(** ** Sums and means *)

Lemma qnat_S n : qnat (S n) == qnat n + 1.
Proof. unfold qnat. rewrite Nat2Z.inj_succ, <- Z.add_1_r, inject_Z_plus. reflexivity. Qed.

Lemma qnat_nonneg n : 0 <= qnat n.
Proof. unfold qnat. change 0 with (inject_Z 0). rewrite <- Zle_Qle. lia. Qed.

Lemma np_sum_bounds (l : list Q) :
  Forall (λ q, 0 <= q <= 1) l → 0 <= np_sum l ∧ np_sum l <= qnat (length l).
Proof.
  induction 1 as [|q l Hq _ (H0 & H1)].
  - unfold np_sum. cbn [foldr length]. split; [lra|apply qnat_nonneg].
  - change (np_sum (q :: l)) with (q + np_sum l). cbn [length].
    rewrite qnat_S. split; lra.
Qed.

Lemma div_unit_interval v q : 0 <= v → v <= q → 0 < q → 0 <= v / q ∧ v / q <= 1.
Proof.
  intros H0 H1 Hq. split.
  - apply Qle_shift_div_l; [done|]. lra.
  - apply Qle_shift_div_r; [done|]. lra.
Qed.

Lemma qnat_pos n : (0 < n)%nat → 0 < qnat n.
Proof. intros Hn. unfold qnat. change 0 with (inject_Z 0). rewrite <- Zlt_Qlt. lia. Qed.

(** A mean of values in [[0, 1]] is in [[0, 1]]. *)
Lemma mean_unit_interval (l : list Q) :
  Forall (λ q, 0 <= q <= 1) l → l ≠ [] →
  0 <= np_sum l / qnat (length l) ∧ np_sum l / qnat (length l) <= 1.
Proof.
  intros Hl Hne. destruct (np_sum_bounds l Hl) as (H0 & H1).
  apply div_unit_interval; [done|done|]. apply qnat_pos. destruct l; [done|cbn; lia].
Qed.

Lemma square_unit_interval y x : 0 <= y <= 1 → 0 <= x <= 1 → 0 <= square (y - x) <= 1.
Proof.
  unfold square. intros Hy Hx. assert (-1 <= y - x <= 1) as Hd by lra.
  revert Hd. generalize (y - x). intros d Hd. split; nra.
Qed.

Lemma np_sum_app l1 l2 : np_sum (l1 ++ l2) == np_sum l1 + np_sum l2.
Proof. induction l1 as [|q l1 IH]; simpl; [lra|]. rewrite IH. lra. Qed.

(** ** One sample *)

Lemma batch_size : size_of [1; 128; 128; 3]%nat = size_of input_shape.
Proof. unfold input_shape. rewrite !size_of_cons, size_of_nil. lia. Qed.

Section Props.
Context {P : Predictor}.

(** The loop stops at the first exception, and otherwise adds up the
    per-sample losses. *)
Lemma eval_loop_sum imgs ls acc :
  mapM eval_one imgs = Ok ls → ∃ v, eval_loop imgs acc = Ok v ∧ v == acc + np_sum ls.
Proof.
  revert ls acc. induction imgs as [|img imgs IH]; intros ls acc Hm.
  - rewrite mapM_result_nil in Hm. simplify_eq. exists acc. split; [done|]. simpl. lra.
  - rewrite mapM_result_cons, bind_eq_Ok in Hm. destruct Hm as (l & Hl & Hm).
    rewrite bind_eq_Ok in Hm. destruct Hm as (ls' & Hls' & [= <-]).
    simpl. rewrite Hl, bind_Ok.
    destruct (IH ls' (acc + l) Hls') as (v & Hv & Heq). exists v. split; [done|].
    simpl. lra.
Qed.

(** Lines 91-93 on a sample of the input shape: the reshaped batch of
    one goes through [predict], and the term is the mean over its 49152
    values of the squared difference. *)
Lemma eval_one_spec img :
  wf img → shape img = input_shape →
  ∃ y, predict (mk_ndarray [1; 128; 128; 3]%nat (data img)) = Ok y ∧
       wf y ∧ shape y = [1; 128; 128; 3]%nat ∧
       eval_one img = Ok (np_sum (map square (zip_with Qminus (data y) (data img))) /
                          qnat (size_of [1; 128; 128; 3]%nat)).
Proof.
  intros Hwf Hs. set (x := mk_ndarray [1; 128; 128; 3]%nat (data img)).
  assert (wf x) as Hx by (unfold wf in *; unfold x; cbn [data shape]; rewrite Hwf, Hs; symmetry; apply batch_size).
  destruct (predict_shape x 1 input_shape input_shape Hx eq_refl ltac:(lia) autoencoder_on_input)
    as (y & Hy & Hys & Hywf).
  exists y. split; [done|]. split; [done|]. split; [done|].
  unfold eval_one, reshape. rewrite decide_True by (rewrite Hs; symmetry; apply batch_size).
  rewrite bind_Ok. fold x. rewrite Hy, bind_Ok.
  rewrite (binop_same_shape Qminus y x) by done. rewrite bind_Ok.
  unfold np_mean, map_elems. cbn [data shape]. by rewrite Hys.
Qed.

Lemma eval_one_bounds img :
  wf img → shape img = input_shape → Forall (λ v, 0 <= v <= 1) (data img) →
  ∃ l, eval_one img = Ok l ∧ 0 <= l <= 1.
Proof.
  intros Hwf Hs Hd. destruct (eval_one_spec img Hwf Hs) as (y & Hy & Hywf & Hys & ->).
  eexists. split; [done|].
  assert (length (map square (zip_with Qminus (data y) (data img))) =
          size_of [1; 128; 128; 3]%nat) as Hlen.
  { unfold wf in *. rewrite length_map, length_zip_with, Hywf, Hwf, Hys, Hs, batch_size.
    apply Nat.min_id. }
  rewrite <- Hlen. apply mean_unit_interval.
  - apply Forall_map. eapply Forall_zip_with_2; [by eapply predict_sigmoid|exact Hd|].
    intros a b Ha Hb. by apply square_unit_interval.
  - intros Hnil. rewrite Hnil in Hlen. discriminate.
Qed.

(** On [n > 0] well-formed samples of the input shape the evaluation
    returns a value. *)
Lemma evaluate_network_Ok (t : ndarray Q) n :
  wf t → shape t = n :: input_shape → (0 < n)%nat → ∃ v, evaluate_network t = Ok v.
Proof.
  intros Hwf Hs Hn. destruct (rows_Ok_wf t n input_shape Hwf Hs) as (imgs & Hr & Hlen & Himgs).
  destruct (mapM_Forall_Ok eval_one (λ _, True) imgs) as (ls & Hm & _ & _).
  { eapply Forall_impl; [exact Himgs|]. intros img [Hsh Hw].
    destruct (eval_one_spec img Hw Hsh) as (y & _ & _ & _ & E). eexists. split; [exact E|done]. }
  destruct (eval_loop_sum imgs ls 0 Hm) as (v & Hv & _).
  unfold evaluate_network. rewrite Hr, bind_Ok, Hv, bind_Ok, decide_False by lia. by eexists.
Qed.

(** On [n > 0] well-formed samples with values in [[0, 1]] the
    evaluation returns a loss in [[0, 1]]. *)
Lemma evaluate_network_unit (t : ndarray Q) n :
  wf t → shape t = n :: input_shape → (0 < n)%nat → Forall (λ v, 0 <= v <= 1) (data t) →
  ∃ v, evaluate_network t = Ok v ∧ 0 <= v <= 1.
Proof.
  intros Hwf Hs Hn Hd. destruct (rows_Ok_wf t n input_shape Hwf Hs) as (imgs & Hr & Hlen & Himgs).
  pose proof (rows_Forall _ t imgs Hd Hr) as Hdi.
  destruct (mapM_Forall_Ok eval_one (λ l, 0 <= l <= 1) imgs) as (ls & Hm & Hls & HF2).
  { apply Forall_and in Himgs as [Hsh Hw]. eapply Forall_impl; [apply Forall_and; split; [apply Forall_and; split; [exact Hsh|exact Hw]|exact Hdi]|].
    intros img [[? ?] ?]. by apply eval_one_bounds. }
  destruct (eval_loop_sum imgs ls 0 Hm) as (v & Hv & Heq).
  assert (length ls = n) as Hln by (rewrite <- (Forall2_length _ _ _ HF2); done).
  destruct (np_sum_bounds ls Hls) as (H0 & H1). rewrite Hln in H1.
  exists (v / qnat n). split.
  - unfold evaluate_network. rewrite Hr, bind_Ok, Hv, bind_Ok, decide_False by lia.
    by rewrite Hlen.
  - apply div_unit_interval; [lra|lra|by apply qnat_pos].
Qed.

(** ** Properties *)

(** C19: on an empty test set (a first axis of length 0, as
    [load_images] returns for a directory without ".jpg"/".png" files)
    the loop never runs and [total_loss / len(test_data)] divides the
    integer [0] by [0]: [evaluate_network] raises [ZeroDivisionError]
    instead of printing a loss. *)
Theorem evaluate_network_empty (t : ndarray Q) s :
  shape t = 0%nat :: s → evaluate_network t = Err ZeroDivisionError.
Proof. intros Hs. unfold evaluate_network, rows. rewrite Hs. reflexivity. Qed.

(** C7: on [n > 0] well-formed samples of shape [(128, 128, 3)] every
    sample goes through lines 91-93, and the printed value is the mean
    of the per-sample losses: their sum divided by [n]. *)
Theorem evaluate_network_mean (t : ndarray Q) n :
  wf t → shape t = n :: input_shape → (0 < n)%nat →
  ∃ imgs ls v, rows t = Ok imgs ∧ mapM eval_one imgs = Ok ls ∧ length ls = n ∧
               evaluate_network t = Ok v ∧ v == np_sum ls / qnat n.
Proof.
  intros Hwf Hs Hn. destruct (rows_Ok_wf t n input_shape Hwf Hs) as (imgs & Hr & Hlen & Himgs).
  destruct (mapM_Forall_Ok eval_one (λ _, True) imgs) as (ls & Hm & _ & HF2).
  { eapply Forall_impl; [exact Himgs|]. intros img [Hsh Hw].
    destruct (eval_one_spec img Hw Hsh) as (y & _ & _ & _ & E). eexists. split; [exact E|done]. }
  destruct (eval_loop_sum imgs ls 0 Hm) as (v & Hv & Heq).
  exists imgs, ls, (v / qnat n). split; [done|]. split; [done|].
  split; [rewrite <- (Forall2_length _ _ _ HF2); done|].
  split.
  - unfold evaluate_network. rewrite Hr, bind_Ok, Hv, bind_Ok, decide_False by lia.
    by rewrite Hlen.
  - rewrite Heq, Qplus_0_l. reflexivity.
Qed.

End Props.

(** ** Witnesses *)

Lemma grey_batch_wf : wf grey_batch.
Proof. unfold wf, grey_batch. cbn [data shape]. apply length_replicate. Qed.

Lemma evaluate_network_empty_witness :
  evaluate_network (P := zero_head) (mk_ndarray (0 :: input_shape)%nat []) = Err ZeroDivisionError.
Proof. apply (evaluate_network_empty (P := zero_head) _ input_shape). reflexivity. Defined.

Lemma evaluate_network_mean_witness :
  ∃ imgs ls v, rows grey_batch = Ok imgs ∧ mapM (eval_one (P := zero_head)) imgs = Ok ls ∧
               length ls = 1%nat ∧ evaluate_network (P := zero_head) grey_batch = Ok v ∧
               v == np_sum ls / qnat 1.
Proof.
  apply (evaluate_network_mean (P := zero_head) grey_batch 1).
  - apply grey_batch_wf.
  - reflexivity.
  - lia.
Defined.

End Evaluate.
