(* ===== verification/Loss.v ===== *)
(** * The loss of line 57: [MeanSquaredError()]

    [autoencoder.compile(optimizer=Adam(), loss=MeanSquaredError())]
    gives [fit] (and [model.evaluate]) its objective.  Keras computes it
    in two steps: [mean_squared_error(y_true, y_pred)] is the mean over
    the last axis of [squared_difference(y_pred, y_true)] (one value per
    pixel), and the default reduction [sum_over_batch_size] divides the
    sum of those values by their number ([divide_no_nan]: a division by
    zero gives 0, as [Qdiv] does).  A mean over an empty last axis is
    [nan] in TensorFlow; it is never taken here (the last axis has 3
    channels).  The theorems relate this loss to the value
    [evaluate_network] (lines 88-96) prints. *)

From S2P Require Import Prelude NdArray Layers Model Evaluate.
From Stdlib Require Import QArith Lqa.

Module Loss.
Import NdArray Layers Model Evaluate.
Local Open Scope Q_scope.

(** [backend.mean(a, axis=-1)]: a 0-d tensor has no last axis. *)
Definition mean_last_axis (a : ndarray Q) : result (ndarray Q) :=
  match last (shape a) with
  | None => Err AxisError
  | Some k =>
      let s := removelast (shape a) in
      Ok (mk_ndarray s (map (λ c, np_sum c / qnat k) (chunks k (size_of s) (data a))))
  end.

(** [losses_utils.compute_weighted_loss(..., SUM_OVER_BATCH_SIZE)] *)
Definition sum_over_batch_size (l : ndarray Q) : Q :=
  np_sum (data l) / qnat (size_of (shape l)).

(** [losses.mean_squared_error(y_true, y_pred)] *)
Definition mean_squared_error (y_true y_pred : ndarray Q) : result (ndarray Q) :=
  d ← binop (λ p t, square (p - t)) y_pred y_true;
  mean_last_axis d.

(** [MeanSquaredError()(y_true, y_pred)]: the scalar [fit] minimises. *)
Definition mse_loss (y_true y_pred : ndarray Q) : result Q :=
  l ← mean_squared_error y_true y_pred;
  Ok (sum_over_batch_size l).

(** ** Sums of blocks *)

Lemma qnat_mul (a b : nat) : qnat (a * b)%nat == qnat a * qnat b.
Proof. unfold qnat. rewrite Nat2Z.inj_mul, inject_Z_mult. reflexivity. Qed.

Lemma np_sum_div (l : list Q) q : np_sum (map (λ x, x / q) l) == np_sum l / q.
Proof.
  induction l as [|x l IH]; simpl; [unfold Qdiv; ring|].
  change (x / q + np_sum (map (λ x, x / q) l) == (x + np_sum l) / q).
  rewrite IH. unfold Qdiv. ring.
Qed.

Lemma np_sum_concat (ls : list (list Q)) : np_sum (concat ls) == np_sum (map np_sum ls).
Proof.
  induction ls as [|l ls IH]; simpl; [reflexivity|]. rewrite np_sum_app, IH. reflexivity.
Qed.

(** A mean of means of equal blocks is the mean of everything. *)
Lemma div_div_qnat (a : Q) (m k : nat) : a / qnat k / qnat m == a / qnat (m * k)%nat.
Proof. rewrite qnat_mul. unfold Qdiv. rewrite Qinv_mult_distr. ring. Qed.

Lemma size_of_removelast s k : last s = Some k → size_of s = (size_of (removelast s) * k)%nat.
Proof.
  intros (s' & ->)%last_Some. rewrite removelast_last, size_of_app, size_of_cons, size_of_nil.
  lia.
Qed.

Lemma np_sum_map_square_app (a1 a2 b1 b2 : list Q) :
  length a1 = length b1 →
  np_sum (map square (zip_with Qminus (a1 ++ a2) (b1 ++ b2))) ==
    np_sum (map square (zip_with Qminus a1 b1)) + np_sum (map square (zip_with Qminus a2 b2)).
Proof. intros Hl. rewrite zip_with_app by done. rewrite map_app. apply np_sum_app. Qed.

Lemma map_zip_with_fuse {A B C D} (f : C → D) (g : A → B → C) l k :
  map f (zip_with g l k) = zip_with (λ x y, f (g x y)) l k.
Proof. revert k. induction l as [|x l IH]; intros [|y k]; simpl; f_equal; auto. Qed.

(** ** The loss on arrays of one shape *)

(** On two well-formed arrays of the same shape [s] with a last axis,
    Keras' two reductions give the mean over all elements of the squared
    difference. *)
Lemma mse_loss_Ok (y_true y_pred : ndarray Q) s k :
  wf y_true → wf y_pred → shape y_true = s → shape y_pred = s → last s = Some k → (0 < k)%nat →
  ∃ l, mse_loss y_true y_pred = Ok l ∧
       l == np_sum (map square (zip_with Qminus (data y_pred) (data y_true))) / qnat (size_of s).
Proof.
  intros Ht Hp Hst Hsp Hk Hk0.
  unfold mse_loss, mean_squared_error.
  rewrite (binop_same_shape _ y_pred y_true) by congruence. rewrite bind_Ok.
  unfold mean_last_axis. cbn [shape data]. rewrite Hsp, Hk, bind_Ok.
  eexists. split; [reflexivity|]. unfold sum_over_batch_size. cbn [shape data].
  rewrite <- (map_map np_sum (λ x, x / _)), np_sum_div, <- np_sum_concat.
  rewrite concat_chunks.
  - rewrite div_div_qnat, <- size_of_removelast by done.
    rewrite map_zip_with_fuse. reflexivity.
  - unfold wf in *. rewrite length_zip_with, Ht, Hp, Hst, Hsp, Nat.min_id.
    by apply size_of_removelast.
Qed.

Lemma last_input_shape n : last (n :: input_shape) = Some 3%nat.
Proof. reflexivity. Qed.

Section Props.
Context {P : Predictor}.

(** When the prediction for each sample is the matching row of [ys],
    the loop of lines 90-93 adds up the squared differences of the
    whole data, each sample divided by its size. *)
Lemma eval_loop_rows imgs yrows acc :
  Forall (λ b, shape b = input_shape ∧ wf b) imgs →
  Forall2 (λ img yr, predict (mk_ndarray (1 :: input_shape)%nat (data img)) =
                     Ok (mk_ndarray (1 :: input_shape)%nat (data yr))) imgs yrows →
  ∃ v, eval_loop imgs acc = Ok v ∧
       v == acc + np_sum (map square (zip_with Qminus (concat (map data yrows))
                                                      (concat (map data imgs))))
                  / qnat (size_of input_shape).
Proof.
  intros Himgs HF. revert acc. induction HF as [|img yr imgs yrows Hp HF IH]; intros acc.
  - exists acc. split; [done|]. simpl. unfold Qdiv. ring.
  - apply Forall_cons in Himgs as [[Hsh Hw] Himgs].
    destruct (eval_one_spec img Hw Hsh) as (y & Hy & Hyw & Hys & He).
    change (1 :: input_shape)%nat with [1; 128; 128; 3]%nat in Hp.
    rewrite Hy in Hp. injection Hp as ->.
    destruct (IH Himgs (acc + np_sum (map square (zip_with Qminus (data yr) (data img)))
                               / qnat (size_of [1; 128; 128; 3]%nat))) as (v & Hv & Hveq).
    exists v. split; [by cbn [eval_loop]; rewrite He, bind_Ok|].
    cbn [map concat]. rewrite np_sum_map_square_app.
    + rewrite Hveq, batch_size. unfold Qdiv. ring.
    + unfold wf in *. cbn [data shape] in *. rewrite Hyw, Hw, Hsh. apply batch_size.
Qed.

End Props.

(** ** Properties *)

Section Claims.
Context {P : Predictor}.

(** C15: the test loss [evaluate_network] prints is the training loss
    of line 57, Keras' [MeanSquaredError()] with its default reduction,
    on the whole test set: when [predict] gives each sample the matching
    row of [ys], the mean over samples of the per-sample [np.mean] equals
    [MeanSquaredError()(test_data, ys)]. *)
Theorem evaluate_network_keras_loss (t ys : ndarray Q) n imgs yrows :
  wf t → shape t = n :: input_shape → (0 < n)%nat → wf ys → shape ys = n :: input_shape →
  rows t = Ok imgs → rows ys = Ok yrows →
  Forall2 (λ img yr, predict (mk_ndarray (1 :: input_shape)%nat (data img)) =
                     Ok (mk_ndarray (1 :: input_shape)%nat (data yr))) imgs yrows →
  ∃ v l, evaluate_network t = Ok v ∧ mse_loss t ys = Ok l ∧ v == l.
Proof.
  intros Ht Hs Hn Hy Hys Hr Hry HF.
  destruct (rows_Ok_wf t n input_shape Ht Hs) as (imgs' & Hr' & Hlen & Himgs).
  rewrite Hr in Hr'. injection Hr' as <-.
  destruct (eval_loop_rows imgs yrows 0 Himgs HF) as (v & Hv & Hveq).
  destruct (mse_loss_Ok t ys (n :: input_shape) 3 Ht Hy Hs Hys (last_input_shape n)) as (l & Hl & Hleq);
    [lia|].
  exists (v / qnat n), l. split; [|split; [done|]].
  - unfold evaluate_network. rewrite Hr, bind_Ok, Hv, bind_Ok, decide_False by lia.
    by rewrite Hlen.
  - rewrite Hleq, Hveq, (rows_concat t imgs), (rows_concat ys yrows) by done.
    rewrite Qplus_0_l, div_div_qnat, size_of_cons. reflexivity.
Qed.

End Claims.

(** ** Witnesses *)

(** The one row of [grey_batch]. *)
Definition grey_image : ndarray Q := mk_ndarray input_shape (replicate (size_of input_shape) (1 # 2)).

Lemma grey_batch_rows : rows grey_batch = Ok [grey_image].
Proof.
  unfold rows, grey_batch, grey_image. cbn [shape data chunks map].
  by rewrite take_replicate, size_of_cons, Nat.mul_1_l, Nat.min_id.
Qed.

Lemma zero_head_grey :
  predict (Predictor := zero_head) (mk_ndarray (1 :: input_shape)%nat (data grey_image)) =
    Ok (mk_ndarray (1 :: input_shape)%nat (data grey_image)).
Proof.
  cbn [predict zero_head]. unfold zero_head_predict. cbn [shape].
  rewrite autoencoder_on_input, bind_Ok. unfold grey_image. cbn [data].
  by rewrite Nat.mul_1_l.
Qed.

Lemma evaluate_network_keras_loss_witness :
  ∃ v l, evaluate_network (P := zero_head) grey_batch = Ok v ∧ mse_loss grey_batch grey_batch = Ok l ∧
         v == l.
Proof.
  apply (evaluate_network_keras_loss (P := zero_head) grey_batch grey_batch 1 [grey_image] [grey_image]).
  - apply grey_batch_wf.
  - reflexivity.
  - lia.
  - apply grey_batch_wf.
  - reflexivity.
  - apply grey_batch_rows.
  - apply grey_batch_rows.
  - constructor; [apply zero_head_grey|constructor].
Defined.

End Loss.
