(* ===== verification/Forward.v ===== *)
(** * The numeric forward pass of the layers of lines 45-54

    What [autoencoder.predict] computes on one sample, layer by layer, as
    TensorFlow's kernels compute it: [Conv2D] is a cross-correlation of
    the zero-padded input with the kernel, plus the bias, then the
    activation; [Conv2DTranspose] is the transpose of that map (the
    input gradient of a convolution, [conv2d_backprop_input]); [Flatten]
    and [Reshape] keep the row-major data.  The layout is Keras': a
    sample is [(h, w, c)], a [Conv2D] kernel is [(kh, kw, c_in, filters)]
    and a [Conv2DTranspose] kernel is [(kh, kw, filters, c_in)], both
    row-major, with one bias per filter.  "same" padding puts
    [pad_total / 2] zeros before the input, TensorFlow's rule.  The
    weights of the model are the list [autoencoder.get_weights()] groups
    by layer, one [conv_weights] per convolution in order; a missing
    entry reads as zeros.  The sigmoid is the class [SigmoidFn] (its law:
    values in [[0, 1]]), since [1 / (1 + exp(-x))] is not rational; the
    interval is closed because TensorFlow's float32 sigmoid returns
    exactly [1.0] (and [0.0]) once the input is large enough.

    The theorems show that this forward pass computes the shapes
    [Layers] infers (same output shapes, same errors), that the [Flatten] /
    [Reshape] pair of lines 48-49 is the identity, and that the last
    layer bounds every output to [[0, 1]]; [Network.v] builds
    [autoencoder.predict] on it. *)

From S2P Require Import Prelude NdArray Layers Model Evaluate.
From Stdlib Require Import QArith Lqa.

Module Forward.
Import NdArray Layers Model Evaluate.
Local Open Scope nat_scope.

(** [tf.math.sigmoid] *)
Class SigmoidFn := {
  sigmoid : Q → Q;
  sigmoid_range : ∀ q, (0 <= sigmoid q ∧ sigmoid q <= 1)%Q
}.

(** [tf.nn.relu]: [max(q, 0)] *)
Definition relu (q : Q) : Q := if Qle_bool 0 q then q else 0%Q.

Definition apply_activation `{SigmoidFn} (a : activation) (q : Q) : Q :=
  match a with
  | Linear => q
  | Relu => relu q
  | Sigmoid => sigmoid q
  end.

(** The weights of one convolution: [kernel] and [bias]. *)
Record conv_weights := mk_conv_weights { kernel : list Q; bias : list Q }.

Definition zero_weights : conv_weights := mk_conv_weights [] [].

(** TensorFlow's output length of a convolution
    ([GetWindowedOutputSize]): [(n + s - 1) / s] with "SAME",
    [(n - k + s) / s] with "VALID", which needs [k <= n]. *)
Definition conv_out (n k s : nat) (pad : padding) : result nat :=
  match pad with
  | Same => Ok ((n + s - 1) / s)
  | Valid => if decide (k ≤ n) then Ok ((n - k + s) / s) else Err KerasShapeError
  end.

(** Zeros before the input: half of what the window overruns. *)
Definition pad_before (n k s out : nat) (pad : padding) : nat :=
  match pad with
  | Same => ((out - 1) * s + k - n) / 2
  | Valid => 0
  end.

(** Output length of a transposed convolution, and its padding: the
    padding of the convolution it transposes, from [n * s] to [n]. *)
Definition deconv_out (n k s : nat) (pad : padding) : nat :=
  match pad with
  | Same => n * s
  | Valid => n * s + (k - s)
  end.

Definition deconv_pad (k s : nat) (pad : padding) : nat :=
  match pad with
  | Same => (k - s) / 2
  | Valid => 0
  end.

(** [x[i, j, ch]] of a sample [(h, w, c)], zero outside (the padding). *)
Definition pixel (x : ndarray Q) (i j : Z) (ch : nat) : Q :=
  match shape x with
  | [h; w; c] =>
      if bool_decide (0 ≤ i < Z.of_nat h ∧ 0 ≤ j < Z.of_nat w)%Z
      then nth (Z.to_nat ((i * Z.of_nat w + j) * Z.of_nat c) + ch) (data x) 0%Q
      else 0%Q
  | _ => 0%Q
  end.

(** [K[a, b, p, q]] of a row-major kernel [(kh, kw, P, Q)]. *)
Definition kernel_at (K : list Q) (kw P Q' a b p q : nat) : Q :=
  nth (((a * kw + b) * P + p) * Q' + q) K 0%Q.

(** [sum(f(i) for i in range(n))] *)
Definition sum_range (n : nat) (f : nat → Q) : Q := np_sum (map f (seq 0 n)).

(** The values of an [(h, w, c)] result, row-major. *)
Definition tabulate3 (h w c : nat) (g : nat → nat → nat → Q) : list Q :=
  flat_map (λ i, flat_map (λ j, map (g i j) (seq 0 c)) (seq 0 w)) (seq 0 h).

Section WithSigmoid.
Context `{SigmoidFn}.

(** Output [(i, j, o)] of [Conv2D(f, (kh, kw), strides=(sh, sw))] on an
    input with [c] channels and paddings [ph], [pw]. *)
Definition conv2d_at (x : ndarray Q) (c f : nat) (k st : nat * nat) (a : activation)
    (wt : conv_weights) (ph pw i j o : nat) : Q :=
  apply_activation a
    (nth o (bias wt) 0 +
     sum_range k.1 (λ dh, sum_range k.2 (λ dw, sum_range c (λ ci,
       pixel x (Z.of_nat (i * st.1 + dh) - Z.of_nat ph) (Z.of_nat (j * st.2 + dw) - Z.of_nat pw) ci *
       kernel_at (kernel wt) k.2 c f dh dw ci o))))%Q.

(** The input position a tap [d] of a transposed convolution reads for
    output [p]: [i] with [i * s + d - pad = p], when there is one. *)
Definition deconv_src (p pad d s : nat) : option Z :=
  let u := (Z.of_nat (p + pad) - Z.of_nat d)%Z in
  if bool_decide (u `mod` Z.of_nat s = 0)%Z then Some (u `div` Z.of_nat s)%Z else None.

(** Output [(p, q, o)] of [Conv2DTranspose(f, (kh, kw), strides)]. *)
Definition deconv2d_at (x : ndarray Q) (c f : nat) (k st : nat * nat) (a : activation)
    (wt : conv_weights) (ph pw p q o : nat) : Q :=
  apply_activation a
    (nth o (bias wt) 0 +
     sum_range k.1 (λ dh, sum_range k.2 (λ dw, sum_range c (λ ci,
       match deconv_src p ph dh st.1, deconv_src q pw dw st.2 with
       | Some i, Some j => pixel x i j ci * kernel_at (kernel wt) k.2 f c dh dw o ci
       | _, _ => 0%Q
       end))))%Q.

(** One layer on one sample. *)
Definition layer_forward (l : layer) (wt : conv_weights) (x : ndarray Q) : result (ndarray Q) :=
  match l, shape x with
  | Conv2D f k a pad st, [h; w; c] =>
      check_window k st;;
      h' ← conv_out h k.1 st.1 pad;
      w' ← conv_out w k.2 st.2 pad;
      let ph := pad_before h k.1 st.1 h' pad in
      let pw := pad_before w k.2 st.2 w' pad in
      Ok (mk_ndarray [h'; w'; f] (tabulate3 h' w' f (conv2d_at x c f k st a wt ph pw)))
  | Conv2DTranspose f k a pad st, [h; w; c] =>
      check_window k st;;
      let h' := deconv_out h k.1 st.1 pad in
      let w' := deconv_out w k.2 st.2 pad in
      let ph := deconv_pad k.1 st.1 pad in
      let pw := deconv_pad k.2 st.2 pad in
      Ok (mk_ndarray [h'; w'; f] (tabulate3 h' w' f (deconv2d_at x c f k st a wt ph pw)))
  | Conv2D _ _ _ _ _, _ | Conv2DTranspose _ _ _ _ _, _ => Err KerasShapeError
  | Flatten, s => Ok (mk_ndarray [size_of s] (data x))
  | Reshape t, s =>
      if decide (size_of t = size_of s) then Ok (mk_ndarray t (data x)) else Err KerasShapeError
  end.

(** Which layers own weights. *)
Definition has_weights (l : layer) : bool :=
  match l with
  | Conv2D _ _ _ _ _ | Conv2DTranspose _ _ _ _ _ => true
  | Flatten | Reshape _ => false
  end.

(** The chain on one sample, each convolution taking the next weights. *)
Fixpoint forward (ls : list layer) (ws : list conv_weights) (x : ndarray Q) : result (ndarray Q) :=
  match ls with
  | [] => Ok x
  | l :: ls' =>
      if has_weights l
      then y ← layer_forward l (default zero_weights (head ws)) x; forward ls' (tail ws) y
      else y ← layer_forward l zero_weights x; forward ls' ws y
  end.

End WithSigmoid.

(** A rational function with the sigmoid's range, [1/2] at [0]: the
    witnesses use it in place of [1 / (1 + exp(-q))]. *)
Definition rational_sigmoid (q : Q) : Q :=
  if Qle_bool 0 q then 1 - 1 / (2 * (1 + q)) else 1 / (2 * (1 - q)).

Lemma inv_half_range (d : Q) : (2 <= d → 0 < 1 / d ∧ 1 / d <= 1 # 2)%Q.
Proof.
  intros Hd. split.
  - apply Qlt_shift_div_l; lra.
  - apply Qle_shift_div_r; lra.
Qed.

#[export] Instance rational_sigmoid_fn : SigmoidFn.
Proof.
  refine {| sigmoid := rational_sigmoid |}. intros q. unfold rational_sigmoid.
  destruct (Qle_bool 0 q) eqn:E.
  - apply Qle_bool_iff in E. destruct (inv_half_range (2 * (1 + q))); lra.
  - assert (q < 0)%Q as Hq.
    { apply Qnot_le_lt. intros Hle. apply Qle_bool_iff in Hle. congruence. }
    destruct (inv_half_range (2 * (1 - q))); lra.
Defined.

(** ** Lemmas *)

Lemma length_tabulate3 h w c g : length (tabulate3 h w c g) = size_of [h; w; c].
Proof.
  unfold tabulate3. rewrite (length_flat_map_const (w * c)).
  - rewrite length_seq, !size_of_cons, size_of_nil. lia.
  - intros i. rewrite (length_flat_map_const c); [by rewrite length_seq|].
    intros j. by rewrite length_map, length_seq.
Qed.

Lemma Forall_tabulate3 (P : Q → Prop) h w c g :
  (∀ i j o, P (g i j o)) → Forall P (tabulate3 h w c g).
Proof.
  intros HP. apply List.Forall_forall. intros v Hv. unfold tabulate3 in Hv.
  apply in_flat_map in Hv as (i & _ & Hv). apply in_flat_map in Hv as (j & _ & Hv).
  apply in_map_iff in Hv as (o & <- & _). apply HP.
Qed.

(** TensorFlow's length formulas are Keras' shape inference. *)
Lemma conv_out_eq n k s pad : conv_out n k s pad = conv_output_length n k pad s.
Proof.
  destruct pad; simpl; [done|]. case_decide; [|done]. do 2 f_equal. lia.
Qed.

Lemma deconv_out_eq n k s pad : deconv_out n k s pad = deconv_output_length n k pad s.
Proof. by destruct pad. Qed.

Section Props.
Context `{SigmoidFn}.

(** One layer: the forward pass fails exactly when shape inference does,
    with the same exception, and otherwise returns a well-formed array of
    the inferred shape. *)
Lemma layer_forward_shape l wt x :
  wf x →
  match layer_forward l wt x with
  | Ok y => layer_output_shape l (shape x) = Ok (shape y) ∧ wf y
  | Err e => layer_output_shape l (shape x) = Err e
  end.
Proof.
  intros Hx. unfold wf in Hx.
  destruct l as [f k a pad st|f k a pad st| |t]; unfold layer_forward, layer_output_shape.
  - destruct (shape x) as [|h [|w [|c [|? ?]]]]; try done.
    destruct (check_window k st) as [[]|e]; [rewrite !bind_Ok|done].
    rewrite !conv_out_eq. destruct (conv_output_length h k.1 pad st.1) as [h'|e]; [rewrite !bind_Ok|done].
    destruct (conv_output_length w k.2 pad st.2) as [w'|e]; [rewrite !bind_Ok|done].
    split; [done|]. apply length_tabulate3.
  - destruct (shape x) as [|h [|w [|c [|? ?]]]]; try done.
    destruct (check_window k st) as [[]|e]; [rewrite !bind_Ok|done].
    rewrite !deconv_out_eq. split; [done|]. apply length_tabulate3.
  - split; [done|]. unfold wf. cbn [data shape]. rewrite Hx, size_of_cons, size_of_nil. lia.
  - case_decide; [|done]. split; [done|]. unfold wf. cbn [data shape]. congruence.
Qed.

(** The weights a chain leaves to the layers after it. *)
Lemma forward_cons l ls ws x :
  ∃ wt ws', forward (l :: ls) ws x = (y ← layer_forward l wt x; forward ls ws' y).
Proof. simpl. destruct (has_weights l); eauto. Qed.

(** The whole chain refines [Layers.output_shape]. *)
Lemma forward_shape ls ws x :
  wf x →
  match forward ls ws x with
  | Ok y => output_shape ls (shape x) = Ok (shape y) ∧ wf y
  | Err e => output_shape ls (shape x) = Err e
  end.
Proof.
  revert ws x. induction ls as [|l ls IH]; intros ws x Hx; [done|].
  destruct (forward_cons l ls ws x) as (wt & ws' & ->). cbn [output_shape].
  pose proof (layer_forward_shape l wt x Hx) as Hl.
  destruct (layer_forward l wt x) as [y|e]; [|by rewrite Hl].
  destruct Hl as [-> Hy]. rewrite !bind_Ok. by apply IH.
Qed.

Lemma forward_Ok ls ws x s' :
  wf x → output_shape ls (shape x) = Ok s' → ∃ y, forward ls ws x = Ok y ∧ shape y = s' ∧ wf y.
Proof.
  intros Hx Hs. pose proof (forward_shape ls ws x Hx) as Hf.
  destruct (forward ls ws x) as [y|e]; [|congruence].
  destruct Hf as [Hy Hw]. exists y. split; [done|]. split; [congruence|done].
Qed.

(** A chain cut in two: the second part takes the weights the first
    leaves. *)
Lemma forward_app ls1 ls2 ws x :
  forward (ls1 ++ ls2) ws x =
    (y ← forward ls1 ws x; forward ls2 (drop (length (List.filter has_weights ls1)) ws) y).
Proof.
  revert ws x. induction ls1 as [|l ls1 IH]; intros ws x; [done|].
  cbn [app forward List.filter]. destruct (has_weights l); cbn [length];
    (destruct (layer_forward l _ x) as [y|e]; [rewrite !bind_Ok, IH|by rewrite !bind_Err]).
  - destruct ws; cbn [tail]; rewrite ?drop_nil; done.
  - done.
Qed.

(** The last layer of a chain produces its result. *)
Lemma forward_last ls l ws x y :
  forward (ls ++ [l]) ws x = Ok y → ∃ wt z, layer_forward l wt z = Ok y.
Proof.
  revert ws x. induction ls as [|l' ls IH]; intros ws x.
  - cbn [app]. destruct (forward_cons l [] ws x) as (wt & ws' & ->). cbn [forward].
    destruct (layer_forward l wt x) as [z|] eqn:E; [|done]. rewrite !bind_Ok. intros [= <-]. eauto.
  - cbn [app]. destruct (forward_cons l' (ls ++ [l]) ws x) as (wt & ws' & ->).
    destruct (layer_forward l' wt x) as [z|]; [|done]. rewrite bind_Ok. apply IH.
Qed.

(** A sigmoid convolution outputs values in [[0, 1]]. *)
Lemma conv_sigmoid_range f k pad st wt z y :
  layer_forward (Conv2D f k Sigmoid pad st) wt z = Ok y → Forall (λ v, 0 <= v ∧ v <= 1)%Q (data y).
Proof.
  unfold layer_forward. destruct (shape z) as [|h [|w [|c [|? ?]]]]; try done.
  destruct (check_window k st) as [[]|]; [rewrite bind_Ok|done].
  destruct (conv_out h k.1 st.1 pad) as [h'|]; [rewrite bind_Ok|done].
  destruct (conv_out w k.2 st.2 pad) as [w'|]; [rewrite bind_Ok|done].
  intros [= <-]. apply Forall_tabulate3. intros. apply sigmoid_range.
Qed.

(** The last layer of the autoencoder is the sigmoid convolution of
    line 54, so every value it outputs lies in [[0, 1]]. *)
Lemma forward_autoencoder_range ws x y :
  forward autoencoder ws x = Ok y → Forall (λ v, 0 <= v ∧ v <= 1)%Q (data y).
Proof.
  change autoencoder with ((encoder ++ take 3 decoder) ++ [Conv2D 3 (3, 3) Sigmoid Same (1, 1)]).
  intros (wt & z & Hz)%forward_last. by eapply conv_sigmoid_range.
Qed.

End Props.

(** [Flatten] then [Reshape] to the shape it flattened keeps the sample. *)
Lemma flatten_reshape_id `{SigmoidFn} ws y :
  forward [Flatten; Reshape (shape y)] ws y = Ok y.
Proof.
  cbn [forward has_weights layer_forward shape]. rewrite bind_Ok.
  rewrite decide_True by (cbn [shape]; rewrite size_of_cons, size_of_nil; lia).
  rewrite bind_Ok. cbn [forward data]. by rewrite ndarray_eta.
Qed.

(** ** Properties *)

Section Claims.
Context `{SigmoidFn}.

(** C17: lines 48-49 do nothing: on a sample of the input shape, the
    [Flatten] and [Reshape((32, 32, 256))] that follow the three
    convolutions give back their output unchanged, so [encoded] is the
    third convolution's output, of shape (32, 32, 256). *)
Theorem encoder_flatten_reshape_identity ws x :
  wf x → shape x = input_shape →
  ∃ y, forward (take 3 encoder) ws x = Ok y ∧ shape y = [32; 32; 256] ∧ forward encoder ws x = Ok y.
Proof.
  intros Hx Hs.
  destruct (forward_Ok (take 3 encoder) ws x [32; 32; 256] Hx) as (y & Hy & Hys & _);
    [by rewrite Hs|].
  exists y. split; [done|]. split; [done|].
  change encoder with (take 3 encoder ++ [Flatten; Reshape [32; 32; 256]]).
  rewrite forward_app, Hy, bind_Ok, <- Hys. apply flatten_reshape_id.
Qed.

End Claims.

(** ** Witnesses *)

(** A 2 x 2 grey sample and a stride-2 convolution / transposed
    convolution pair, with zero weights. *)
Definition tiny_sample : ndarray Q := mk_ndarray [2; 2; 1] [1; 2; 3; 4]%Q.

Definition black_image : ndarray Q := mk_ndarray input_shape (replicate (size_of input_shape) 0%Q).

Lemma encoder_flatten_reshape_identity_witness :
  ∃ y, forward (take 3 encoder) [] black_image = Ok y ∧ shape y = [32; 32; 256] ∧
       forward encoder [] black_image = Ok y.
Proof.
  apply encoder_flatten_reshape_identity.
  - apply length_replicate.
  - reflexivity.
Defined.

End Forward.
