(* ===== verification/Network.v ===== *)
(** * [autoencoder.predict] on the numeric forward pass

    [predict] (lines 67 and 92) runs every sample of a batch through the
    chain of [Forward] and stacks the results; Keras' batching into
    groups of 32 changes nothing, the layers act on samples one by one.
    With any weights, this is an instance of [Model.Predictor], so the
    theorems of [Evaluate] and [Pipeline], proved against that interface,
    hold for the real network. *)

From S2P Require Import Prelude NdArray Layers Model Forward.
From Stdlib Require Import QArith.

Module Network.
Import NdArray Layers Model Forward.
Local Open Scope nat_scope.

(** [autoencoder.predict(x)] on a batch: each sample through the chain
    (the layers act on samples independently, so Keras' batches of 32
    change nothing), the results stacked.  An empty batch raises
    [ValueError]. *)
Definition network_predict `{SigmoidFn} (ws : list conv_weights) (x : ndarray Q) : result (ndarray Q) :=
  match shape x with
  | [] => Err KerasShapeError
  | 0 :: _ => Err ValueError
  | _ :: _ =>
      xs ← rows x;
      ys ← mapM (forward autoencoder ws) xs;
      stack ys
  end.

Section WithWeights.
Context `{SigmoidFn} (ws : list conv_weights).

Lemma network_predict_shape x n s s' :
  wf x → shape x = n :: s → 0 < n → output_shape autoencoder s = Ok s' →
  ∃ y, network_predict ws x = Ok y ∧ shape y = n :: s' ∧ wf y.
Proof.
  intros Hx Hs Hn Ho. unfold network_predict. rewrite Hs. destruct n as [|n]; [lia|].
  destruct (rows_Ok_wf x (S n) s Hx Hs) as (xs & Hr & Hlen & Hxs). rewrite Hr, bind_Ok.
  destruct (mapM_Forall_Ok (forward autoencoder ws) (λ y, shape y = s' ∧ wf y) xs)
    as (ys & Hm & Hys & HF2).
  { eapply Forall_impl; [exact Hxs|]. intros b [Hb Hw].
    destruct (forward_Ok autoencoder ws b s' Hw) as (y & Hy & Hys & Hyw); [congruence|].
    eauto. }
  rewrite Hm, bind_Ok.
  assert (length ys = S n) as Hl by (rewrite <- (Forall2_length _ _ _ HF2); done).
  rewrite (stack_homogeneous ys s').
  2: { intros ->. simpl in Hl. lia. }
  2: { eapply Forall_impl; [exact Hys|]. by intros b [? _]. }
  eexists. split; [done|]. rewrite Hl. split; [done|].
  unfold wf. cbn [data shape]. rewrite (length_concat_const (size_of s')).
  - rewrite length_map, Hl, size_of_cons. lia.
  - apply Forall_map. eapply Forall_impl; [exact Hys|].
    intros b [Hb Hw]. unfold wf in Hw. congruence.
Qed.

Lemma network_predict_range x y :
  network_predict ws x = Ok y → Forall (λ v, 0 <= v ∧ v <= 1)%Q (data y).
Proof.
  unfold network_predict. destruct (shape x) as [|[|n] s]; [done|done|].
  destruct (rows x) as [xs|]; [rewrite bind_Ok|done].
  destruct (mapM (forward autoencoder ws) xs) as [ys|] eqn:Hm; [rewrite bind_Ok|done].
  intros Hst. apply (stack_Forall _ ys); [done|].
  apply mapM_Ok_Forall2 in Hm. apply List.Forall_forall. intros b Hb%list_elem_of_In.
  destruct (Forall2_elem_r _ _ _ b Hm Hb) as (xb & _ & Hxb).
  by eapply forward_autoencoder_range.
Qed.

(** The network of lines 42-56 with weights [ws] is a [Predictor]: the
    contract [evaluate_network] and [main] are proved against holds for
    the real forward pass. *)
Definition network : Predictor :=
  {| predict := network_predict ws;
     predict_shape := network_predict_shape;
     predict_sigmoid := network_predict_range |}.

End WithWeights.

(** ** Properties *)

Section Claims.
Context `{SigmoidFn}.

(** C16: the autoencoder of lines 42-56, with any weights, maps a batch of
    [n > 0] images of shape (128, 128, 3) to [n] images of the same
    shape with every value in (0, 1): the real network meets the
    [predict] contract the evaluation and the main block rely on. *)
Theorem network_predict_contract ws x n :
  wf x → shape x = n :: input_shape → 0 < n →
  ∃ y, predict (Predictor := network ws) x = Ok y ∧ shape y = n :: input_shape ∧ wf y ∧
       Forall (λ v, 0 <= v ∧ v <= 1)%Q (data y).
Proof.
  intros Hx Hs Hn.
  destruct (network_predict_shape ws x n input_shape input_shape Hx Hs Hn autoencoder_on_input)
    as (y & Hy & Hys & Hyw).
  exists y. split; [done|]. split; [done|]. split; [done|]. by eapply network_predict_range.
Qed.

End Claims.

(** ** Witnesses *)

Lemma network_predict_contract_witness :
  ∃ y, predict (Predictor := network []) (mk_ndarray (1 :: input_shape) (data black_image)) = Ok y ∧
       shape y = 1 :: input_shape ∧ wf y ∧ Forall (λ v, 0 <= v ∧ v <= 1)%Q (data y).
Proof.
  apply network_predict_contract.
  - unfold wf, black_image. cbn [data shape]. rewrite length_replicate, size_of_cons. lia.
  - reflexivity.
  - lia.
Defined.

End Network.
