(* ===== verification/Transpose.v ===== *)
(** * [Conv2DTranspose] is the transpose of [Conv2D]

    TensorFlow defines the transposed convolution of lines 51-53 as the
    input gradient of a convolution: the linear map whose matrix is the
    transpose of the convolution's.  This file proves that the model of
    [Forward] has that property: with a linear activation and no bias,
    for a kernel [K] read as [(kh, kw, c, f)] by both layers,
    [<conv(x), y> = <x, conv_transpose(y)>] for every input [x] of shape
    [(h * sh, w * sw, c)] and [y] of shape [(h, w, f)], where [<a, b>] is
    [np.sum(a * b)].  It checks [Forward.deconv2d_at] against
    [Forward.conv2d_at]: the padding, the stride and the kernel layout
    of the two must agree for the identity to hold.

    The proof works on finite sums [sum_range]: exchange of sums, sums of
    indicator functions, and the reindexing [p = i * s + d - pad] that
    turns the transposed convolution's gather back into the
    convolution's. *)

From S2P Require Import Prelude NdArray Layers Model Evaluate Forward.
From Stdlib Require Import QArith Lqa.

Module Transpose.
Import NdArray Layers Model Evaluate Forward.

(** [np.sum(a * b)] *)
Definition dot (a b : list Q) : Q := np_sum (zip_with Qmult a b).

(** The value read through an optional index, zero without one. *)
Definition opt0 (G : Z → Q) (o : option Z) : Q :=
  match o with Some i => G i | None => 0%Q end.

(** ** Finite sums *)

Section Sums.
Local Open Scope Q_scope.

Lemma sum_range_S n f : sum_range (S n) f == sum_range n f + f n.
Proof. unfold sum_range. rewrite seq_S, map_app, np_sum_app. simpl. ring. Qed.

#[export] Instance sum_range_proper : Proper (eq ==> pointwise_relation nat Qeq ==> Qeq) sum_range.
Proof. intros n ? <- f g Hfg. induction n as [|n IH]; [reflexivity|]. rewrite !sum_range_S, IH, (Hfg n). reflexivity. Qed.

Lemma sum_range_add (a b : nat) f :
  sum_range (a + b) f == sum_range a f + sum_range b (λ j, f (a + j)%nat).
Proof.
  unfold sum_range. rewrite seq_app, map_app, np_sum_app.
  replace (seq (0 + a) b) with (map (Nat.add a) (seq 0 b)) by (rewrite map_add_seq; f_equal; lia).
  rewrite map_map. reflexivity.
Qed.


Lemma sum_range_S_l n f : sum_range (S n) f == f 0%nat + sum_range n (λ j, f (S j)).
Proof. change (S n) with (1 + n)%nat. rewrite sum_range_add. unfold sum_range at 1. simpl. ring. Qed.

Lemma sum_range_ext n f g : (∀ i, (i < n)%nat → f i == g i) → sum_range n f == sum_range n g.
Proof.
  induction n as [|n IH]; intros Hfg; [reflexivity|].
  assert (sum_range n f == sum_range n g) as E by (apply IH; intros; apply Hfg; lia).
  rewrite !sum_range_S, E, (Hfg n) by lia. reflexivity.
Qed.

Lemma sum_range_zero n f : (∀ i, (i < n)%nat → f i == 0) → sum_range n f == 0.
Proof.
  intros Hf. rewrite (sum_range_ext n f (λ _, 0)) by done. clear Hf.
  induction n as [|n IH]; [reflexivity|]. rewrite sum_range_S, IH. ring.
Qed.

Lemma sum_range_plus n f g : sum_range n (λ i, f i + g i) == sum_range n f + sum_range n g.
Proof. induction n as [|n IH]; [unfold sum_range; simpl; ring|]. rewrite !sum_range_S, IH. ring. Qed.

Lemma sum_range_mult_l c n f : c * sum_range n f == sum_range n (λ i, c * f i).
Proof. induction n as [|n IH]; [unfold sum_range; simpl; ring|]. rewrite !sum_range_S, <- IH. ring. Qed.

Lemma sum_range_mult_r c n f : sum_range n f * c == sum_range n (λ i, f i * c).
Proof. rewrite Qmult_comm, sum_range_mult_l. apply sum_range_ext. intros. ring. Qed.

(** Exchange of two finite sums. *)
Lemma sum_range_swap n m f :
  sum_range n (λ i, sum_range m (λ j, f i j)) == sum_range m (λ j, sum_range n (λ i, f i j)).
Proof.
  induction n as [|n IH].
  - transitivity 0; [reflexivity|]. symmetry. by apply sum_range_zero.
  - rewrite sum_range_S, IH, <- sum_range_plus. apply sum_range_ext. intros. by rewrite sum_range_S.
Qed.

(** A sum over [m * n] indices is a double sum. *)
Lemma sum_range_mul m n f :
  sum_range (m * n) f == sum_range m (λ i, sum_range n (λ j, f (i * n + j)%nat)).
Proof.
  induction m as [|m IH]; [reflexivity|].
  rewrite sum_range_S. replace (S m * n)%nat with (m * n + n)%nat by lia.
  rewrite sum_range_add, IH. reflexivity.
Qed.

(** A sum with one non-zero term. *)
Lemma sum_range_single n t f :
  sum_range n (λ i, if decide (i = t) then f i else 0) == if decide (t < n)%nat then f t else 0.
Proof.
  induction n as [|n IH]; [by rewrite decide_False by lia|].
  rewrite sum_range_S, IH. destruct (decide (n = t)) as [->|Hne].
  - rewrite decide_False, decide_True by lia. ring.
  - destruct (decide (t < n)%nat); [rewrite decide_True by lia; ring|].
    rewrite decide_False by lia. ring.
Qed.

(** A sum over the positions of an [(h, w, c)] array, row-major. *)
Lemma sum_range_3 h w c F :
  sum_range (size_of [h; w; c]) F ==
    sum_range h (λ i, sum_range w (λ j, sum_range c (λ o, F ((i * w + j) * c + o)%nat))).
Proof.
  rewrite !size_of_cons, size_of_nil, Nat.mul_1_r, sum_range_mul.
  apply sum_range_ext. intros i _. rewrite sum_range_mul.
  apply sum_range_ext. intros j _. apply sum_range_ext. intros o _.
  by replace (i * (w * c) + (j * c + o))%nat with ((i * w + j) * c + o)%nat by lia.
Qed.

Lemma dot_nth (a b : list Q) : dot a b == sum_range (length a) (λ n, nth n a 0 * nth n b 0).
Proof.
  revert b. induction a as [|x a IH]; intros b; [reflexivity|].
  destruct b as [|y b].
  - unfold dot. cbn [zip_with]. symmetry. apply sum_range_zero. intros [|i] _; simpl; ring.
  - unfold dot in *. cbn [zip_with length]. rewrite sum_range_S_l.
    change (x * y + np_sum (zip_with Qmult a b) == x * y + sum_range (length a) (λ j, nth j a 0 * nth j b 0)).
    by rewrite IH.
Qed.

End Sums.

Local Open Scope nat_scope.

(** ** Positions in row-major data *)

Lemma nth_flat_map_seq {A} (f : nat → list A) k a s i r d :
  (∀ x, length (f x) = k) → i < a → r < k →
  nth (i * k + r) (flat_map f (seq s a)) d = nth r (f (s + i)) d.
Proof.
  intros Hk. revert s i. induction a as [|a IH]; intros s i Hi Hr; [lia|].
  cbn [seq flat_map]. destruct i as [|i].
  - rewrite app_nth1 by (rewrite Hk; lia). by rewrite Nat.add_0_r.
  - replace (S i * k + r) with (length (f s) + (i * k + r)) by (rewrite Hk; lia).
    rewrite app_nth2_plus, IH by lia. by replace (S s + i) with (s + S i) by lia.
Qed.

Lemma nth_map_seq {A} (g : nat → A) c o d : o < c → nth o (map g (seq 0 c)) d = g o.
Proof.
  intros Ho. rewrite (nth_indep _ d (g 0)) by (rewrite length_map, length_seq; lia).
  by rewrite map_nth, seq_nth.
Qed.

Lemma nth_tabulate3 h w c g i j o :
  i < h → j < w → o < c → nth ((i * w + j) * c + o) (tabulate3 h w c g) 0%Q = g i j o.
Proof.
  intros Hi Hj Ho. unfold tabulate3.
  replace ((i * w + j) * c + o) with (i * (w * c) + (j * c + o)) by lia.
  assert (j * c + o < w * c).
  { apply (Nat.lt_le_trans _ ((j + 1) * c)); [lia|]. apply Nat.mul_le_mono_r. lia. }
  rewrite (nth_flat_map_seq _ (w * c)); [|intros x|lia|lia].
  - rewrite (nth_flat_map_seq _ c) by (intros; rewrite ?length_map, ?length_seq; lia).
    by apply nth_map_seq.
  - rewrite (length_flat_map_const c); [by rewrite length_seq|].
    intros y. by rewrite length_map, length_seq.
Qed.

(** ** The gather of the transposed convolution *)

(** Tap [d] of output [p] reads input [i] exactly when
    [p + pad - d = i * s]. *)
Lemma deconv_src_spec p pad d s i :
  0 < s → deconv_src p pad d s = Some i ↔ (Z.of_nat (p + pad) - Z.of_nat d = i * Z.of_nat s)%Z.
Proof.
  intros Hs. unfold deconv_src. case_bool_decide as Hm.
  - split.
    + intros [= <-]. rewrite Z.mul_comm. apply Z.div_exact; [lia|done].
    + intros Hu. rewrite Hu, Z.div_mul by lia. done.
  - split; [done|]. intros Hu. exfalso. apply Hm. rewrite Hu. apply Z.mod_mul. lia.
Qed.

(** The input a tap reads, as a sum over the inputs with an indicator. *)
Lemma opt0_src_sum h p pad d s (G : Z → Q) :
  0 < s → (∀ i, (i < 0 ∨ Z.of_nat h ≤ i)%Z → G i == 0)%Q →
  (opt0 G (deconv_src p pad d s) ==
    sum_range h (λ i, if decide (p + pad = i * s + d)%nat then G (Z.of_nat i) else 0))%Q.
Proof.
  intros Hs HG. destruct (deconv_src p pad d s) as [i0|] eqn:E.
  - apply deconv_src_spec in E; [|done]. cbn [opt0].
    destruct (decide (0 ≤ i0 < Z.of_nat h)%Z) as [Hin|Hout].
    + rewrite (sum_range_ext _ _ (λ i, if decide (i = Z.to_nat i0) then G (Z.of_nat i) else 0%Q)).
      * rewrite sum_range_single, decide_True by lia. rewrite Z2Nat.id by lia. reflexivity.
      * intros i Hi. case_decide; case_decide; [reflexivity| |nia|reflexivity]; exfalso; nia.
    + rewrite HG by lia. symmetry. apply sum_range_zero. intros i Hi.
      rewrite decide_False; [reflexivity|]. intros Heq. apply Hout. nia.
  - cbn [opt0]. symmetry. apply sum_range_zero. intros i Hi.
    rewrite decide_False; [reflexivity|]. intros Heq.
    assert (deconv_src p pad d s = Some (Z.of_nat i)) as E'; [|congruence].
    apply deconv_src_spec; [done|]. lia.
Qed.

(** Reindexing: the outputs [p] of a transposed convolution that read
    input [i] through tap [d] are the single [p = i * s + d - pad]. *)
Lemma sum_src H h s pad d (Φ : nat → Z → Q) :
  0 < s → (∀ p i, (i < 0 ∨ Z.of_nat h ≤ i)%Z → Φ p i == 0)%Q →
  (sum_range H (λ p, opt0 (Φ p) (deconv_src p pad d s)) ==
    sum_range h (λ i, if decide (pad ≤ i * s + d ∧ i * s + d - pad < H)%nat
                      then Φ (i * s + d - pad)%nat (Z.of_nat i) else 0))%Q.
Proof.
  intros Hs HΦ.
  rewrite (sum_range_ext H _ (λ p, sum_range h (λ i,
             if decide (p + pad = i * s + d) then Φ p (Z.of_nat i) else 0%Q)))
    by (intros p _; apply opt0_src_sum; auto).
  rewrite sum_range_swap. apply sum_range_ext. intros i Hi. case_decide as Hc.
  - rewrite (sum_range_ext H _ (λ p, if decide (p = i * s + d - pad) then Φ p (Z.of_nat i) else 0%Q)).
    + rewrite sum_range_single, decide_True by lia. reflexivity.
    + intros p Hp. case_decide; case_decide; try reflexivity; lia.
  - apply sum_range_zero. intros p Hp. rewrite decide_False; [reflexivity|]. intros Heq. apply Hc. lia.
Qed.

(** ** Reading a sample *)

Lemma pixel_nat x H W C t pd t' pd' c :
  shape x = [H; W; C] →
  pixel x (Z.of_nat t - Z.of_nat pd) (Z.of_nat t' - Z.of_nat pd') c =
    if decide (pd ≤ t ∧ t - pd < H ∧ pd' ≤ t' ∧ t' - pd' < W)
    then nth (((t - pd) * W + (t' - pd')) * C + c) (data x) 0%Q else 0%Q.
Proof.
  intros Hs. unfold pixel. rewrite Hs. case_bool_decide as Hz; case_decide as Hn; try lia; [|done].
  do 2 f_equal. rewrite <- !Nat2Z.inj_sub by lia. rewrite <- !Nat2Z.inj_mul, <- Nat2Z.inj_add.
  rewrite <- Nat2Z.inj_mul. apply Nat2Z.id.
Qed.

Lemma pixel_in x h w F i j o :
  shape x = [h; w; F] → i < h → j < w →
  pixel x (Z.of_nat i) (Z.of_nat j) o = nth ((i * w + j) * F + o) (data x) 0%Q.
Proof.
  intros Hs Hi Hj. unfold pixel. rewrite Hs. rewrite bool_decide_eq_true_2 by lia.
  f_equal. rewrite <- Nat2Z.inj_mul, <- Nat2Z.inj_add, <- Nat2Z.inj_mul. by rewrite Nat2Z.id.
Qed.

Lemma pixel_out x h w F i j o :
  shape x = [h; w; F] → ¬ (0 ≤ i < Z.of_nat h ∧ 0 ≤ j < Z.of_nat w)%Z → pixel x i j o = 0%Q.
Proof. intros Hs Hn. unfold pixel. rewrite Hs. by rewrite bool_decide_eq_false_2. Qed.

(** [np.sum(t * b)] for a computed array [t]: a triple sum. *)
Lemma dot_tabulate3 h w c g (l : list Q) :
  (dot (tabulate3 h w c g) l ==
    sum_range h (λ i, sum_range w (λ j, sum_range c (λ o,
      g i j o * nth ((i * w + j) * c + o)%nat l 0))))%Q.
Proof.
  rewrite dot_nth, length_tabulate3, sum_range_3.
  apply sum_range_ext. intros i Hi. apply sum_range_ext. intros j Hj. apply sum_range_ext. intros o Ho.
  by rewrite nth_tabulate3.
Qed.


Lemma dot_tabulate3_r h w c g (l : list Q) :
  length l = size_of [h; w; c] →
  (dot l (tabulate3 h w c g) ==
    sum_range h (λ i, sum_range w (λ j, sum_range c (λ o,
      nth ((i * w + j) * c + o)%nat l 0 * g i j o))))%Q.
Proof.
  intros Hl. rewrite dot_nth, Hl, sum_range_3.
  apply sum_range_ext. intros i Hi. apply sum_range_ext. intros j Hj. apply sum_range_ext. intros o Ho.
  by rewrite nth_tabulate3.
Qed.

Lemma nth_nil_Q o : (nth o [] 0 == 0)%Q.
Proof. by destruct o. Qed.

(** A sum of reads through the same optional index. *)
Lemma sum_opt0 n (G : nat → Z → Q) a :
  (sum_range n (λ q, opt0 (G q) a) == opt0 (λ i, sum_range n (λ q, G q i)) a)%Q.
Proof. destruct a; [reflexivity|]. by apply sum_range_zero. Qed.

(** The two-dimensional gather, reindexed by the input position. *)
Lemma reindex2 (Xf : nat → nat → Q) (Yf : Z → Z → Q) H W h w s1 s2 ph pw dh dw :
  0 < s1 → 0 < s2 →
  (∀ i j, ¬ (0 ≤ i < Z.of_nat h ∧ 0 ≤ j < Z.of_nat w)%Z → Yf i j == 0)%Q →
  (sum_range H (λ p, sum_range W (λ q, Xf p q *
     match deconv_src p ph dh s1, deconv_src q pw dw s2 with
     | Some i, Some j => Yf i j
     | _, _ => 0
     end)) ==
   sum_range h (λ i, sum_range w (λ j,
     if decide (ph ≤ i * s1 + dh ∧ i * s1 + dh - ph < H)%nat then
       if decide (pw ≤ j * s2 + dw ∧ j * s2 + dw - pw < W)%nat
       then Xf (i * s1 + dh - ph)%nat (j * s2 + dw - pw)%nat * Yf (Z.of_nat i) (Z.of_nat j) else 0
     else 0)))%Q.
Proof.
  intros Hs1 Hs2 HY.
  transitivity (sum_range H (λ p, opt0 (λ i, sum_range W (λ q,
                  opt0 (λ j, Xf p q * Yf i j)%Q (deconv_src q pw dw s2))) (deconv_src p ph dh s1))).
  { apply sum_range_ext. intros p _. rewrite <- sum_opt0. apply sum_range_ext. intros q _.
    destruct (deconv_src p ph dh s1), (deconv_src q pw dw s2); simpl; ring. }
  rewrite sum_src; [|done|].
  - apply sum_range_ext. intros i Hi. case_decide; [|symmetry; apply sum_range_zero; intros; reflexivity].
    rewrite sum_src; [|done|].
    + apply sum_range_ext. intros j Hj. reflexivity.
    + intros q j Hj. rewrite HY by lia. ring.
  - intros p i Hi. apply sum_range_zero. intros q _.
    destruct (deconv_src q pw dw s2); simpl; [|reflexivity]. rewrite HY by lia. ring.
Qed.

(** The output lengths and paddings of a "same" convolution from
    [n * s] to [n]. *)
Lemma conv_out_mul n s k : 0 < s → conv_out (n * s) k s Same = Ok n.
Proof.
  intros Hs. cbn [conv_out]. f_equal. replace (n * s + s - 1) with (n * s + (s - 1)) by lia.
  rewrite Nat.div_add_l by lia. rewrite Nat.div_small by lia. lia.
Qed.

Lemma pad_before_mul n s k : 0 < n → pad_before (n * s) k s n Same = (k - s) / 2.
Proof.
  intros Hn. cbn [pad_before]. f_equal. destruct n as [|n]; [lia|].
  replace (S n - 1) with n by lia. rewrite Nat.mul_succ_l. lia.
Qed.

Section Adjoint.
Context `{SigmoidFn}.
Variables (x y : ndarray Q) (K : list Q) (h w C F k1 k2 s1 s2 : nat).
Hypotheses (Hx : wf x) (Hxs : shape x = [h * s1; w * s2; C]) (Hys : shape y = [h; w; F])
  (Hs1 : 0 < s1) (Hs2 : 0 < s2).

(** [<conv(x), y>] as a sum over taps, channels and output positions. *)
Lemma conv_side ph pw :
  (dot (tabulate3 h w F (conv2d_at x C F (k1, k2) (s1, s2) Linear (mk_conv_weights K []) ph pw))
       (data y) ==
   sum_range k1 (λ dh, sum_range k2 (λ dw, sum_range C (λ c, sum_range F (λ o,
     sum_range h (λ i, sum_range w (λ j,
       pixel x (Z.of_nat (i * s1 + dh) - Z.of_nat ph) (Z.of_nat (j * s2 + dw) - Z.of_nat pw) c *
       kernel_at K k2 C F dh dw c o * nth ((i * w + j) * F + o) (data y) 0%Q)))))))%Q.
Proof.
  rewrite dot_tabulate3. unfold conv2d_at, apply_activation. cbn [fst snd bias kernel].
  setoid_rewrite nth_nil_Q. setoid_rewrite Qplus_0_l.
  repeat setoid_rewrite sum_range_mult_r.
  setoid_rewrite (sum_range_swap w F). setoid_rewrite (sum_range_swap w k1).
  setoid_rewrite (sum_range_swap w k2). setoid_rewrite (sum_range_swap w C).
  setoid_rewrite (sum_range_swap h F). setoid_rewrite (sum_range_swap h k1).
  setoid_rewrite (sum_range_swap h k2). setoid_rewrite (sum_range_swap h C).
  setoid_rewrite (sum_range_swap F k1). setoid_rewrite (sum_range_swap F k2).
  setoid_rewrite (sum_range_swap F C). reflexivity.
Qed.

(** [<x, conv_transpose(y)>] as a sum over the same indices, the gather
    reindexed by the input position. *)
Lemma deconv_side ph pw :
  (dot (data x) (tabulate3 (h * s1) (w * s2) C
         (deconv2d_at y F C (k1, k2) (s1, s2) Linear (mk_conv_weights K []) ph pw)) ==
   sum_range k1 (λ dh, sum_range k2 (λ dw, sum_range C (λ c, sum_range F (λ o,
     sum_range h (λ i, sum_range w (λ j,
       if decide (ph ≤ i * s1 + dh ∧ i * s1 + dh - ph < h * s1)%nat then
         if decide (pw ≤ j * s2 + dw ∧ j * s2 + dw - pw < w * s2)%nat
         then nth (((i * s1 + dh - ph) * (w * s2) + (j * s2 + dw - pw)) * C + c)%nat (data x) 0 *
              (pixel y (Z.of_nat i) (Z.of_nat j) o * kernel_at K k2 C F dh dw c o)
         else 0
       else 0)))))))%Q.
Proof.
  rewrite dot_tabulate3_r by (rewrite Hx, Hxs; reflexivity).
  unfold deconv2d_at, apply_activation. cbn [fst snd bias kernel].
  setoid_rewrite nth_nil_Q. setoid_rewrite Qplus_0_l.
  repeat setoid_rewrite sum_range_mult_l.
  setoid_rewrite (sum_range_swap (w * s2) C). setoid_rewrite (sum_range_swap (w * s2) k1).
  setoid_rewrite (sum_range_swap (w * s2) k2). setoid_rewrite (sum_range_swap (w * s2) F).
  setoid_rewrite (sum_range_swap (h * s1) C). setoid_rewrite (sum_range_swap (h * s1) k1).
  setoid_rewrite (sum_range_swap (h * s1) k2). setoid_rewrite (sum_range_swap (h * s1) F).
  setoid_rewrite (sum_range_swap C k1). setoid_rewrite (sum_range_swap C k2).
  do 4 (apply sum_range_ext; intros ? _).
  etransitivity; [apply reindex2; [done|done|]|reflexivity].
  intros zi zj Hij. rewrite (pixel_out y h w F) by done. ring.
Qed.

(** C18: [Conv2DTranspose] (lines 51-53) is the transpose of [Conv2D]
    (lines 45-47) with the same kernel, as TensorFlow defines it: for
    "same" padding, strides [(s1, s2)], a linear activation and no bias,
    both layers run on [x] of shape [(h * s1, w * s2, c)] and [y] of shape
    [(h, w, f)], and [np.sum(conv(x) * y) = np.sum(x * conv_transpose(y))]. *)
Theorem conv2d_transpose_adjoint :
  0 < k1 → 0 < k2 →
  ∃ cx ty,
    layer_forward (Conv2D F (k1, k2) Linear Same (s1, s2)) (mk_conv_weights K []) x = Ok cx ∧
    layer_forward (Conv2DTranspose C (k1, k2) Linear Same (s1, s2)) (mk_conv_weights K []) y = Ok ty ∧
    (dot (data cx) (data y) == dot (data x) (data ty))%Q.
Proof.
  intros Hk1 Hk2. unfold layer_forward. rewrite Hxs, Hys. unfold check_window. cbn [fst snd].
  rewrite bool_decide_eq_true_2 by lia. rewrite !check_true, !bind_Ok, !conv_out_mul, !bind_Ok by done.
  eexists _, _. split; [reflexivity|]. split; [reflexivity|]. cbn [data].
  destruct (decide (h = 0 ∨ w = 0)) as [Hz|Hnz].
  - rewrite !dot_nth, length_tabulate3, Hx, Hxs.
    assert (size_of [h; w; F] = 0 ∧ size_of [h * s1; w * s2; C] = 0) as [-> ->]
      by (rewrite !size_of_cons; destruct Hz as [-> | ->]; lia).
    reflexivity.
  - rewrite !pad_before_mul by lia. cbn [deconv_pad]. rewrite conv_side, deconv_side.
    apply sum_range_ext; intros dh Hdh. apply sum_range_ext; intros dw Hdw.
    apply sum_range_ext; intros c Hc. apply sum_range_ext; intros o Ho.
    apply sum_range_ext; intros i Hi. apply sum_range_ext; intros j Hj.
    rewrite (pixel_nat x (h * s1) (w * s2) C), (pixel_in y h w F) by done.
    repeat case_decide; first [ring | exfalso; lia].
Qed.

End Adjoint.

(** ** Witnesses *)

Lemma conv2d_transpose_adjoint_witness :
  ∃ cx ty,
    layer_forward (Conv2D 1 (3, 3) Linear Same (2, 2)) (mk_conv_weights (map inject_Z (seqZ 1 9)) []) tiny_sample = Ok cx ∧
    layer_forward (Conv2DTranspose 1 (3, 3) Linear Same (2, 2)) (mk_conv_weights (map inject_Z (seqZ 1 9)) [])
      (mk_ndarray [1; 1; 1] [5%Q]) = Ok ty ∧
    (dot (data cx) [5%Q] == dot (data tiny_sample) (data ty))%Q.
Proof.
  apply (conv2d_transpose_adjoint tiny_sample (mk_ndarray [1; 1; 1] [5%Q]) _ 1 1 1 1 3 3 2 2).
  all: first [reflexivity | lia].
Defined.

End Transpose.
