(* ===== verification/Persistence.v ===== *)
(** * [save_model] and [load_model] (src lines 80-85)

    The state is the session: the model's current weights and the files
    written so far (path to the weights they hold).  The weights are of
    any type [W]: what is saved is what is loaded back, whatever the
    layers hold.  [save_model] calls [autoencoder.save_weights] and
    [load_model] calls [autoencoder.load_weights], both on the path
    ["autoencoder_weights.h5"].  The two Keras major versions differ on
    the name [save_weights] accepts: Keras 2 ([tf.keras] up to TensorFlow
    2.15) writes HDF5 for a ".h5" name and a TensorFlow checkpoint
    otherwise; Keras 3 (TensorFlow 2.16 on) raises [ValueError] unless the
    name ends in ".weights.h5".  [load_weights] of both versions reads a
    ".h5" file, and raises when the file does not exist. *)

From S2P Require Import Prelude.
From stdpp Require Import gmap.

Module Persistence.
Local Open Scope string_scope.

Inductive keras_version := Keras2 | Keras3.

#[export] Instance keras_version_eq_dec : EqDecision keras_version.
Proof. solve_decision. Defined.

Section WithWeights.
Context {W : Type}.

Record session := mk_session {
  weights : W;
  disk : gmap string W
}.

(** The name lines 81 and 85 use. *)
Definition weights_file : string := "autoencoder_weights.h5".

(** [model.save_weights(path)] *)
Definition save_weights (v : keras_version) (path : string) (s : session) : result session :=
  match v with
  | Keras3 =>
      if ends_with ".weights.h5" path
      then Ok (mk_session (weights s) (<[path := weights s]> (disk s)))
      else Err ValueError
  | Keras2 => Ok (mk_session (weights s) (<[path := weights s]> (disk s)))
  end.

(** The names Keras 3's [load_weights] accepts. *)
Definition keras3_loadable (path : string) : bool :=
  ends_with ".keras" path || ends_with ".weights.h5" path ||
  ends_with ".h5" path || ends_with ".hdf5" path.

(** [model.load_weights(path)] *)
Definition load_weights (v : keras_version) (path : string) (s : session) : result session :=
  if (bool_decide (v = Keras3) && negb (keras3_loadable path))%bool then Err ValueError
  else match disk s !! path with
       | Some w => Ok (mk_session w (disk s))
       | None => Err FileNotFoundError
       end.

(** [save_model()] (line 80) and [load_model()] (line 84) *)
Definition save_model (v : keras_version) (s : session) : result session :=
  save_weights v weights_file s.

Definition load_model (v : keras_version) (s : session) : result session :=
  load_weights v weights_file s.

(** What [fit] does to the session, seen from here: new weights. *)
Definition set_weights (w : W) (s : session) : session := mk_session w (disk s).

End WithWeights.

(** ** Properties *)

Lemma weights_file_not_keras3 : ends_with ".weights.h5" weights_file = false.
Proof. reflexivity. Qed.

Lemma weights_file_loadable : keras3_loadable weights_file = true.
Proof. reflexivity. Qed.

Section Props.
Context {W : Type}.

(** Saving writes the current weights to the file and changes nothing
    else. *)
Lemma save_model_Ok v (s s1 : session (W := W)) :
  save_model v s = Ok s1 → v = Keras2 ∧ s1 = mk_session (weights s) (<[weights_file := weights s]> (disk s)).
Proof.
  unfold save_model, save_weights. destruct v.
  - intros [= <-]. done.
  - by rewrite weights_file_not_keras3.
Qed.

(** C20: what [save_model] wrote, [load_model] restores: after a
    successful save, whatever weights the model has then (further
    training, a fresh model), loading gives back the saved weights and
    leaves the files as they are. *)
Theorem save_load_roundtrip v (s s1 : session (W := W)) (w' : W) :
  save_model v s = Ok s1 →
  load_model v (set_weights w' s1) = Ok (mk_session (weights s) (disk s1)).
Proof.
  intros (-> & ->)%save_model_Ok. unfold load_model, load_weights, set_weights. simpl.
  by rewrite lookup_insert_eq.
Qed.

(** C28: [load_model] before any [save_model] (no file of that name)
    raises [FileNotFoundError], with either Keras version. *)
Theorem load_model_missing v (s : session (W := W)) :
  disk s !! weights_file = None → load_model v s = Err FileNotFoundError.
Proof.
  intros Hd. unfold load_model, load_weights. rewrite weights_file_loadable, Hd.
  by destruct v.
Qed.

End Props.

(** ** Witnesses *)

Lemma save_load_roundtrip_witness :
  load_model Keras2 (set_weights 7%nat (mk_session 5%nat (<[weights_file := 5%nat]> ∅))) =
    Ok (mk_session 5%nat (<[weights_file := 5%nat]> ∅)).
Proof. apply (save_load_roundtrip Keras2 (mk_session 5%nat ∅)). reflexivity. Defined.

Lemma load_model_missing_witness :
  load_model Keras2 (mk_session 5%nat ∅) = Err FileNotFoundError.
Proof. apply load_model_missing. reflexivity. Defined.

End Persistence.
