(* ===== verification/Training.v ===== *)
(** * [train_network] (src lines 60-61)

    [train_network(train_data, epochs, batch_size)] calls
    [autoencoder.fit(train_data, train_data, epochs=epochs,
    batch_size=batch_size, shuffle=True)].  [fit] checks its inputs, then
    for each epoch draws a permutation of the sample indices, cuts it into
    consecutive batches of [batch_size] (the last one shorter), and runs
    one optimiser step per batch: the compiled [train_step] (forward pass,
    the mean squared error of line 57, gradients, Adam's update).  The
    step is a section variable here ([adam_step]: new weights and
    optimiser state from the old ones, the iteration count and the batch
    of inputs and targets), so that the theorems hold for any optimiser;
    [Adam.v] defines the step of [Adam()] to put in its place.  The
    permutation is the class
    [Shuffler], whose law is that it is a permutation.  The state is the
    weights, the optimiser state and Keras' [iterations] counter.  Keras'
    input errors are Python [ValueError]s: [KerasShapeError] marks the one
    for a shape the model rejects. *)

From S2P Require Import Prelude NdArray Layers Model Evaluate.
From Stdlib Require Import QArith.

Module Training.
Local Open Scope nat_scope.
Import NdArray Layers Model Evaluate.

(** The permutation [fit(shuffle=True)] draws at the start of epoch [e]. *)
Class Shuffler := {
  shuffle : nat → list nat → list nat;
  shuffle_perm : ∀ e l, shuffle e l ≡ₚ l
}.

(** [shuffle=False], used by the witnesses. *)
#[export] Instance no_shuffle : Shuffler :=
  {| shuffle := λ _ l, l; shuffle_perm := λ _ l, Permutation_refl l |}.

(** Number of batches of an epoch: [ceil(n / batch_size)]. *)
Definition num_batches (n batch_size : nat) : nat := (n + batch_size - 1) / batch_size.

(** The batches of an epoch: consecutive slices of [batch_size]. *)
Definition batches {A} (batch_size : nat) (l : list A) : list (list A) :=
  chunks batch_size (num_batches (length l) batch_size) l.

Record train_state {W O : Type} := mk_train_state {
  tr_weights : W;
  tr_opt : O;
  iterations : nat
}.
Arguments train_state : clear implicits.

Definition empty_sample : ndarray Q := mk_ndarray [] [].

(** [x[batch_indices]]: the samples at the given indices. *)
Definition pick (xs : list (ndarray Q)) (idx : list nat) : list (ndarray Q) :=
  map (λ i, nth i xs empty_sample) idx.

Section WithOptimizer.
Context {W O : Type} {SH : Shuffler}.
Context (adam_step : W → O → nat → list (ndarray Q) → list (ndarray Q) → W * O).

(** One compiled [train_step] on a batch of inputs and targets. *)
Definition train_step (s : train_state W O) (bx by_ : list (ndarray Q)) : train_state W O :=
  let '(w', o') := adam_step (tr_weights s) (tr_opt s) (iterations s) bx by_ in
  mk_train_state W O w' o' (S (iterations s)).

(** Epoch [e]: shuffle the indices, one step per batch. *)
Definition run_epoch (xs ys : list (ndarray Q)) (batch_size : nat)
    (s : train_state W O) (e : nat) : train_state W O :=
  fold_left (λ s idx, train_step s (pick xs idx) (pick ys idx))
            (batches batch_size (shuffle e (seq 0 (length xs)))) s.

(** [model.fit(x, y, epochs, batch_size, shuffle=True)]: as many inputs as
    targets, inputs of the model's input shape and targets of its output
    shape (both [(128, 128, 3)], C3), at least one sample, a positive
    [batch_size] (Keras computes [ceil(n / batch_size)]), then the epochs
    in order. *)
Definition fit (x y : ndarray Q) (epochs batch_size : nat) (s : train_state W O)
    : result (train_state W O) :=
  xs ← rows x;
  ys ← rows y;
  check (bool_decide (length xs = length ys)) ValueError;;
  check (bool_decide (shape x = length xs :: input_shape ∧
                      shape y = length ys :: input_shape)) KerasShapeError;;
  check (bool_decide (0 < length xs)) ValueError;;
  check (bool_decide (0 < batch_size)) ZeroDivisionError;;
  Ok (fold_left (run_epoch xs ys batch_size) (seq 0 epochs) s).

(** [train_network(train_data, epochs, batch_size)] (lines 60-61). *)
Definition train_network (train_data : ndarray Q) (epochs batch_size : nat)
    (s : train_state W O) : result (train_state W O) :=
  fit train_data train_data epochs batch_size s.

End WithOptimizer.

(** The optimiser of a model without weights (used by the witnesses). *)
Definition unit_step : unit → unit → nat → list (ndarray Q) → list (ndarray Q) → unit * unit :=
  λ _ _ _ _ _, (tt, tt).

(** ** Batches *)

Lemma length_batches {A} bs (l : list A) : length (batches bs l) = num_batches (length l) bs.
Proof. apply length_chunks. Qed.

Section Props.
Context {W O : Type} {SH : Shuffler}.
Context (adam_step : W → O → nat → list (ndarray Q) → list (ndarray Q) → W * O).

(** Each step adds one to [iterations]. *)
Lemma fold_train_step_iterations (xs ys : list (ndarray Q)) (L : list (list nat)) s :
  iterations (fold_left (λ s idx, train_step adam_step s (pick xs idx) (pick ys idx)) L s) =
    iterations s + length L.
Proof.
  revert s. induction L as [|idx L IH]; intros s; simpl; [lia|].
  rewrite IH. unfold train_step. destruct (adam_step _ _ _ _ _). simpl. lia.
Qed.

Lemma run_epoch_iterations xs ys bs s e :
  iterations (run_epoch adam_step xs ys bs s e) = iterations s + num_batches (length xs) bs.
Proof.
  unfold run_epoch. rewrite fold_train_step_iterations, length_batches.
  by rewrite (Permutation_length (shuffle_perm e _)), length_seq.
Qed.

Lemma fold_epochs_iterations xs ys bs s es :
  iterations (fold_left (run_epoch adam_step xs ys bs) es s) =
    iterations s + length es * num_batches (length xs) bs.
Proof.
  revert s. induction es as [|e es IH]; intros s; simpl; [lia|].
  rewrite IH, run_epoch_iterations. lia.
Qed.

(** On [n > 0] well-formed samples of the input shape, [train_network]
    runs every epoch over the samples. *)
Lemma train_network_Ok (x : ndarray Q) n epochs bs (s : train_state W O) :
  wf x → shape x = n :: input_shape → 0 < n → 0 < bs →
  ∃ xs, rows x = Ok xs ∧ length xs = n ∧
        train_network adam_step x epochs bs s =
          Ok (fold_left (run_epoch adam_step xs xs bs) (seq 0 epochs) s).
Proof.
  intros Hwf Hs Hn Hbs. destruct (rows_Ok_wf x n input_shape Hwf Hs) as (xs & Hr & <- & _).
  exists xs. split; [done|]. split; [done|].
  unfold train_network, fit. rewrite Hr, !bind_Ok.
  rewrite !bool_decide_eq_true_2 by done. reflexivity.
Qed.

(** A property of the weights and the optimiser state that every
    optimiser step keeps holds after [train_network]. *)
Lemma train_network_preserves (P : W → O → Prop) (x : ndarray Q) n epochs bs (s : train_state W O) :
  (∀ w o it bx by_, P w o → P (adam_step w o it bx by_).1 (adam_step w o it bx by_).2) →
  wf x → shape x = n :: input_shape → 0 < n → 0 < bs → P (tr_weights s) (tr_opt s) →
  ∃ s', train_network adam_step x epochs bs s = Ok s' ∧ P (tr_weights s') (tr_opt s').
Proof.
  intros Hstep Hwf Hs Hn Hbs HP.
  destruct (train_network_Ok x n epochs bs s Hwf Hs Hn Hbs) as (xs & _ & _ & ->).
  eexists. split; [done|].
  apply (fold_left_invariant (λ s, P (tr_weights s) (tr_opt s))); [|done].
  intros s1 e Hs1. apply (fold_left_invariant (λ s, P (tr_weights s) (tr_opt s))); [|done].
  intros s2 idx Hs2. unfold train_step.
  specialize (Hstep _ _ (iterations s2) (pick xs idx) (pick xs idx) Hs2).
  destruct (adam_step _ _ _ _ _). exact Hstep.
Qed.

(** C9: [train_network] on [n > 0] well-formed samples of shape
    [(128, 128, 3)] runs to the end, and Adam takes
    [epochs * ceil(n / batch_size)] steps: [50 * ceil(n / 16)] for the
    call of line 108. *)
Theorem train_network_iterations (x : ndarray Q) n epochs bs (s : train_state W O) :
  wf x → shape x = n :: input_shape → 0 < n → 0 < bs →
  ∃ s', train_network adam_step x epochs bs s = Ok s' ∧
        iterations s' = iterations s + epochs * num_batches n bs.
Proof.
  intros Hwf Hs Hn Hbs.
  destruct (train_network_Ok x n epochs bs s Hwf Hs Hn Hbs) as (xs & _ & <- & ->).
  eexists. split; [done|]. by rewrite fold_epochs_iterations, length_seq.
Qed.

(** C27: an empty training set (no sample) makes [fit] raise
    [ValueError] before any step. *)
Theorem train_network_empty (x : ndarray Q) epochs bs (s : train_state W O) :
  shape x = 0 :: input_shape → train_network adam_step x epochs bs s = Err ValueError.
Proof. intros Hs. unfold train_network, fit, rows. rewrite Hs. reflexivity. Qed.

(** C21: [train_network] trains the network to reproduce its input:
    running it with any optimiser step is running it with a step that
    ignores the target and uses the input batch in its place, because
    [fit(train_data, train_data)] gives every step the same batch as
    input and target. *)
Theorem train_network_reconstruction (x : ndarray Q) epochs bs (s : train_state W O) :
  train_network adam_step x epochs bs s =
    train_network (λ w o t bx _, adam_step w o t bx bx) x epochs bs s.
Proof. unfold train_network, fit. destruct (rows x); reflexivity. Qed.

End Props.

(** ** Witnesses *)

Lemma train_network_iterations_witness :
  ∃ s', train_network (SH := no_shuffle) unit_step grey_batch 50 16 (mk_train_state _ _ tt tt 0) = Ok s' ∧
        iterations s' = 0 + 50 * num_batches 1 16.
Proof.
  apply (train_network_iterations (SH := no_shuffle) unit_step grey_batch 1 50 16).
  - apply grey_batch_wf.
  - reflexivity.
  - lia.
  - lia.
Defined.

Lemma train_network_empty_witness :
  train_network (SH := no_shuffle) unit_step (mk_ndarray (0 :: input_shape) []) 50 16
    (mk_train_state _ _ tt tt 0) = Err ValueError.
Proof. apply train_network_empty. reflexivity. Defined.

End Training.
