(* ===== verification/Adam.v ===== *)
(** * Keras' [Adam()] optimiser (src line 57)

    [autoencoder.compile(optimizer=Adam(), ...)] gives [fit] (Training.v)
    its optimiser step.  Each step computes the gradient of the loss with
    respect to the trainable variables and calls [apply_gradients], which
    creates the slot variables at the first call ([build]: a momentum and
    a velocity of zeros per variable) and then runs [Adam.update_step] on
    every variable:

      [alpha = lr * sqrt(1 - beta_2 ** t) / (1 - beta_1 ** t)] with
      [t = iterations + 1],
      [m += (g - m) * (1 - beta_1)], [v += (g * g - v) * (1 - beta_2)],
      [var -= m * alpha / (sqrt(v) + epsilon)],

    with the defaults [lr = 0.001], [beta_1 = 0.9], [beta_2 = 0.999] and
    [epsilon = 1e-7] of [Adam()].  The trainable variables are the
    kernel and the bias of each convolution (Forward.v's [conv_weights]);
    the slots are grouped the same way.  The gradient (automatic
    differentiation of the loss) is the class [Gradient], whose law is
    that it has the variables' shapes; [tf.sqrt] is the class [SqrtFn],
    whose laws are that it is non-negative and positive on positive
    values.  The theorems show that every step moves each scalar weight
    against its updated momentum (on the first step, against its
    gradient), and that training keeps the weights' shapes and the
    slots' invariant (the slots have the shapes of the weights, the
    velocities are non-negative). *)

From S2P Require Import Prelude NdArray Layers Model Evaluate Forward Training.
From Stdlib Require Import QArith Lqa.

Module Adam.
Import NdArray Layers Model Evaluate Forward Training.
Local Open Scope Q_scope.

(** [tf.sqrt] on the values Adam applies it to. *)
Class SqrtFn := {
  qsqrt : Q → Q;
  qsqrt_nonneg : ∀ x, 0 <= qsqrt x;
  qsqrt_pos : ∀ x, 0 < x → 0 < qsqrt x
}.

(** The hyper-parameters of [Adam]. *)
Record adam_params := mk_adam_params {
  learning_rate : Q;
  beta_1 : Q;
  beta_2 : Q;
  epsilon : Q
}.

(** [Adam()]: the defaults of line 57. *)
Definition keras_adam : adam_params :=
  mk_adam_params (1 # 1000) (9 # 10) (999 # 1000) (1 # 10000000).

(** The slot variables of [Adam]: one momentum and one velocity for each
    trainable variable, grouped by layer like the weights. *)
Record adam_slots := mk_slots {
  momentums : list conv_weights;
  velocities : list conv_weights
}.

(** [tf.zeros_like] on a layer's variables. *)
Definition zeros_like (w : conv_weights) : conv_weights :=
  mk_conv_weights (replicate (length (kernel w)) 0) (replicate (length (bias w)) 0).

(** [Adam.build(var_list)], run by the first [apply_gradients]. *)
Definition build (ws : list conv_weights) : adam_slots :=
  mk_slots (map zeros_like ws) (map zeros_like ws).

(** [beta ** local_step] *)
Fixpoint pow_nat (b : Q) (n : nat) : Q :=
  match n with
  | O => 1
  | S n' => b * pow_nat b n'
  end.

(** The gradient of the loss on a batch with respect to the trainable
    variables ([tape.gradient(loss, trainable_variables)]). *)
Definition same_shape (a b : conv_weights) : Prop :=
  length (kernel a) = length (kernel b) ∧ length (bias a) = length (bias b).

Class Gradient := {
  gradient : list conv_weights → list (ndarray Q) → list (ndarray Q) → list conv_weights;
  gradient_shape : ∀ ws bx by_, Forall2 same_shape (gradient ws bx by_) ws
}.

Section Optimizer.
Context `{SqrtFn} (p : adam_params).

(** [Adam.update_step]: the step size of step [iterations + 1]. *)
Definition alpha (iterations : nat) : Q :=
  let t := S iterations in
  learning_rate p * qsqrt (1 - pow_nat (beta_2 p) t) / (1 - pow_nat (beta_1 p) t).

(** [m.assign_add((gradient - m) * (1 - beta_1))] *)
Definition update_m (g m : Q) : Q := m + (g - m) * (1 - beta_1 p).

(** [v.assign_add((square(gradient) - v) * (1 - beta_2))] *)
Definition update_v (g v : Q) : Q := v + (g * g - v) * (1 - beta_2 p).

(** [variable.assign_sub(m * alpha / (sqrt(v) + epsilon))] *)
Definition update_w (a x m v : Q) : Q := x - m * a / (qsqrt v + epsilon p).

(** [update_step] on one variable: new value, momentum and velocity. *)
Definition update_var (a : Q) (w g m v : list Q) : list Q * list Q * list Q :=
  let m' := zip_with update_m g m in
  let v' := zip_with update_v g v in
  (zip_with (λ x mv, update_w a x mv.1 mv.2) w (zip m' v'), m', v').

(** [update_step] on the kernel and the bias of one layer. *)
Definition update_layer (a : Q) (w g m v : conv_weights)
    : conv_weights * conv_weights * conv_weights :=
  let '(k, mk, vk) := update_var a (kernel w) (kernel g) (kernel m) (kernel v) in
  let '(b, mb, vb) := update_var a (bias w) (bias g) (bias m) (bias v) in
  (mk_conv_weights k b, mk_conv_weights mk mb, mk_conv_weights vk vb).

(** The loop of [apply_gradients] over [zip(grads, trainable_variables)]. *)
Fixpoint apply_gradients (a : Q) (ws gs ms vs : list conv_weights)
    : list (conv_weights * conv_weights * conv_weights) :=
  match ws, gs, ms, vs with
  | w :: ws', g :: gs', m :: ms', v :: vs' =>
      update_layer a w g m v :: apply_gradients a ws' gs' ms' vs'
  | _, _, _, _ => []
  end.

(** One optimiser step of [fit] with [Adam]: the gradient, the slots
    (built at the first step), [update_step] on every variable.  Its
    type is the [adam_step] parameter of Training.v. *)
Definition adam_step `{Gradient} (ws : list conv_weights) (o : option adam_slots)
    (iterations : nat) (bx by_ : list (ndarray Q)) : list conv_weights * option adam_slots :=
  let s := default (build ws) o in
  let r := apply_gradients (alpha iterations) ws (gradient ws bx by_) (momentums s) (velocities s) in
  (map (λ t, t.1.1) r, Some (mk_slots (map (λ t, t.1.2) r) (map snd r))).

End Optimizer.

(** ** The invariant of the optimiser state *)

(** The values of the trainable variables in Keras' order: kernel, then
    bias, layer after layer. *)
Definition flatten_vars (ws : list conv_weights) : list Q :=
  flat_map (λ c, kernel c ++ bias c) ws.

Definition nonneg_layer (c : conv_weights) : Prop :=
  Forall (Qle 0) (kernel c) ∧ Forall (Qle 0) (bias c).

(** Slots that fit the weights: a momentum and a velocity of each
    variable's shape, the velocities non-negative. *)
Definition slots_wf (ws : list conv_weights) (s : adam_slots) : Prop :=
  Forall2 same_shape (momentums s) ws ∧ Forall2 same_shape (velocities s) ws ∧
  Forall nonneg_layer (velocities s).

(** Before the first step the slots do not exist yet. *)
Definition adam_wf (ws : list conv_weights) (o : option adam_slots) : Prop :=
  match o with None => True | Some s => slots_wf ws s end.

(** A scalar weight [x] becomes [x'] against the momentum [m]. *)
Definition moves_against (x m x' : Q) : Prop :=
  (0 < m → x' < x) ∧ (m < 0 → x < x') ∧ (m == 0 → x' == x).

(** ** Instances (used by the witnesses) *)

(** [tf.sqrt] to 24 fractional bits, rounded down: [floor(sqrt(x) * 2^24) / 2^24]. *)
Definition isqrt_q (x : Q) : Q :=
  if Qle_bool x 0 then 0
  else Z.sqrt (Qnum x * Zpos (Qden x) * 2 ^ 48) # (Qden x * 2 ^ 24).

Lemma isqrt_q_nonneg x : 0 <= isqrt_q x.
Proof.
  unfold isqrt_q. destruct (Qle_bool x 0); [apply Qle_refl|].
  unfold Qle; cbn. pose proof (Z.sqrt_nonneg (Qnum x * Zpos (Qden x) * 2 ^ 48)). lia.
Qed.

Lemma isqrt_q_pos x : 0 < x → 0 < isqrt_q x.
Proof.
  destruct x as [a d]. intros Hx. unfold isqrt_q. unfold Qlt in Hx; cbn in Hx.
  destruct (Qle_bool (a # d) 0) eqn:E.
  - apply Qle_bool_iff in E. unfold Qle in E; cbn in E. lia.
  - unfold Qlt; cbn. rewrite Z.mul_1_r.
    apply Z.sqrt_pos. apply Z.mul_pos_pos; [nia|]. apply Z.pow_pos_nonneg; lia.
Qed.

#[export] Instance isqrt_fn : SqrtFn :=
  {| qsqrt := isqrt_q; qsqrt_nonneg := isqrt_q_nonneg; qsqrt_pos := isqrt_q_pos |}.

(** The gradient of a constant loss: zeros of the variables' shapes. *)
Lemma zeros_like_shape ws : Forall2 same_shape (map zeros_like ws) ws.
Proof.
  induction ws as [|w ws IH]; constructor; [|done].
  split; cbn; apply length_replicate.
Qed.

#[export] Instance zero_gradient : Gradient :=
  {| gradient := λ ws _ _, map zeros_like ws; gradient_shape := λ ws _ _, zeros_like_shape ws |}.

(** ** Lemmas *)

#[export] Instance same_shape_equiv : Equivalence same_shape.
Proof.
  split; unfold same_shape; [done|intros ?? []; done|intros ??? [] []; split; congruence].
Qed.

Lemma zeros_like_nonneg w : nonneg_layer (zeros_like w).
Proof. split; apply Forall_replicate, Qle_refl. Qed.

Lemma build_wf ws : slots_wf ws (build ws).
Proof.
  split; [apply zeros_like_shape|]. split; [apply zeros_like_shape|].
  apply Forall_map, Forall_forall. intros w _. apply zeros_like_nonneg.
Qed.

Lemma slots_of_wf ws o : adam_wf ws o → slots_wf ws (default (build ws) o).
Proof. destruct o; [done|]. intros _. apply build_wf. Qed.

Lemma pow_nat_lt_1 b n : 0 <= b → b < 1 → 0 <= pow_nat b (S n) ∧ pow_nat b (S n) < 1.
Proof.
  intros H0 H1. induction n as [|n [IH0 IH1]]; cbn -[Qmult] in *; [split; lra|].
  split; nra.
Qed.

Section Params.
Context `{SqrtFn} (p : adam_params).
Hypothesis Hlr : 0 < learning_rate p.
Hypothesis Hb1 : 0 <= beta_1 p ∧ beta_1 p < 1.
Hypothesis Hb2 : 0 <= beta_2 p ∧ beta_2 p < 1.
Hypothesis Heps : 0 < epsilon p.

Lemma alpha_pos it : 0 < alpha p it.
Proof.
  unfold alpha. destruct (pow_nat_lt_1 (beta_1 p) it) as [_ B1]; [apply Hb1..|].
  destruct (pow_nat_lt_1 (beta_2 p) it) as [_ B2]; [apply Hb2..|].
  pose proof (qsqrt_pos (1 - pow_nat (beta_2 p) (S it)) ltac:(lra)).
  apply Qlt_shift_div_l; [lra|]. nra.
Qed.

Lemma update_w_moves a x m v : 0 < a → moves_against x m (update_w p a x m v).
Proof.
  intros Ha. unfold update_w, moves_against.
  pose proof (qsqrt_nonneg v). set (d := qsqrt v + epsilon p).
  assert (0 < / d) by (apply Qinv_lt_0_compat; unfold d; lra).
  unfold Qdiv. set (k := / d) in *. split; [|split]; intros Hm.
  - assert (0 < m * a) by nra. assert (0 < m * a * k) by nra. lra.
  - assert (0 < - m * a) by nra. assert (0 < - m * a * k) by nra. lra.
  - rewrite Hm. ring.
Qed.

Lemma update_v_nonneg g v : 0 <= v → 0 <= update_v p g v.
Proof. intros Hv. unfold update_v. destruct Hb2. nra. Qed.

Lemma update_var_cons a x w g0 g m0 m v0 v :
  update_var p a (x :: w) (g0 :: g) (m0 :: m) (v0 :: v) =
    (update_w p a x (update_m p g0 m0) (update_v p g0 v0) :: (update_var p a w g m v).1.1,
     update_m p g0 m0 :: (update_var p a w g m v).1.2,
     update_v p g0 v0 :: (update_var p a w g m v).2).
Proof. reflexivity. Qed.

(** [update_step] on one variable whose gradient and slots have its
    length: the new value, momentum and velocity have that length, every
    scalar moves against its new momentum, velocities stay non-negative. *)
Lemma update_var_spec a w g m v :
  length g = length w → length m = length w → length v = length w →
  let r := update_var p a w g m v in
  length r.1.1 = length w ∧ length r.1.2 = length w ∧ length r.2 = length w ∧
  (0 < a → Forall3 moves_against w r.1.2 r.1.1) ∧
  (Forall (Qle 0) v → Forall (Qle 0) r.2).
Proof.
  revert g m v. induction w as [|x w IH]; intros [|g0 g] [|m0 m] [|v0 v] Hg Hm Hv;
    cbn [length] in Hg, Hm, Hv; simplify_eq; [cbn; repeat split; by constructor|].
  destruct (IH g m v) as (L1 & L2 & L3 & Hd & Hn); [done..|].
  cbv zeta. rewrite update_var_cons. cbn [fst snd length].
  split; [lia|]. split; [lia|]. split; [lia|]. split.
  - intros Ha. constructor; [by apply update_w_moves|auto].
  - intros [Hv0 Hvs]%Forall_cons. constructor; [by apply update_v_nonneg|auto].
Qed.

Lemma update_layer_spec a w g m v :
  same_shape g w → same_shape m w → same_shape v w →
  let r := update_layer p a w g m v in
  same_shape r.1.1 w ∧ same_shape r.1.2 w ∧ same_shape r.2 w ∧
  (0 < a → Forall3 moves_against (kernel w ++ bias w) (kernel r.1.2 ++ bias r.1.2)
                                 (kernel r.1.1 ++ bias r.1.1)) ∧
  (nonneg_layer v → nonneg_layer r.2).
Proof.
  intros [Gk Gb] [Mk Mb] [Vk Vb]. unfold update_layer.
  destruct (update_var_spec a (kernel w) (kernel g) (kernel m) (kernel v) Gk Mk Vk)
    as (K1 & K2 & K3 & Kd & Kn).
  destruct (update_var_spec a (bias w) (bias g) (bias m) (bias v) Gb Mb Vb)
    as (B1 & B2 & B3 & Bd & Bn).
  destruct (update_var p a (kernel w) _ _ _) as [[k mk] vk].
  destruct (update_var p a (bias w) _ _ _) as [[b mb] vb]. cbn in *.
  unfold same_shape, nonneg_layer. cbn.
  split; [done|]. split; [done|]. split; [done|]. split.
  - intros Ha. apply Forall3_app; auto.
  - intros [??]. auto.
Qed.

Lemma apply_gradients_spec a ws gs ms vs :
  Forall2 same_shape gs ws → Forall2 same_shape ms ws → Forall2 same_shape vs ws →
  let r := apply_gradients p a ws gs ms vs in
  Forall2 same_shape (map (λ t, t.1.1) r) ws ∧ Forall2 same_shape (map (λ t, t.1.2) r) ws ∧
  Forall2 same_shape (map snd r) ws ∧
  (0 < a → Forall3 moves_against (flatten_vars ws) (flatten_vars (map (λ t, t.1.2) r))
                                 (flatten_vars (map (λ t, t.1.1) r))) ∧
  (Forall nonneg_layer vs → Forall nonneg_layer (map snd r)).
Proof.
  revert gs ms vs. induction ws as [|w ws IH]; intros gs ms vs Hg Hm Hv.
  { cbn. destruct gs, ms, vs; repeat split; by constructor. }
  apply Forall2_cons_inv_r in Hg as (g & gs' & Hg & Hgs & ->).
  apply Forall2_cons_inv_r in Hm as (m & ms' & Hm & Hms & ->).
  apply Forall2_cons_inv_r in Hv as (v & vs' & Hv & Hvs & ->).
  destruct (update_layer_spec a w g m v Hg Hm Hv) as (L1 & L2 & L3 & Ld & Ln).
  destruct (IH gs' ms' vs' Hgs Hms Hvs) as (R1 & R2 & R3 & Rd & Rn).
  cbv zeta in *. cbn [apply_gradients map flatten_vars flat_map].
  split; [by constructor|]. split; [by constructor|]. split; [by constructor|]. split.
  - intros Ha. apply Forall3_app; auto.
  - intros [??]%Forall_cons. constructor; auto.
Qed.

Lemma update_m_fresh g n :
  length g = n → Forall2 (λ m g, m == (1 - beta_1 p) * g) (zip_with (update_m p) g (replicate n 0)) g.
Proof.
  intros <-. induction g as [|x g IH]; cbn; [constructor|].
  constructor; [unfold update_m; ring|exact IH].
Qed.

(** From fresh slots, the new momentum is [(1 - beta_1) * gradient]. *)
Lemma apply_gradients_fresh a ws gs vs :
  Forall2 same_shape gs ws → Forall2 same_shape vs ws →
  Forall2 (λ m g, m == (1 - beta_1 p) * g)
    (flatten_vars (map (λ t, t.1.2) (apply_gradients p a ws gs (map zeros_like ws) vs)))
    (flatten_vars gs).
Proof.
  revert gs vs. induction ws as [|w ws IH]; intros gs vs Hg Hv.
  { apply Forall2_nil_inv_r in Hg as ->. constructor. }
  apply Forall2_cons_inv_r in Hg as (g & gs' & [Gk Gb] & Hgs & ->).
  apply Forall2_cons_inv_r in Hv as (v & vs' & _ & Hvs & ->).
  cbn [apply_gradients map flatten_vars flat_map]. apply Forall2_app; [|by apply IH].
  unfold update_layer, update_var. cbn [fst snd kernel bias zeros_like].
  apply Forall2_app; by apply update_m_fresh.
Qed.

(** One [Adam] step from slots that fit the weights: the weights keep
    their shapes, the new slots fit them, and every scalar weight moves
    against its new momentum. *)
Lemma adam_step_spec `{Gradient} ws o it bx by_ :
  adam_wf ws o →
  let r := adam_step p ws o it bx by_ in
  Forall2 same_shape r.1 ws ∧ adam_wf r.1 r.2 ∧
  ∃ s', r.2 = Some s' ∧ Forall3 moves_against (flatten_vars ws) (flatten_vars (momentums s'))
                                               (flatten_vars r.1).
Proof.
  intros Ho. destruct (slots_of_wf ws o Ho) as (Hm & Hv & Hn).
  destruct (apply_gradients_spec (alpha p it) ws (gradient ws bx by_) _ _
              (gradient_shape ws bx by_) Hm Hv) as (R1 & R2 & R3 & Rd & Rn).
  cbv zeta in *. unfold adam_step. cbn [fst snd adam_wf slots_wf momentums velocities].
  split; [done|]. split.
  - split; [by etrans; [|symmetry]|]. split; [by etrans; [|symmetry]|]. auto.
  - eexists. split; [done|]. by apply Rd, alpha_pos.
Qed.

End Params.

Lemma keras_adam_lr : 0 < learning_rate keras_adam.
Proof. reflexivity. Qed.

Lemma keras_adam_beta_1 : 0 <= beta_1 keras_adam ∧ beta_1 keras_adam < 1.
Proof. split; [discriminate|reflexivity]. Qed.

Lemma keras_adam_beta_2 : 0 <= beta_2 keras_adam ∧ beta_2 keras_adam < 1.
Proof. split; [discriminate|reflexivity]. Qed.

Lemma keras_adam_epsilon : 0 < epsilon keras_adam.
Proof. reflexivity. Qed.

(** ** Properties *)

Section Props.
Context `{SqrtFn} `{Gradient}.

(** C11: every step of [Adam()] moves each scalar weight against its
    updated momentum: down where the momentum is positive, up where it
    is negative, not at all where it is zero (the step size
    [alpha] and the denominator [sqrt(v) + epsilon] are positive).  On
    the first step (slots not built yet) the momentum is a tenth of the
    gradient, so each weight moves against its gradient.  This is exact
    arithmetic: in float32 an update below half an ulp of the weight
    leaves it unchanged, which only weakens "moves" to "does not move
    the wrong way". *)
Theorem adam_step_direction ws o it bx by_ :
  adam_wf ws o →
  ∃ s', (adam_step keras_adam ws o it bx by_).2 = Some s' ∧
    Forall3 moves_against (flatten_vars ws) (flatten_vars (momentums s'))
            (flatten_vars (adam_step keras_adam ws o it bx by_).1) ∧
    (o = None → Forall2 (λ m g, m == g / 10) (flatten_vars (momentums s'))
                                             (flatten_vars (gradient ws bx by_))).
Proof.
  intros Ho.
  destruct (adam_step_spec keras_adam keras_adam_lr keras_adam_beta_1 keras_adam_beta_2
              keras_adam_epsilon ws o it bx by_ Ho) as (_ & _ & s' & Hs & Hd).
  exists s'. split; [done|]. split; [done|]. intros ->.
  revert Hs. unfold adam_step. cbn [default]. intros [= <-]. cbn [momentums].
  eapply Forall2_impl.
  - apply apply_gradients_fresh; [apply gradient_shape|apply zeros_like_shape].
  - intros m g Hm. rewrite Hm. cbn. field.
Qed.

(** C10: training with [Adam()] keeps the optimiser state sound: on
    valid data [train_network] runs to the end, every weight keeps its
    shape, and the slots fit the weights (a momentum and a velocity of
    each variable's shape, every velocity non-negative), from an
    optimiser whose slots are not built yet or already fit. *)
Theorem adam_train_invariant `{Shuffler} (x : ndarray Q) n epochs bs
    (s : train_state (list conv_weights) (option adam_slots)) :
  wf x → shape x = n :: input_shape → (0 < n)%nat → (0 < bs)%nat →
  adam_wf (tr_weights s) (tr_opt s) →
  ∃ s', train_network (adam_step keras_adam) x epochs bs s = Ok s' ∧
        Forall2 same_shape (tr_weights s') (tr_weights s) ∧ adam_wf (tr_weights s') (tr_opt s').
Proof.
  intros Hwf Hs Hn Hbs Ho.
  apply (train_network_preserves (adam_step keras_adam)
           (λ w o, Forall2 same_shape w (tr_weights s) ∧ adam_wf w o) x n); [|done..|by split].
  intros w o it bx by_ [Hw Hwo].
  destruct (adam_step_spec keras_adam keras_adam_lr keras_adam_beta_1 keras_adam_beta_2
              keras_adam_epsilon w o it bx by_ Hwo) as (R1 & R2 & _).
  split; [by etrans|done].
Qed.

End Props.

(** ** Witnesses *)

Definition sample_weights : list conv_weights := [mk_conv_weights [1; -2] [0]; mk_conv_weights [3] [1]].

Lemma adam_step_direction_witness :
  adam_wf sample_weights None ∧
  ∃ s', (adam_step (H := isqrt_fn) (H0 := zero_gradient) keras_adam sample_weights None 0 [] []).2 = Some s' ∧
    Forall3 moves_against (flatten_vars sample_weights) (flatten_vars (momentums s'))
            (flatten_vars (adam_step (H := isqrt_fn) (H0 := zero_gradient) keras_adam sample_weights None 0 [] []).1) ∧
    (None = @None adam_slots → Forall2 (λ m g, m == g / 10) (flatten_vars (momentums s'))
                             (flatten_vars (gradient (Gradient := zero_gradient) sample_weights [] []))).
Proof. split; [exact I|]. apply (adam_step_direction (H := isqrt_fn) (H0 := zero_gradient)). exact I. Defined.

Lemma adam_train_invariant_witness :
  ∃ s', train_network (SH := no_shuffle) (adam_step (H := isqrt_fn) (H0 := zero_gradient) keras_adam)
          grey_batch 50 16 (mk_train_state _ _ sample_weights None 0) = Ok s' ∧
        Forall2 same_shape (tr_weights s') sample_weights ∧ adam_wf (tr_weights s') (tr_opt s').
Proof.
  apply (adam_train_invariant (H := isqrt_fn) (H0 := zero_gradient) (H1 := no_shuffle)
           grey_batch 1 50 16 (mk_train_state _ _ sample_weights None 0)).
  - apply grey_batch_wf.
  - reflexivity.
  - lia.
  - lia.
  - exact I.
Defined.

End Adam.
