(* ===== verification/Pipeline.v ===== *)
(** * [visualize_results] (src lines 64-77) and the [__main__] block
    (lines 98-120)

    The main block loads [/content/pics], normalises it (line 105),
    trains for 50 epochs in batches of 16 (line 108), shows the first five
    samples and the network's output (line 111), saves the weights (line
    114), loads them back (line 117) and prints the test loss on the
    training data (line 120).  The world it runs in is the file system,
    the model's training state and the weight files written so far; what
    it shows is the list of displayed output images and the printed loss.
    The network computed by given weights is [net w], a [Predictor]: its
    numbers depend on what [fit] learnt, its contract does not.  The Keras
    major version [v] decides whether [save_weights] accepts the name.
    A call of [display_image] (lines 21-25) shows one figure, its title
    and its image: what the program outputs on screen, so
    [visualize_results] returns the figures in the order it shows them.
    The layout of matplotlib's figures ([plt.subplot], [figsize], the
    hidden axes) is not modelled. *)

From S2P Require Import Prelude NdArray Pixels Float32 Loader Layers Model Evaluate Forward Network Persistence Training Adam.
From stdpp Require Import gmap.
From Stdlib Require Import QArith.

Module Pipeline.
Import NdArray Pixels Float32 Loader Layers Model Evaluate Forward Network Persistence Training Adam.
Local Open Scope nat_scope.

(** The folder of line 102. *)
Definition pics_dir : string := "/content/pics"%string.

(** [colorized_output[0]]: the first sample of a batch. *)
Definition first_sample (a : ndarray Q) : result (ndarray Q) :=
  rs ← rows a;
  match rs with
  | r :: _ => Ok r
  | [] => Err IndexError
  end.

(** What [plt.imshow] is given: a float image (the normalised samples)
    or a [uint8] one (the network's output after line 68). *)
Inductive plot_data :=
  | FloatImage (a : ndarray Q)
  | ByteImage (a : ndarray Z).

Record figure := mk_figure { fig_title : string; fig_image : plot_data }.

(** [display_image(image_data, title)] (lines 21-25): one figure. *)
Definition display_image (image_data : plot_data) (title : string) : figure :=
  mk_figure title image_data.

(** A shown image of the input shape. *)
Definition figure_ok (f : figure) : Prop :=
  match fig_image f with
  | FloatImage a => shape a = input_shape
  | ByteImage o => shape o = input_shape
  end.

Section Main.
Context {W O : Type} {RS : Resampler} {SH : Shuffler}.
Context (adam_step : W → O → nat → list (ndarray Q) → list (ndarray Q) → W * O).
Context (net : W → Predictor).

(** One pass of the loop of lines 65-77 with the weights [w]: the three
    figures it shows. *)
Definition visualize_one (w : W) (img : ndarray Q) : result (list figure) :=
  img ← reshape img [128; 128; 3];
  x ← reshape img [1; 128; 128; 3];
  out ← @predict (net w) x;
  o0 ← first_sample out;
  let colorized_output := display32_array o0 in
  Ok [display_image (FloatImage img) "Original";
      display_image (ByteImage colorized_output) "Colorized Output";
      display_image (FloatImage img) "Original"]%string.

(** [visualize_results(train_data)] *)
Definition visualize_results (w : W) (train_data : ndarray Q) : result (list figure) :=
  head ← slice_head 5 train_data;
  imgs ← rows head;
  figs ← mapM (visualize_one w) imgs;
  Ok (concat figs).

Record world := mk_world {
  files : fs;
  model : train_state W O;
  saved : gmap string W
}.

Record output := mk_output {
  shown : list figure;
  test_loss : Q
}.

(** Lines 98-120. *)
Definition main (v : keras_version) (w0 : world) : result (world * output) :=
  raw ← load_images (files w0) pics_dir (128, 128);
  let train_data := normalize_array raw in
  st ← train_network adam_step train_data 50 16 (model w0);
  figs ← visualize_results (tr_weights st) train_data;
  sess ← save_model v (mk_session (tr_weights st) (saved w0));
  sess ← load_model v sess;
  loss ← evaluate_network (P := net (weights sess)) train_data;
  Ok (mk_world (files w0) (mk_train_state W O (weights sess) (tr_opt st) (iterations st))
               (disk sess),
      mk_output figs loss).

(** The array [load_images] returns for the selected names [sel] opened as
    the images [imgs] (see [Loader.load_images_value]). *)
Definition pics_array (sel : list string) (imgs : list pil_image) : ndarray Z :=
  mk_ndarray [length sel; 128; 128; 3] (concat (map (λ img, loaded_values img 128 128) imgs)).

End Main.

(** ** Sample worlds (used by the witnesses) *)

(** A fresh session whose [/content/pics] holds a grayscale PNG and an RGB
    JPEG (and two files the filter skips). *)
Definition sample_world : world (W := unit) (O := unit) :=
  mk_world pics_fs (mk_train_state unit unit tt tt 0) ∅.

(** The same files with the network of lines 42-56 trained by [Adam()]
    (a gradient of zeros, [tf.sqrt] to 24 bits), no weights written yet
    (they read as zeros), the optimiser's slots not built yet. *)
Definition sample_adam_step :=
  adam_step (H := isqrt_fn) (H0 := zero_gradient) keras_adam.

Definition network_world : world (W := list conv_weights) (O := option adam_slots) :=
  mk_world pics_fs (mk_train_state (list conv_weights) (option adam_slots) [] None 0) ∅.

(** A session whose [/content/pics] holds only an upper-case ".JPG". *)
Definition upper_world : world (W := unit) (O := unit) :=
  mk_world (mk_fs {[ "/content/pics"%string := ["A.JPG"%string] ]}
                  {[ "/content/pics/A.JPG"%string := ImageFile rgb_1x1 ]})
           (mk_train_state unit unit tt tt 0) ∅.

(** ** Lemmas *)

Lemma first_sample_Ok (y : ndarray Q) s :
  shape y = 1 :: s → first_sample y = Ok (mk_ndarray s (take (size_of s) (data y))).
Proof. intros Hs. unfold first_sample, rows. rewrite Hs. reflexivity. Qed.

(** The loaded array is well formed. *)
Lemma loaded_array_wf {RS : Resampler} f d w h (sel : list string) imgs :
  Forall2 (λ name img, image_open f (path_join d name) = Ok img ∧
                       loaded_channels (mode img) = 3) sel imgs →
  wf (mk_ndarray [length sel; h; w; 3] (concat (map (λ img, loaded_values img w h) imgs))).
Proof.
  intros HF. unfold wf. cbn [shape data].
  rewrite (length_concat_const (size_of [h; w; 3])), length_map, (Forall2_length _ _ _ HF).
  - rewrite !size_of_cons, size_of_nil. lia.
  - apply Forall_map. apply Forall_forall. intros img Himg.
    destruct (Forall2_elem_r _ _ _ _ HF Himg) as (name & _ & Hopen & Hc).
    pose proof (load_one_wf f d w h name img Hopen) as Hw. unfold wf in Hw.
    by rewrite Hc in Hw.
Qed.

Section Props.
Context {W O : Type} {RS : Resampler} {SH : Shuffler}.
Context (adam_step : W → O → nat → list (ndarray Q) → list (ndarray Q) → W * O).
Context (net : W → Predictor).

Lemma visualize_one_Ok w (img : ndarray Q) :
  wf img → shape img = input_shape →
  ∃ figs, visualize_one net w img = Ok figs ∧ length figs = 3 ∧ Forall figure_ok figs.
Proof.
  intros Hwf Hs. unfold visualize_one.
  rewrite (reshape_Ok img [128; 128; 3]) by (rewrite Hs; reflexivity). rewrite bind_Ok.
  rewrite reshape_Ok by apply batch_size. rewrite bind_Ok. cbn [data].
  set (x := mk_ndarray [1; 128; 128; 3] (data img)).
  assert (wf x) as Hx.
  { unfold wf in *. unfold x. cbn [data shape]. rewrite Hwf, Hs. symmetry. apply batch_size. }
  destruct (@predict_shape (net w) x 1 input_shape input_shape Hx eq_refl ltac:(lia) autoencoder_on_input)
    as (y & Hy & Hys & _).
  rewrite Hy, bind_Ok, (first_sample_Ok y input_shape Hys), bind_Ok.
  eexists. split; [done|]. split; [done|].
  constructor; [reflexivity|]. constructor; [|constructor; [reflexivity|constructor]].
  reflexivity.
Qed.

Lemma visualize_results_Ok w (t : ndarray Q) n :
  wf t → shape t = n :: input_shape →
  ∃ figs, visualize_results net w t = Ok figs ∧ length figs = 3 * min 5 n ∧ Forall figure_ok figs.
Proof.
  intros Hwf Hs. unfold visualize_results, slice_head. rewrite Hs, bind_Ok.
  set (b := mk_ndarray (min 5 n :: input_shape) (take (min 5 n * size_of input_shape) (data t))).
  assert (wf b) as Hb.
  { unfold wf in *. unfold b. cbn [data shape]. rewrite length_take, Hwf, Hs, !size_of_cons.
    apply Nat.min_l, Nat.mul_le_mono_r, Nat.le_min_r. }
  destruct (rows_Ok_wf b (min 5 n) input_shape Hb eq_refl) as (imgs & Hr & Hlen & Himgs).
  rewrite Hr, bind_Ok.
  destruct (mapM_Forall_Ok (visualize_one net w)
              (λ fs, length fs = 3 ∧ Forall figure_ok fs) imgs)
    as (figs & Hm & HP & HF2).
  { eapply Forall_impl; [exact Himgs|]. intros img [Hsh Hw].
    destruct (visualize_one_Ok w img Hw Hsh) as (o & Ho & Hol & Hod). eauto. }
  rewrite Hm, bind_Ok. eexists. split; [done|]. apply Forall_and in HP as [HPl HPf]. split.
  - rewrite (length_concat_const 3) by done. rewrite <- (Forall2_length _ _ _ HF2). lia.
  - by apply Forall_concat.
Qed.

End Props.

(** Saving then loading with Keras 2 keeps the weights and writes the
    file. *)
Lemma save_load_keras2 {W} (w : W) d :
  save_model Keras2 (mk_session w d) = Ok (mk_session w (<[weights_file := w]> d)) ∧
  load_model Keras2 (mk_session w (<[weights_file := w]> d)) =
    Ok (mk_session w (<[weights_file := w]> d)).
Proof.
  split; [done|]. unfold load_model, load_weights. cbn [disk].
  by rewrite lookup_insert_eq.
Qed.

(** ** Properties *)

Section Main_props.
Context {W O : Type} {RS : Resampler} {SH : Shuffler}.
Context (adam_step : W → O → nat → list (ndarray Q) → list (ndarray Q) → W * O).
Context (net : W → Predictor).

(** The steps of [main] up to [save_model] on a folder of 1- and 3-band
    images. *)
Lemma main_prefix (w0 : world) names imgs :
  listdir (files w0) pics_dir = Ok names →
  List.filter is_image_name names ≠ [] →
  Forall2 (λ name img, image_open (files w0) (path_join pics_dir name) = Ok img ∧
                       loaded_channels (mode img) = 3) (List.filter is_image_name names) imgs →
  let n := length (List.filter is_image_name names) in
  let t := normalize_array (pics_array (List.filter is_image_name names) imgs) in
  load_images (files w0) pics_dir (128, 128) = Ok (pics_array (List.filter is_image_name names) imgs) ∧
  wf t ∧ shape t = n :: input_shape ∧ 0 < n ∧
  ∃ st figs, train_network adam_step t 50 16 (model w0) = Ok st ∧
    iterations st = iterations (model w0) + 50 * num_batches n 16 ∧
    visualize_results net (tr_weights st) t = Ok figs ∧ length figs = 3 * min 5 n ∧
    Forall figure_ok figs.
Proof.
  intros Hl Hne HF n t.
  assert (wf t) as Hwf by (apply map_elems_wf; unfold pics_array; by eapply loaded_array_wf).
  assert (0 < n) as Hn by (destruct (List.filter is_image_name names); simpl in *; [done|lia]).
  split; [by apply load_images_value|]. split; [done|]. split; [done|]. split; [done|].
  destruct (train_network_Ok adam_step t n 50 16 (model w0) Hwf eq_refl Hn ltac:(lia))
    as (xs & _ & Hlen & Htr).
  destruct (visualize_results_Ok net (fold_left (run_epoch adam_step xs xs 16) (seq 0 50) (model w0)).(tr_weights) t n Hwf eq_refl)
    as (figs & Hv & Hfl & Hfs).
  eexists _, figs. split; [exact Htr|]. split; [|done].
  by rewrite fold_epochs_iterations, length_seq, Hlen.
Qed.

(** The run of [main] with Keras 2 to its end, step by step. *)
Lemma main_keras2_run (w0 : world) names imgs :
  listdir (files w0) pics_dir = Ok names →
  List.filter is_image_name names ≠ [] →
  Forall2 (λ name img, image_open (files w0) (path_join pics_dir name) = Ok img ∧
                       loaded_channels (mode img) = 3) (List.filter is_image_name names) imgs →
  let n := length (List.filter is_image_name names) in
  let t := normalize_array (pics_array (List.filter is_image_name names) imgs) in
  ∃ st figs loss,
    train_network adam_step t 50 16 (model w0) = Ok st ∧
    iterations st = iterations (model w0) + 50 * num_batches n 16 ∧
    length figs = 3 * min 5 n ∧ Forall figure_ok figs ∧
    evaluate_network (P := net (tr_weights st)) t = Ok loss ∧
    main adam_step net Keras2 w0 =
      Ok (mk_world (files w0) (mk_train_state W O (tr_weights st) (tr_opt st) (iterations st))
                   (<[weights_file := tr_weights st]> (saved w0)),
          mk_output figs loss).
Proof.
  intros Hl Hne HF n t.
  destruct (main_prefix w0 names imgs Hl Hne HF)
    as (Hload & Hwf & Hs & Hn & st & figs & Htr & Hit & Hv & Hfl & Hfs).
  destruct (evaluate_network_Ok (P := net (tr_weights st)) t n Hwf Hs Hn) as (loss & Hev).
  destruct (save_load_keras2 (tr_weights st) (saved w0)) as [Hsv Hld].
  exists st, figs, loss. do 5 (split; [done|]).
  unfold main. rewrite Hload, bind_Ok. cbv zeta. unfold t in *. rewrite Htr, bind_Ok, Hv, bind_Ok.
  rewrite Hsv, bind_Ok, Hld, bind_Ok. cbn [weights]. rewrite Hev, bind_Ok. reflexivity.
Qed.

(** The normalised array of 8-bit images has its values in [[0, 1]]. *)
Lemma normalized_pics_unit (sel : list string) imgs :
  Forall (λ img, Forall (λ v, is_uint8 v = true) (pixels img)) imgs →
  Forall (λ q, 0 <= q <= 1)%Q (data (normalize_array (pics_array sel imgs))).
Proof.
  intros Himgs. cbn [normalize_array map_elems pics_array data]. apply Forall_map.
  apply Forall_concat, Forall_map. eapply Forall_impl; [exact Himgs|].
  intros img Hp. eapply Forall_impl; [by apply loaded_values_uint8|].
  intros v Hv%is_uint8_spec. by apply normalize_unit.
Qed.

(** C1: the whole script with Keras 2 on a folder whose selected files
    are 1- or 3-band images: [main] runs to the end; the weights after
    [load_model] are the trained ones; Adam took [50 * ceil(n / 16)]
    steps; the printed loss is [evaluate_network] of the trained network
    on the normalised data; and [3 * min(5, n)] figures are shown, each
    image of shape (128, 128, 3). *)
Theorem main_Ok (w0 : world) names imgs :
  listdir (files w0) pics_dir = Ok names →
  List.filter is_image_name names ≠ [] →
  Forall2 (λ name img, image_open (files w0) (path_join pics_dir name) = Ok img ∧
                       loaded_channels (mode img) = 3) (List.filter is_image_name names) imgs →
  let n := length (List.filter is_image_name names) in
  let t := normalize_array (pics_array (List.filter is_image_name names) imgs) in
  ∃ st w1 out,
    train_network adam_step t 50 16 (model w0) = Ok st ∧
    main adam_step net Keras2 w0 = Ok (w1, out) ∧
    model w1 = mk_train_state W O (tr_weights st) (tr_opt st) (iterations st) ∧
    iterations st = iterations (model w0) + 50 * num_batches n 16 ∧
    evaluate_network (P := net (tr_weights st)) t = Ok (test_loss out) ∧
    length (shown out) = 3 * min 5 n ∧ Forall figure_ok (shown out).
Proof.
  intros Hl Hne HF n t.
  destruct (main_keras2_run w0 names imgs Hl Hne HF)
    as (st & figs & loss & Htr & Hit & Hfl & Hfs & Hev & Hmain).
  eexists st, _, (mk_output figs loss). split; [done|]. split; [exact Hmain|]. done.
Qed.

(** C14: the test loss the script prints (line 96) lies in [[0, 1]]:
    with Keras 2, on a folder of 1- or 3-band 8-bit images, [main] runs
    to the end, and the loss it prints is a mean of squared differences
    between the normalised pixels (line 105, in [[0, 1]]) and the
    network's sigmoid outputs (in [[0, 1]]). *)
Theorem main_loss_bounds (w0 : world) names imgs :
  listdir (files w0) pics_dir = Ok names →
  List.filter is_image_name names ≠ [] →
  Forall2 (λ name img, image_open (files w0) (path_join pics_dir name) = Ok img ∧
                       loaded_channels (mode img) = 3) (List.filter is_image_name names) imgs →
  Forall (λ img, Forall (λ v, is_uint8 v = true) (pixels img)) imgs →
  ∃ w1 out, main adam_step net Keras2 w0 = Ok (w1, out) ∧ (0 <= test_loss out <= 1)%Q.
Proof.
  intros Hl Hne HF Hu.
  destruct (main_keras2_run w0 names imgs Hl Hne HF)
    as (st & figs & loss & _ & _ & _ & _ & Hev & Hmain).
  destruct (main_prefix w0 names imgs Hl Hne HF) as (_ & Hwf & Hs & Hn & _).
  destruct (evaluate_network_unit (P := net (tr_weights st)) _ _ Hwf Hs Hn
              (normalized_pics_unit _ imgs Hu)) as (v & Hv & Hb).
  rewrite Hev in Hv. injection Hv as <-.
  eexists _, _. split; [exact Hmain|]. exact Hb.
Qed.

(** C8: with Keras 3 the same run stops at [save_model] (line 114) with
    [ValueError], after training and showing the figures: the weights are
    never saved, reloaded or evaluated. *)
Theorem main_keras3 (w0 : world) names imgs :
  listdir (files w0) pics_dir = Ok names →
  List.filter is_image_name names ≠ [] →
  Forall2 (λ name img, image_open (files w0) (path_join pics_dir name) = Ok img ∧
                       loaded_channels (mode img) = 3) (List.filter is_image_name names) imgs →
  main adam_step net Keras3 w0 = Err ValueError.
Proof.
  intros Hl Hne HF.
  destruct (main_prefix w0 names imgs Hl Hne HF)
    as (Hload & _ & _ & _ & st & figs & Htr & _ & Hv & _ & _).
  unfold main. rewrite Hload, bind_Ok. cbv zeta. rewrite Htr, bind_Ok, Hv, bind_Ok.
  unfold save_model, save_weights. by rewrite weights_file_not_keras3.
Qed.

(** C22: when no name in [/content/pics] ends in ".jpg" or ".png" (for
    instance only ".JPG" files), [load_images] gives the (0,) array and
    [fit] rejects it: the script stops at line 108 with a Keras
    [ValueError], whatever the Keras version. *)
Theorem main_no_images v (w0 : world) names :
  listdir (files w0) pics_dir = Ok names →
  List.filter is_image_name names = [] →
  main adam_step net v w0 = Err KerasShapeError.
Proof.
  intros Hl Hsel. unfold main. rewrite (load_images_mapM _ _ _ names Hl), Hsel.
  reflexivity.
Qed.

End Main_props.

(** ** Witnesses *)

Lemma main_Ok_witness :
  let n := length (List.filter is_image_name ["a.png"; "notes.txt"; "b.jpg"; "c.JPG"]%string) in
  let t := normalize_array
             (pics_array (RS := nearest) (List.filter is_image_name ["a.png"; "notes.txt"; "b.jpg"; "c.JPG"]%string)
                         [gray_2x2; rgb_1x1]) in
  ∃ st w1 out,
    train_network (SH := no_shuffle) sample_adam_step t 50 16 (model network_world) = Ok st ∧
    main (RS := nearest) (SH := no_shuffle) sample_adam_step network Keras2 network_world = Ok (w1, out) ∧
    model w1 = mk_train_state (list conv_weights) (option adam_slots) (tr_weights st) (tr_opt st) (iterations st) ∧
    iterations st = iterations (model network_world) + 50 * num_batches n 16 ∧
    evaluate_network (P := network (tr_weights st)) t = Ok (test_loss out) ∧
    length (shown out) = 3 * min 5 n ∧ Forall figure_ok (shown out).
Proof.
  apply (main_Ok (RS := nearest) (SH := no_shuffle) sample_adam_step network network_world
           ["a.png"; "notes.txt"; "b.jpg"; "c.JPG"]%string [gray_2x2; rgb_1x1]).
  - reflexivity.
  - discriminate.
  - repeat constructor.
Defined.

Lemma main_loss_bounds_witness :
  ∃ w1 out, main (RS := nearest) (SH := no_shuffle) sample_adam_step network Keras2 network_world = Ok (w1, out) ∧
            (0 <= test_loss out <= 1)%Q.
Proof.
  apply (main_loss_bounds (RS := nearest) (SH := no_shuffle) sample_adam_step network network_world
           ["a.png"; "notes.txt"; "b.jpg"; "c.JPG"]%string [gray_2x2; rgb_1x1]).
  - reflexivity.
  - discriminate.
  - repeat constructor.
  - repeat constructor.
Defined.

Lemma main_keras3_witness :
  main (RS := nearest) (SH := no_shuffle) unit_step (λ _, zero_head) Keras3 sample_world =
    Err ValueError.
Proof.
  apply (main_keras3 (RS := nearest) (SH := no_shuffle) unit_step (λ _, zero_head) sample_world
           ["a.png"; "notes.txt"; "b.jpg"; "c.JPG"]%string [gray_2x2; rgb_1x1]).
  - reflexivity.
  - discriminate.
  - repeat constructor.
Defined.

Lemma main_no_images_witness :
  main (RS := nearest) (SH := no_shuffle) unit_step (λ _, zero_head) Keras2 upper_world =
    Err KerasShapeError.
Proof.
  apply (main_no_images (RS := nearest) (SH := no_shuffle) unit_step (λ _, zero_head) Keras2
           upper_world ["A.JPG"]%string); reflexivity.
Defined.

End Pipeline.
